(** * SwapIt: the rating controller

    A shallow embedding of [backend/controllers/ratingController.js] and the
    properties of the rating subsystem that the specification states.

    The controller is a set of Express handlers over four Mongoose models
    ([User], [SkillListing], [Session], [Rating]).  Every handler is a
    [try { ... } catch (error) { 500 }] block whose body awaits a sequence of
    store calls.  It is embedded as a computation in a small monad [M] that
    threads the four collections and a trace of the store calls issued, and
    that may complete abruptly (a thrown exception).

    Numbers: a JavaScript number is an IEEE 754 binary64 value.  A finite
    one is kept as the rational it is ([Q], compared with
    [Qeq_bool]/[Qle_bool]); comparisons are exact on these.  The results of
    [+] and [/] are rounded to the nearest binary64 number, to the one with
    an even significand on a tie ([Js.round64]), and overflow to an
    infinity ([Js.Num]).  [toFixed(1)] takes the tenth nearest to the exact
    value of its argument, and [parseFloat] the binary64 number nearest to
    that tenth: what a handler shows for 4.4 is the binary64 number that
    [4.4] denotes. *)

From Stdlib Require Import Ascii String QArith Qround Qabs Qpower Lqa.
From stdpp Require Import gmap strings list fin_maps sorting.

Local Open Scope string_scope.

(** ** JSON values: what [res.json] is given

    [JMessage e] is the string [error.message] of the error [e] that the
    store library threw: the handlers pass it on as it is, and its text is
    the library's, which is not part of the sources. *)

#[local] Unset Elimination Schemes.
Inductive Json :=
| JNull
| JBool (b : bool)
| JNum (q : Q)
| JStr (s : string)
| JMessage (error : string)
| JDate (t : N)
| JArr (items : list Json)
| JObj (fields : list (string * Json)).
#[local] Set Elimination Schemes.

(** An object literal in which a property whose value is [undefined] is left
    out, as [JSON.stringify] does. *)
Definition mkObj (fields : list (string * option Json)) : Json :=
  JObj (omap (λ kv, (kv.1,.) <$> kv.2) fields).

Definition prop (k : string) (fields : list (string * Json)) : option Json :=
  snd <$> List.find (λ kv, String.eqb kv.1 k) fields.

(** [get k j]: the property [k] of the object [j] ([None] is [undefined]). *)
Definition get (k : string) (j : Json) : option Json :=
  match j with
  | JObj fields => prop k fields
  | _ => None
  end.

Definition JNat (n : nat) : Json := JNum (inject_Z (Z.of_nat n)).

(** ** The JavaScript operators the controller uses *)

Module Js.

(** [!!v] for a value that is a string or [undefined]. *)
Definition truthy (v : option string) : bool :=
  match v with
  | Some s => negb (String.eqb s "")
  | None => false
  end.

(** [!!v] for a value that is a number or [undefined]. *)
Definition truthyNum (v : option Q) : bool :=
  match v with
  | Some q => negb (Qeq_bool q 0)
  | None => false
  end.

(** [v < k] and [v > k]: [undefined] converts to [NaN], and every comparison
    with [NaN] is false. *)
Definition lt (v : option Q) (k : Q) : bool :=
  match v with
  | Some q => negb (Qle_bool k q)
  | None => false
  end.

Definition gt (v : option Q) (k : Q) : bool :=
  match v with
  | Some q => negb (Qle_bool q k)
  | None => false
  end.

(** [ge a b] is [a >= b] and [le a b] is [a <= b] on numbers. *)
Definition ge (a b : Q) : bool := Qle_bool b a.
Definition le (a b : Q) : bool := Qle_bool a b.

(** [a === b] on numbers. *)
Definition seq (a b : Q) : bool := Qeq_bool a b.

(** *** Arithmetic

    A number: a finite binary64 value, an infinity or [NaN].  Zero has no
    sign here: [-0] and [0] compare equal, add alike and print alike. *)
Inductive Num :=
| Finite (q : Q)
| Infinite (negative : bool)
| NaN.

(** [floorLog2 x], for [x > 0], is the [l] with [2^l <= x < 2^(l+1)]: the
    difference of the binary logarithms of numerator and denominator, or
    one less. *)
Definition floorLog2 (x : Q) : Z :=
  let k := (Z.log2 (Qnum x) - Z.log2 (Zpos (Qden x)))%Z in
  if Qle_bool (2 ^ k) x then k else (k - 1)%Z.

(** The exponent of the binary64 numbers around [x]: they are the multiples
    of [2^e] with a significand of 53 bits, the subnormal ones those of
    [2^-1074]. *)
Definition binade (x : Q) : Z := Z.max (-1074) (floorLog2 (Qabs x) - 52).

(** The nearest integer, the even one on a tie. *)
Definition nearestEven (t : Q) : Z :=
  let f := Qfloor t in
  match (t - inject_Z f ?= 1 # 2)%Q with
  | Lt => f
  | Gt => (f + 1)%Z
  | Eq => if Z.even f then f else (f + 1)%Z
  end.

(** The binary64 number nearest to [x] (round to nearest, ties to even); a
    result of [2^1024] or more in magnitude is an infinity. *)
Definition round64 (x : Q) : Num :=
  let x := Qred x in
  if Qeq_bool x 0 then Finite 0
  else
    let e := binade x in
    let r := (inject_Z (nearestEven (x / 2 ^ e)) * 2 ^ e)%Q in
    if Qle_bool (2 ^ 1024) (Qabs r) then Infinite (negb (Qle_bool 0 x)) else Finite (Qred r).

(** [a + b] for a finite [b]. *)
Definition add (a : Num) (b : Q) : Num :=
  match a with
  | Finite q => round64 (q + b)
  | _ => a
  end.

(** [xs.reduce((sum, x) => sum + x, 0)]. *)
Definition sum (xs : list Q) : Num := fold_left add xs (Finite 0).

(** [a / xs.length]. *)
Definition divLength (a : Num) (n : nat) : Num :=
  match a, n with
  | Finite q, O => if Qeq_bool q 0 then NaN else Infinite (negb (Qle_bool 0 q))
  | Finite q, _ => round64 (q / inject_Z (Z.of_nat n))
  | _, _ => a
  end.

(** [parseFloat(x.toFixed(1))].  [toFixed] works on the absolute value of
    the number: at or above [10^21] it prints the number itself; below, it
    takes the integer [n] with [n / 10] closest to it, the larger one on a
    tie, and prints [n] with one digit after the point.  [parseFloat] reads
    the binary64 number nearest to what was printed.  An infinity and [NaN]
    are printed by their names and read back. *)
Definition toFixed1 (x : Num) : Num :=
  match x with
  | Finite x =>
      let a := Qabs x in
      if Qle_bool (inject_Z (10 ^ 21)) a then Finite x
      else
        let n := Qfloor (a * inject_Z 10 + (1 # 2)) in
        round64 (((if Qle_bool 0 x then n else - n)%Z # 10)%Q)
  | _ => x
  end.

(** [Math.max(...xs)] and [Math.min(...xs)]; of no argument they are
    [-Infinity] and [Infinity], which [res.json] prints as [null]. *)
Definition qmax (a b : Q) : Q := if Qle_bool a b then b else a.
Definition qmin (a b : Q) : Q := if Qle_bool a b then a else b.

Definition Math_max (xs : list Q) : Json :=
  match xs with
  | [] => JNull
  | x :: rest => JNum (fold_left qmax rest x)
  end.

Definition Math_min (xs : list Q) : Json :=
  match xs with
  | [] => JNull
  | x :: rest => JNum (fold_left qmin rest x)
  end.

(** A number as [res.json] prints it: an infinity and [NaN] as [null]. *)
Definition number (x : Num) : Json :=
  match x with
  | Finite q => JNum q
  | _ => JNull
  end.

End Js.

(** ** Identifiers

    An [ObjectId] is kept as its canonical text, 24 lower-case hexadecimal
    digits, which is what [toString()] returns.  Mongoose casts a string that
    is used as an identifier in a query or in a document: 24 hexadecimal
    digits of either case are accepted, anything else is a [CastError]. *)

Abbreviation ObjectId := string (only parsing).

Definition isHexDigit (c : ascii) : bool :=
  let n := nat_of_ascii c in
  ((48 <=? n)%nat && (n <=? 57)%nat) || ((97 <=? n)%nat && (n <=? 102)%nat)
  || ((65 <=? n)%nat && (n <=? 70)%nat).

Definition toLowerHex (c : ascii) : ascii :=
  let n := nat_of_ascii c in
  if (65 <=? n)%nat && (n <=? 70)%nat then ascii_of_nat (n + 32) else c.

Definition castObjectId (s : string) : option ObjectId :=
  let cs := list_ascii_of_string s in
  if (String.length s =? 24)%nat && forallb isHexDigit cs
  then Some (string_of_list_ascii (map toLowerHex cs))
  else None.

(** ** Documents

    The model files are not part of the sources; the fields are the ones the
    controller reads, selects and writes. *)

Record User := {
  u_fullname : string;
  u_email : string;
  u_role : string;
  u_profilePicture : string
}.

Record SkillListing := {
  l_title : string;
  l_description : string;
  l_fee : Q;
  l_category : string
}.

Record Session := {
  s_learnerID : ObjectId;
  s_teacherID : ObjectId;
  s_skillListingID : ObjectId;
  s_status : string
}.

Record Rating := {
  r_learnerID : ObjectId;
  r_teacherID : ObjectId;
  r_listingID : ObjectId;
  r_rating : Q;
  r_createdAt : N
}.

(** A reference of a document that a query returned: the identifier, or,
    once populated, the selected fields of the referenced document ([null]
    when it does not exist). *)
Inductive Ref :=
| Unpopulated (id : ObjectId)
| Populated (doc : option (ObjectId * list (string * Json))).

(** A [Rating] document as a query returns it. *)
Record RatingDoc := {
  doc_id : ObjectId;
  doc_learnerID : Ref;
  doc_teacherID : Ref;
  doc_listingID : Ref;
  doc_rating : Q;
  doc_createdAt : N
}.

Definition Ref_toJSON (r : Ref) : Json :=
  match r with
  | Unpopulated id => JStr id
  | Populated None => JNull
  | Populated (Some (id, fields)) => JObj (("_id", JStr id) :: fields)
  end.

(** [ref.toString()] of a reference that was not populated. *)
Definition Ref_toString (r : Ref) : string :=
  match r with
  | Unpopulated id => id
  | Populated _ => "[object Object]"
  end.

(** [ref?._id?.toString()]. *)
Definition Ref_id (r : Ref) : option string :=
  match r with
  | Unpopulated id => Some id
  | Populated None => None
  | Populated (Some (id, _)) => Some id
  end.

(** [ref?.field] of a populated reference. *)
Definition Ref_field (k : string) (r : Ref) : option Json :=
  match r with
  | Populated (Some (_, fields)) => prop k fields
  | _ => None
  end.

Definition RatingDoc_toJSON (d : RatingDoc) : Json :=
  JObj [("_id", JStr (doc_id d));
        ("learnerID", Ref_toJSON (doc_learnerID d));
        ("teacherID", Ref_toJSON (doc_teacherID d));
        ("listingID", Ref_toJSON (doc_listingID d));
        ("rating", JNum (doc_rating d));
        ("createdAt", JDate (doc_createdAt d))].

Definition User_fields (u : User) : list (string * Json) :=
  [("fullname", JStr (u_fullname u)); ("email", JStr (u_email u));
   ("role", JStr (u_role u)); ("profilePicture", JStr (u_profilePicture u))].

Definition SkillListing_fields (l : SkillListing) : list (string * Json) :=
  [("title", JStr (l_title l)); ("description", JStr (l_description l));
   ("fee", JNum (l_fee l)); ("category", JStr (l_category l))].

(** The fields a projection such as ['fullname email'] keeps. *)
Definition select (names : list string) (fields : list (string * Json)) : list (string * Json) :=
  List.filter (λ kv, bool_decide (kv.1 ∈ names)) fields.

(** ** The store and the handler monad *)

(** One awaited call on a model, as the trace records it. *)
Inductive StoreCall :=
| Call (model : string) (method : string) (args : list (option string)).

Record World := {
  users : gmap ObjectId User;
  skillListings : gmap ObjectId SkillListing;
  sessions : gmap ObjectId Session;
  ratings : gmap ObjectId Rating;
  trace : list StoreCall
}.

(** What a request finds outside the store: the clock read by [new Date()]
    and the identifier the driver gives to the next [new Rating(...)]. *)
Record Env := {
  now : N;
  newObjectId : ObjectId
}.

(** How an awaited call completes: with a value, or with an exception, kept
    as its name. *)
Inductive Completion (A : Type) :=
| Normal (a : A)
| Throw (error : string).
Arguments Normal {A} a.
Arguments Throw {A} error.

Definition M (A : Type) : Type := World → Completion A * World.

#[export] Instance M_ret : MRet M := λ A a w, (Normal a, w).

#[export] Instance M_bind : MBind M := λ A B f m w,
  match m w with
  | (Normal a, w') => f a w'
  | (Throw e, w') => (Throw e, w')
  end.

Definition throw {A} (error : string) : M A := λ w, (Throw error, w).

(** What a handler gives back: [res.status(status).json(body)]. *)
Record Response := {
  status : nat;
  body : Json
}.

Definition Handler : Type := World → Response * World.

(** [try { body } catch (error) { return handler }]: the handlers of the
    controller catch every exception and answer with a response built from
    the error alone. *)
Definition tryCatch (body : M Response) (handler : string → Response) : Handler := λ w,
  match body w with
  | (Normal r, w') => (r, w')
  | (Throw e, w') => (handler e, w')
  end.

(** [return res.status(status).json({ fields })]. *)
Definition respond (status : nat) (fields : list (string * Json)) : M Response :=
  mret {| status := status; body := JObj fields |}.

Definition read {A} (f : World → A) : M A := λ w, (Normal (f w), w).

(** The world once a call is recorded, and once the ratings are rewritten. *)
Definition logged (c : StoreCall) (w : World) : World :=
  {| users := users w; skillListings := skillListings w; sessions := sessions w;
     ratings := ratings w; trace := trace w ++ [c] |}.

Definition withRatings (f : gmap ObjectId Rating → gmap ObjectId Rating) (w : World) : World :=
  {| users := users w; skillListings := skillListings w; sessions := sessions w;
     ratings := f (ratings w); trace := trace w |}.

Definition called (c : StoreCall) : M unit := λ w, (Normal (), logged c w).

Definition setRatings (f : gmap ObjectId Rating → gmap ObjectId Rating) : M unit := λ w,
  (Normal (), withRatings f w).

(** The cast of a query argument; [undefined] stays [undefined]. *)
Definition cast (v : option string) : M (option ObjectId) :=
  match v with
  | None => mret None
  | Some s =>
      match castObjectId s with
      | Some oid => mret (Some oid)
      | None => throw "CastError"
      end
  end.

(** The documents of a collection that a condition selects. *)
Definition docs {A} (p : A → bool) (c : gmap ObjectId A) : list (ObjectId * A) :=
  List.filter (λ kv, p kv.2) (map_to_list c).

Definition lookupId {A} (id : option ObjectId) (c : gmap ObjectId A) : option (ObjectId * A) :=
  oid ← id; (oid,.) <$> c !! oid.

Definition eqId (v : option ObjectId) (id : ObjectId) : bool :=
  bool_decide (v = Some id).

(** *** [User], [SkillListing], [Session] *)

(** [User.findById(id)]; [User.findOne({ _id: id })] is the same query. *)
Definition User_findById (id : option string) : M (option (ObjectId * User)) :=
  _ ← called (Call "User" "findById" [id]);
  oid ← cast id;
  read (λ w, lookupId oid (users w)).

Definition User_findOne (id : option string) : M (option (ObjectId * User)) :=
  _ ← called (Call "User" "findOne" [id]);
  oid ← cast id;
  read (λ w, lookupId oid (users w)).

Definition SkillListing_findById (id : option string) : M (option (ObjectId * SkillListing)) :=
  _ ← called (Call "SkillListing" "findById" [id]);
  oid ← cast id;
  read (λ w, lookupId oid (skillListings w)).

(** The condition [{ learnerID, teacherID, skillListingID, status }]. *)
Definition sessionFor (l t s : option ObjectId) (st : string) (d : Session) : bool :=
  eqId l (s_learnerID d) && eqId t (s_teacherID d) && eqId s (s_skillListingID d)
  && String.eqb (s_status d) st.

(** [Session.findOne({ learnerID, teacherID, skillListingID, status })]. *)
Definition Session_findOne (learner teacher listing : option string) (st : string)
  : M (option (ObjectId * Session)) :=
  _ ← called (Call "Session" "findOne" [learner; teacher; listing; Some st]);
  l ← cast learner;
  t ← cast teacher;
  s ← cast listing;
  read (λ w, head (docs (sessionFor l t s st) (sessions w))).

(** *** [Rating] *)

(** A query on [Rating]: its condition, the references to populate with the
    fields to keep, and whether [.sort({ createdAt: -1 })] was asked.  An
    identifier comes as a string of the request, which the query casts, or,
    in [ByObjectId], as the [_id] of a document at hand. *)
Inductive Condition :=
| ById (id : option string)
| ByObjectId (id : ObjectId)
| ByTriple (learner teacher listing : option string)
| ByListing (id : option string)
| ByLearner (id : option string)
| ByTeacher (id : option string).

Record Query := {
  q_method : string;
  q_condition : Condition;
  q_populate : list (string * list string);
  q_sort : bool
}.

Definition Rating_findById (id : option string) : Query :=
  {| q_method := "findById"; q_condition := ById id; q_populate := []; q_sort := false |}.

Definition Rating_findById_oid (id : ObjectId) : Query :=
  {| q_method := "findById"; q_condition := ByObjectId id; q_populate := [];
     q_sort := false |}.

Definition Rating_findOne (c : Condition) : Query :=
  {| q_method := "findOne"; q_condition := c; q_populate := []; q_sort := false |}.

Definition Rating_find (c : Condition) : Query :=
  {| q_method := "find"; q_condition := c; q_populate := []; q_sort := false |}.

Definition populate (path : string) (fields : list string) (q : Query) : Query :=
  {| q_method := q_method q; q_condition := q_condition q;
     q_populate := q_populate q ++ [(path, fields)]; q_sort := q_sort q |}.

Definition sortNewestFirst (q : Query) : Query :=
  {| q_method := q_method q; q_condition := q_condition q;
     q_populate := q_populate q; q_sort := true |}.

Definition conditionArgs (c : Condition) : list (option string) :=
  match c with
  | ById id | ByListing id | ByLearner id | ByTeacher id => [id]
  | ByObjectId id => [Some id]
  | ByTriple l t s => [l; t; s]
  end.

(** The conditions on a [Rating] document, once the identifiers are cast. *)
Definition hasId (id : option ObjectId) (kv : ObjectId * Rating) : bool :=
  eqId id kv.1.

Definition hasTriple (l t s : option ObjectId) (kv : ObjectId * Rating) : bool :=
  eqId l (r_learnerID kv.2) && eqId t (r_teacherID kv.2) && eqId s (r_listingID kv.2).

Definition ofListing (id : option ObjectId) (kv : ObjectId * Rating) : bool :=
  eqId id (r_listingID kv.2).

Definition ofLearner (id : option ObjectId) (kv : ObjectId * Rating) : bool :=
  eqId id (r_learnerID kv.2).

Definition ofTeacher (id : option ObjectId) (kv : ObjectId * Rating) : bool :=
  eqId id (r_teacherID kv.2).

Definition castCondition (c : Condition) : M (ObjectId * Rating → bool) :=
  match c with
  | ById id => oid ← cast id; mret (hasId oid)
  | ByObjectId id => mret (hasId (Some id))
  | ByTriple l t s => l' ← cast l; t' ← cast t; s' ← cast s; mret (hasTriple l' t' s')
  | ByListing id => oid ← cast id; mret (ofListing oid)
  | ByLearner id => oid ← cast id; mret (ofLearner oid)
  | ByTeacher id => oid ← cast id; mret (ofTeacher oid)
  end.

Definition populateUser (w : World) (fields : list string) (id : ObjectId) : Ref :=
  Populated ((λ u, (id, select fields (User_fields u))) <$> users w !! id).

Definition populateListing (w : World) (fields : list string) (id : ObjectId) : Ref :=
  Populated ((λ l, (id, select fields (SkillListing_fields l))) <$> skillListings w !! id).

Definition populated (path : string) (ps : list (string * list string)) : option (list string) :=
  snd <$> List.find (λ p, String.eqb p.1 path) ps.

Definition toDoc (w : World) (ps : list (string * list string)) (kv : ObjectId * Rating) : RatingDoc :=
  let r := kv.2 in
  {| doc_id := kv.1;
     doc_learnerID := match populated "learnerID" ps with
                  | Some fs => populateUser w fs (r_learnerID r)
                  | None => Unpopulated (r_learnerID r)
                  end;
     doc_teacherID := match populated "teacherID" ps with
                  | Some fs => populateUser w fs (r_teacherID r)
                  | None => Unpopulated (r_teacherID r)
                  end;
     doc_listingID := match populated "listingID" ps with
                  | Some fs => populateListing w fs (r_listingID r)
                  | None => Unpopulated (r_listingID r)
                  end;
     doc_rating := r_rating r;
     doc_createdAt := r_createdAt r |}.

(** Newest first: not older than the next one. *)
Definition newerEq (a b : RatingDoc) : Prop := (doc_createdAt b ≤ doc_createdAt a)%N.

#[export] Instance newerEq_dec : RelDecision newerEq :=
  λ a b, N.le_dec (doc_createdAt b) (doc_createdAt a).

(** The documents a query returns once its condition is cast. *)
Definition selected (p : ObjectId * Rating → bool) (q : Query) (w : World) : list RatingDoc :=
  let found := toDoc w (q_populate q) <$> List.filter p (map_to_list (ratings w)) in
  if q_sort q then merge_sort newerEq found else found.

(** [await query] for [find]: every document the condition selects. *)
Definition awaitAll (q : Query) : M (list RatingDoc) :=
  _ ← called (Call "Rating" (q_method q) (conditionArgs (q_condition q)));
  p ← castCondition (q_condition q);
  read (selected p q).

(** [await query] for [findById] and [findOne]: the first one, or [null]. *)
Definition awaitOne (q : Query) : M (option RatingDoc) :=
  found ← awaitAll q;
  mret (head found).

(** [findByIdAndDelete(id)]. *)
Definition Rating_findByIdAndDelete (id : option string) : M unit :=
  _ ← called (Call "Rating" "findByIdAndDelete" [id]);
  oid ← cast id;
  match oid with
  | Some oid => setRatings (delete oid)
  | None => mret ()
  end.

(** [new Rating({ learnerID, teacherID, listingID, rating })]: the document
    is given its identifier at once; its paths are cast and validated by
    [save]. *)
Record NewRating := {
  n_id : ObjectId;
  n_learnerID : option string;
  n_teacherID : option string;
  n_listingID : option string;
  n_rating : option Q;
  n_createdAt : N
}.

Definition Rating_new (env : Env) (learner teacher listing : option string) (score : option Q)
  : NewRating :=
  {| n_id := newObjectId env; n_learnerID := learner; n_teacherID := teacher;
     n_listingID := listing; n_rating := score; n_createdAt := now env |}.

(** Modelled from the spec: the validators that [models/rating.js], which is
    not among the sources, declares on the path [rating].  The data model of
    the specification says of the score: "integer, domain range 1–5
    inclusive"; the schema accepts these numbers and no other. *)
Definition ratingSchema (q : Q) : bool :=
  Qeq_bool (inject_Z (Qfloor q)) q && Qle_bool 1 q && Qle_bool q 5.

Section Controller.

(** The validators of the path [rating]: the controller is embedded for
    every schema, and the claims that depend on what the schema validates
    are settled on [ratingSchema]. *)
Variable ratingValid : Q → bool.

(** [newRating.save()]: every path is required, cast and validated, and the
    identifier must be unused. *)
Definition Rating_insert (d : NewRating) : M unit :=
  _ ← called (Call "Rating" "save" [Some (n_id d)]);
  l ← cast (n_learnerID d);
  t ← cast (n_teacherID d);
  s ← cast (n_listingID d);
  match l, t, s, n_rating d with
  | Some l, Some t, Some s, Some q =>
      if ratingValid q then
        taken ← read (λ w, bool_decide (is_Some (ratings w !! n_id d)));
        if taken : bool then throw "MongoServerError"
        else setRatings (insert (n_id d)
               {| r_learnerID := l; r_teacherID := t; r_listingID := s;
                  r_rating := q; r_createdAt := n_createdAt d |})
      else throw "ValidationError"
  | _, _, _, _ => throw "ValidationError"
  end.

(** [existingRating.rating = score; existingRating.save()]. *)
Definition Rating_saveRating (d : RatingDoc) (score : option Q) : M RatingDoc :=
  _ ← called (Call "Rating" "save" [Some (doc_id d)]);
  match score with
  | Some q =>
      if ratingValid q then
        _ ← setRatings (alter (λ r, {| r_learnerID := r_learnerID r; r_teacherID := r_teacherID r;
                                       r_listingID := r_listingID r; r_rating := q;
                                       r_createdAt := r_createdAt r |}) (doc_id d));
        mret {| doc_id := doc_id d; doc_learnerID := doc_learnerID d;
                doc_teacherID := doc_teacherID d; doc_listingID := doc_listingID d;
                doc_rating := q; doc_createdAt := doc_createdAt d |}
      else throw "ValidationError"
  | None => throw "ValidationError"
  end.

(** *** The handlers, in the order of the source *)

Record CreateRatingBody := {
  body_learnerID : option string;
  body_teacherID : option string;
  body_listingID : option string;
  body_rating : option Q
}.

Definition orNull (d : option RatingDoc) : Json :=
  match d with
  | Some d => RatingDoc_toJSON d
  | None => JNull
  end.

Definition createRating (env : Env) (req : CreateRatingBody) : Handler :=
  tryCatch
    (let learnerID := body_learnerID req in
     let teacherID := body_teacherID req in
     let listingID := body_listingID req in
     let rating := body_rating req in
     (* Validate required fields *)
     if negb (Js.truthy learnerID) || negb (Js.truthy teacherID)
        || negb (Js.truthy listingID) || negb (Js.truthyNum rating)
     then respond 400 [("message", JStr "All fields are required"); ("success", JBool false)]
     (* Validate rating value *)
     else if Js.lt rating 1 || Js.gt rating 5
     then respond 400 [("message", JStr "Rating must be between 1 and 5");
                       ("success", JBool false)]
     else
       (* Check if learner exists *)
       learner ← User_findById learnerID;
       if negb (bool_decide (is_Some learner))
       then respond 404 [("message", JStr "Learner not found"); ("success", JBool false)]
       else
       (* Check if teacher exists *)
       teacher ← User_findById teacherID;
       if negb (bool_decide (is_Some teacher))
       then respond 404 [("message", JStr "Teacher not found"); ("success", JBool false)]
       else
       (* Check if listing exists *)
       listing ← SkillListing_findById listingID;
       if negb (bool_decide (is_Some listing))
       then respond 404 [("message", JStr "Skill listing not found"); ("success", JBool false)]
       else
       (* Check if the learner has completed a session for this listing *)
       completedSession ← Session_findOne learnerID teacherID listingID "completed";
       if negb (bool_decide (is_Some completedSession))
       then respond 403 [("message", JStr "You can only rate courses you have completed");
                         ("success", JBool false)]
       else
       (* Check if learner has already rated this listing by this teacher *)
       existingRating ← awaitOne (Rating_findOne (ByTriple learnerID teacherID listingID));
       if bool_decide (is_Some existingRating)
       then respond 400 [("message", JStr "You have already rated this listing");
                         ("success", JBool false)]
       else
       (* Create new rating *)
       let newRating := Rating_new env learnerID teacherID listingID rating in
       _ ← Rating_insert newRating;
       (* Populate the rating with related data *)
       populatedRating ← awaitOne (populate "listingID" ["title"]
                                   (populate "teacherID" ["fullname"; "email"]
                                    (populate "learnerID" ["fullname"; "email"]
                                     (Rating_findById_oid (n_id newRating)))));
       respond 201 [("message", JStr "Rating created successfully");
                    ("success", JBool true);
                    ("rating", orNull populatedRating)])
    (λ error, {| status := 500;
                 body := JObj [("message", JStr "Internal server error");
                               ("success", JBool false)] |}).

Definition updateRating (id : option string) (rating : option Q) : Handler :=
  tryCatch
    ((* Validate rating ID *)
     if negb (Js.truthy id)
     then respond 400 [("message", JStr "Rating ID is required"); ("success", JBool false)]
     (* Validate rating value *)
     else if negb (Js.truthyNum rating) || Js.lt rating 1 || Js.gt rating 5
     then respond 400 [("message", JStr "Rating must be between 1 and 5");
                       ("success", JBool false)]
     else
       (* Find the existing rating *)
       existingRating ← awaitOne (Rating_findById id);
       match existingRating with
       | None => respond 404 [("message", JStr "Rating not found"); ("success", JBool false)]
       | Some existingRating =>
           (* Update the rating *)
           existingRating ← Rating_saveRating existingRating rating;
           respond 200 [("message", JStr "Rating updated successfully");
                        ("success", JBool true);
                        ("rating", JObj [("_id", JStr (doc_id existingRating));
                                         ("rating", JNum (doc_rating existingRating))])]
       end)
    (λ error, {| status := 500;
                 body := JObj [("message", JStr "Internal server error");
                               ("success", JBool false)] |}).


Definition deleteRating (env : Env) (id : option string) (userId : string) : Handler :=
  tryCatch
    ((* Validate rating ID *)
     if negb (Js.truthy id)
     then respond 400 [("message", JStr "Rating ID is required"); ("success", JBool false)]
     (* Validate ID format (MongoDB ObjectId should be 24 characters) *)
     else if negb (String.length (default "" id) =? 24)%nat
     then respond 400 [("message", JStr "Invalid rating ID format"); ("success", JBool false)]
     else
       (* First find the rating to check ownership *)
       rating ← awaitOne (Rating_findById id);
       match rating with
       | None => respond 404 [("message", JStr "Rating not found"); ("success", JBool false)]
       | Some rating =>
           (* Check if the current user owns this rating *)
           if negb (String.eqb (Ref_toString (doc_learnerID rating)) userId)
           then respond 403 [("message", JStr "You can only delete your own ratings");
                             ("success", JBool false)]
           else
             (* Delete the rating *)
             _ ← Rating_findByIdAndDelete id;
             respond 200 [("message", JStr "Rating deleted successfully");
                          ("success", JBool true);
                          ("deletedRating",
                           JObj [("_id", JStr (doc_id rating));
                                 ("learnerID", Ref_toJSON (doc_learnerID rating));
                                 ("teacherID", Ref_toJSON (doc_teacherID rating));
                                 ("listingID", Ref_toJSON (doc_listingID rating));
                                 ("rating", JNum (doc_rating rating));
                                 ("deletedAt", JDate (now env))])]
       end)
    (λ error, {| status := 500;
                 body := JObj [("message", JStr "Internal server error");
                               ("success", JBool false);
                               ("error", JMessage error)] |}).

(** [ratings.reduce((sum, rating) => sum + rating.rating, 0) / ratings.length]. *)
Definition average (ratings : list RatingDoc) : Js.Num :=
  Js.divLength (Js.sum (doc_rating <$> ratings)) (length ratings).

Definition getRatingsByListing (listingId : option string) : Handler :=
  tryCatch
    ((* Validate listing ID *)
     if negb (Js.truthy listingId)
     then respond 400 [("message", JStr "Listing ID is required"); ("success", JBool false)]
     else
       (* Find all ratings for the listing *)
       ratings ← awaitAll (sortNewestFirst
                           (populate "listingID" ["title"]
                            (populate "teacherID" ["fullname"; "email"]
                             (populate "learnerID" ["fullname"; "email"]
                              (Rating_find (ByListing listingId))))));
       (* Calculate average rating only if there are at least 5 ratings *)
       let averageRating :=
         if (5 <=? length ratings)%nat then Js.number (Js.toFixed1 (average ratings))
         else JNull in
       respond 200 [("message", JStr "Ratings retrieved successfully");
                    ("success", JBool true);
                    ("ratings", JArr (RatingDoc_toJSON <$> ratings));
                    ("totalRatings", JNat (length ratings));
                    ("averageRating", averageRating);
                    ("minimumRequired", JNat 5);
                    ("note", if (length ratings <? 5)%nat
                             then JStr "At least 5 ratings are required to show average rating"
                             else JNull)])
    (λ error, {| status := 500;
                 body := JObj [("message", JStr "Internal server error");
                               ("success", JBool false)] |}).

Definition getAverageRating (listingId : option string) : Handler :=
  tryCatch
    ((* Validate listing ID *)
     if negb (Js.truthy listingId)
     then respond 400 [("message", JStr "Listing ID is required"); ("success", JBool false)]
     else
       (* Find all ratings for the listing *)
       ratings ← awaitAll (Rating_find (ByListing listingId));
       (* Check if there are at least 5 ratings *)
       if (length ratings <? 5)%nat
       then respond 200 [("message", JStr "Average rating not available yet");
                         ("success", JBool true);
                         ("averageRating", JNull);
                         ("totalRatings", JNat (length ratings));
                         ("minimumRequired", JNat 5);
                         ("note", JStr "At least 5 ratings are required to show average rating")]
       else
         (* Calculate average rating *)
         let averageRating := average ratings in
         respond 200 [("message", JStr "Average rating retrieved successfully");
                      ("success", JBool true);
                      ("averageRating", Js.number (Js.toFixed1 averageRating));
                      ("totalRatings", JNat (length ratings))])
    (λ error, {| status := 500;
                 body := JObj [("message", JStr "Internal server error");
                               ("success", JBool false)] |}).

(** The learner-side listings: ratings with the teacher and the listing
    populated, newest first. *)
Definition getMyRatings (userId : string) : Handler :=
  tryCatch
    ((* Get all ratings by this user *)
     ratings ← awaitAll (sortNewestFirst
                         (populate "listingID" ["title"; "description"; "fee"]
                          (populate "teacherID" ["fullname"; "email"]
                           (Rating_find (ByLearner (Some userId))))));
     respond 200 [("message", JStr "User ratings retrieved successfully");
                  ("success", JBool true);
                  ("ratings", JArr (RatingDoc_toJSON <$> ratings))])
    (λ error, {| status := 500;
                 body := JObj [("message", JStr "Internal server error");
                               ("success", JBool false)] |}).

Definition userSummary (user : ObjectId * User) : Json :=
  JObj [("id", JStr user.1); ("fullname", JStr (u_fullname user.2));
        ("email", JStr (u_email user.2))].

Definition getRatingsByUserId (userId : option string) : Handler :=
  tryCatch
    ((* Validate user ID format (MongoDB ObjectId should be 24 characters) *)
     if negb (Js.truthy userId)
     then respond 400 [("message", JStr "User ID is required"); ("success", JBool false)]
     else if negb (String.length (default "" userId) =? 24)%nat
     then respond 400 [("message", JStr "Invalid user ID format"); ("success", JBool false)]
     else
       (* Check if user exists *)
       user ← User_findById userId;
       match user with
       | None => respond 404 [("message", JStr "User not found"); ("success", JBool false)]
       | Some user =>
           (* Get all ratings by this specific user *)
           ratings ← awaitAll (sortNewestFirst
                               (populate "listingID" ["title"; "description"; "fee"]
                                (populate "teacherID" ["fullname"; "email"]
                                 (Rating_find (ByLearner userId)))));
           respond 200 [("message", JStr "User ratings retrieved successfully");
                        ("success", JBool true);
                        ("ratings", JArr (RatingDoc_toJSON <$> ratings));
                        ("user", userSummary user)]
       end)
    (λ error, {| status := 500;
                 body := JObj [("message", JStr "Internal server error");
                               ("success", JBool false);
                               ("error", JMessage error)] |}).

Definition getRatingsByLearnerId (learnerId : option string) : Handler :=
  tryCatch
    ((* Validate learner ID format (MongoDB ObjectId should be 24 characters) *)
     if negb (Js.truthy learnerId)
     then respond 400 [("message", JStr "Learner ID is required"); ("success", JBool false)]
     else
       (* the check of the length is commented out in the source *)
       learner ← User_findOne learnerId;
       (* Check if learner exists *)
       match learner with
       | None => respond 404 [("message", JStr "Learner not found"); ("success", JBool false)]
       | Some learner =>
           (* Get all ratings given BY this specific learner *)
           ratings ← awaitAll (sortNewestFirst
                               (populate "listingID" ["title"; "description"; "fee"; "category"]
                                (populate "teacherID" ["fullname"; "email"; "profilePicture"]
                                 (Rating_find (ByLearner learnerId)))));
           respond 200 [("message", JStr ("Ratings given by " ++ u_fullname learner.2
                                          ++ " retrieved successfully"));
                        ("success", JBool true);
                        ("ratings", JArr (RatingDoc_toJSON <$> ratings));
                        ("learner", userSummary learner);
                        ("totalRatings", JNat (length ratings))]
       end)
    (λ error, {| status := 500;
                 body := JObj [("message", JStr "Internal server error");
                               ("success", JBool false);
                               ("error", JMessage error)] |}).

Definition getMyReceivedRatings (userId : string) : Handler :=
  tryCatch
    ((* Get all ratings received BY the current user (when they were a teacher) *)
     ratings ← awaitAll (sortNewestFirst
                         (populate "listingID" ["title"; "description"; "fee"; "category"]
                          (populate "learnerID" ["fullname"; "email"; "profilePicture"]
                           (Rating_find (ByTeacher (Some userId))))));
     respond 200 [("message", JStr "Ratings you received as a teacher retrieved successfully");
                  ("success", JBool true);
                  ("ratings", JArr (RatingDoc_toJSON <$> ratings));
                  ("totalRatings", JNat (length ratings))])
    (λ error, {| status := 500;
                 body := JObj [("message", JStr "Internal server error");
                               ("success", JBool false);
                               ("error", JMessage error)] |}).

(** [ratings.filter(r => test(r.rating)).length]. *)
Definition countWhere (test : Q → bool) (ratings : list RatingDoc) : nat :=
  length (List.filter (λ r, test (doc_rating r)) ratings).

Definition getAverageRatingsByTeacherId (teacherId : option string) : Handler :=
  tryCatch
    ((* Validate teacher ID format (MongoDB ObjectId should be 24 characters) *)
     if negb (Js.truthy teacherId)
     then respond 400 [("message", JStr "Teacher ID is required"); ("success", JBool false)]
     else if negb (String.length (default "" teacherId) =? 24)%nat
     then respond 400 [("message", JStr "Invalid teacher ID format"); ("success", JBool false)]
     else
       (* Check if teacher exists *)
       teacher ← User_findById teacherId;
       match teacher with
       | None => respond 404 [("message", JStr "Teacher not found"); ("success", JBool false)]
       | Some teacher =>
           (* Verify the user is actually a teacher *)
           if negb (String.eqb (u_role teacher.2) "teacher")
           then respond 400 [("message", JStr "This user is not a teacher");
                             ("success", JBool false)]
           else
             (* Get all ratings received by this teacher *)
             ratings ← awaitAll (sortNewestFirst
                                 (populate "listingID" ["title"; "description"; "fee"]
                                  (populate "learnerID" ["fullname"; "email"]
                                   (Rating_find (ByTeacher teacherId)))));
             (* Check if there are any ratings *)
             if (length ratings =? 0)%nat
             then respond 200 [("message", JStr (u_fullname teacher.2
                                                 ++ " has not received any ratings yet"));
                               ("success", JBool true);
                               ("averageRating", JNull);
                               ("totalRatings", JNat 0);
                               ("ratings", JArr []);
                               ("teacher", userSummary teacher);
                               ("note", JStr "This teacher hasn't received any ratings yet")]
             else
               (* Calculate average rating *)
               let totalRating := Js.sum (doc_rating <$> ratings) in
               let averageRating :=
                 Js.toFixed1 (Js.divLength totalRating (length ratings)) in
               (* Calculate rating distribution *)
               let ratingDistribution :=
                 JObj [("1", JNat (countWhere (λ r, Js.seq r 1) ratings));
                       ("2", JNat (countWhere (λ r, Js.seq r 2) ratings));
                       ("3", JNat (countWhere (λ r, Js.seq r 3) ratings));
                       ("4", JNat (countWhere (λ r, Js.seq r 4) ratings));
                       ("5", JNat (countWhere (λ r, Js.seq r 5) ratings))] in
               (* Get unique skills taught (from listings) *)
               let uniqueSkills := remove_dups ((λ r, Ref_id (doc_listingID r)) <$> ratings) in
               (* Get recent ratings (last 5) *)
               let recentRatings := take 5 ratings in
               respond 200
                 [("message", JStr ("Average ratings for " ++ u_fullname teacher.2
                                    ++ " retrieved successfully"));
                  ("success", JBool true);
                  ("averageRating", Js.number averageRating);
                  ("totalRatings", JNat (length ratings));
                  ("teacher", JObj [("id", JStr teacher.1);
                                    ("fullname", JStr (u_fullname teacher.2));
                                    ("email", JStr (u_email teacher.2));
                                    ("role", JStr (u_role teacher.2))]);
                  ("ratingDistribution", ratingDistribution);
                  ("uniqueSkillsCount", JNat (length uniqueSkills));
                  ("recentRatings",
                   JArr ((λ rating,
                            mkObj [("_id", Some (JStr (doc_id rating)));
                                   ("rating", Some (JNum (doc_rating rating)));
                                   ("learner", Ref_field "fullname" (doc_learnerID rating));
                                   ("skill", Ref_field "title" (doc_listingID rating));
                                   ("createdAt", Some (JDate (doc_createdAt rating)))])
                         <$> recentRatings));
                  ("statistics",
                   JObj [("highestRating", Js.Math_max (doc_rating <$> ratings));
                         ("lowestRating", Js.Math_min (doc_rating <$> ratings));
                         ("ratingsAbove4", JNat (countWhere (λ r, Js.ge r 4) ratings));
                         ("ratingsBelow3", JNat (countWhere (λ r, Js.le r 2) ratings))])]
       end)
    (λ error, {| status := 500;
                 body := JObj [("message", JStr "Internal server error");
                               ("success", JBool false);
                               ("error", JMessage error)] |}).

End Controller.

(** * Specification

    The notions the specification speaks of, stated over the store. *)

(** ** Error kinds

    The specification classifies failures by kind; the handlers answer with an
    HTTP status and a message.  A duplicate rating is answered with status
    400, like a validation failure, and is told apart by its message. *)

Inductive ErrorKind :=
| ValidationError | NotFoundError | ForbiddenError | ConflictError | InternalError.

Definition message (r : Response) : option Json := get "message" (body r).

Definition errorKind (r : Response) : option ErrorKind :=
  match status r with
  | 400%nat =>
      match message r with
      | Some (JStr "You have already rated this listing") => Some ConflictError
      | _ => Some ValidationError
      end
  | 403%nat => Some ForbiddenError
  | 404%nat => Some NotFoundError
  | 500%nat => Some InternalError
  | _ => None
  end.

(** An error response of the common shape. *)
Definition failure (st : nat) (msg : string) : Response :=
  {| status := st; body := JObj [("message", JStr msg); ("success", JBool false)] |}.

(** Two worlds hold the same documents (the trace apart). *)
Definition sameStore (w w' : World) : Prop :=
  users w = users w' ∧ skillListings w = skillListings w'
  ∧ sessions w = sessions w' ∧ ratings w = ratings w'.

(** What [deleteRating] answers with: the fields of the deleted rating and
    the time of the deletion. *)
Definition snapshot (oid : ObjectId) (r : Rating) (deletedAt : N) : Json :=
  JObj [("_id", JStr oid); ("learnerID", JStr (r_learnerID r));
        ("teacherID", JStr (r_teacherID r)); ("listingID", JStr (r_listingID r));
        ("rating", JNum (r_rating r)); ("deletedAt", JDate deletedAt)].

(** ** Scores and their mean *)

Definition validScore (q : Q) : Prop := (1 <= q)%Q ∧ (q <= 5)%Q.

Definition isInteger (q : Q) : Prop := (inject_Z (Qfloor q) == q)%Q.

(** An integer between 1 and 5: a score of the data model. *)
Definition wholeScore (q : Q) : Prop := isInteger q ∧ validScore q.

(** The number that a decimal denotes: the binary64 number nearest to it. *)
Definition written (q : Q) : Json := Js.number (Js.round64 q).

(** [r] is [x] rounded to one decimal place: the number written [n / 10]
    for a tenth [n / 10] that is at most half a tenth away from [x].  At a
    tie, an [x] halfway between two tenths, either tenth is a rounding. *)
Definition roundedTo1 (r x : Q) : Prop :=
  ∃ n : Z, Js.round64 (n # 10) = Js.Finite r ∧ (Qabs ((n # 10) - x) <= 1 # 20)%Q.

Definition total (xs : list Q) : Q := foldr Qplus 0%Q xs.

Definition mean (xs : list Q) : Q := (total xs / inject_Z (Z.of_nat (length xs)))%Q.

Definition scoresOf (rs : list (ObjectId * Rating)) : list Q := (λ kv, r_rating kv.2) <$> rs.

(** The ratings of a listing and those a teacher received, as the store holds
    them. *)
Definition ratingsOfListing (w : World) (lid : ObjectId) : list (ObjectId * Rating) :=
  filter (λ kv, r_listingID kv.2 = lid) (map_to_list (ratings w)).

Definition ratingsOfTeacher (w : World) (tid : ObjectId) : list (ObjectId * Rating) :=
  filter (λ kv, r_teacherID kv.2 = tid) (map_to_list (ratings w)).

(** The number of scores that pass a test, and the greatest and the least of
    a list of scores. *)
Definition count (test : Q → Prop) `{∀ q, Decision (test q)} (xs : list Q) : nat :=
  length (filter test xs).

Definition greatest (m : Q) (xs : list Q) : Prop :=
  m ∈ xs ∧ ∀ x, x ∈ xs → (x <= m)%Q.

Definition least (m : Q) (xs : list Q) : Prop :=
  m ∈ xs ∧ ∀ x, x ∈ xs → (m <= x)%Q.

(** ** The gates of [createRating]

    The gates in the order the specification lists them, each one stated on
    its own over the request and the store; [createRating_outcome] below
    compares the handler with them. *)

Inductive Gate :=
| RequiredFields | ScoreRange | LearnerExists | TeacherExists | ListingExists
| CompletedSession | NoDuplicate.

#[export] Instance Gate_eq_dec : EqDecision Gate.
Proof. solve_decision. Defined.

Definition gateOrder : list Gate :=
  [RequiredFields; ScoreRange; LearnerExists; TeacherExists; ListingExists;
   CompletedSession; NoDuplicate].

Definition sessionOf (l t s : ObjectId) (st : string) (d : Session) : Prop :=
  s_learnerID d = l ∧ s_teacherID d = t ∧ s_skillListingID d = s ∧ s_status d = st.

Definition ratingOf (l t s : ObjectId) (r : Rating) : Prop :=
  r_learnerID r = l ∧ r_teacherID r = t ∧ r_listingID r = s.

#[export] Instance sessionOf_dec l t s st d : Decision (sessionOf l t s st d).
Proof. unfold sessionOf. apply _. Defined.

#[export] Instance ratingOf_dec l t s r : Decision (ratingOf l t s r).
Proof. unfold ratingOf. apply _. Defined.

(** A completed session of the triple exists; a rating of the triple exists. *)
Definition hasCompletedSession (w : World) (l t s : ObjectId) : Prop :=
  map_Exists (λ _, sessionOf l t s "completed") (sessions w).

Definition hasRating (w : World) (l t s : ObjectId) : Prop :=
  map_Exists (λ _, ratingOf l t s) (ratings w).

(** The referenced document exists: the identifier is well formed and the
    collection holds a document under it. *)
Definition resolves {A} (id : option string) (c : gmap ObjectId A) (msg : string)
  : option Response :=
  match id ≫= castObjectId with
  | Some oid => if c !! oid is Some _ then None else Some (failure 404 msg)
  | None => Some (failure 500 "Internal server error")
  end.

(** The three identifiers of a request, cast. *)
Definition triple (req : CreateRatingBody) : option (ObjectId * ObjectId * ObjectId) :=
  l ← body_learnerID req ≫= castObjectId;
  t ← body_teacherID req ≫= castObjectId;
  s ← body_listingID req ≫= castObjectId;
  Some (l, t, s).

(** [check g req w] is the error with which the gate [g] turns the request
    down on the store [w], and [None] when the gate lets it pass. *)
Definition check (g : Gate) (req : CreateRatingBody) (w : World) : option Response :=
  match g with
  | RequiredFields =>
      if Js.truthy (body_learnerID req) && Js.truthy (body_teacherID req)
         && Js.truthy (body_listingID req) && Js.truthyNum (body_rating req)
      then None else Some (failure 400 "All fields are required")
  | ScoreRange =>
      match body_rating req with
      | Some q => if Qle_bool 1 q && Qle_bool q 5 then None
                  else Some (failure 400 "Rating must be between 1 and 5")
      | None => None
      end
  | LearnerExists => resolves (body_learnerID req) (users w) "Learner not found"
  | TeacherExists => resolves (body_teacherID req) (users w) "Teacher not found"
  | ListingExists => resolves (body_listingID req) (skillListings w) "Skill listing not found"
  | CompletedSession =>
      match triple req with
      | Some (l, t, s) =>
          if bool_decide (hasCompletedSession w l t s) then None
          else Some (failure 403 "You can only rate courses you have completed")
      | None => Some (failure 500 "Internal server error")
      end
  | NoDuplicate =>
      match triple req with
      | Some (l, t, s) =>
          if bool_decide (hasRating w l t s)
          then Some (failure 400 "You have already rated this listing")
          else None
      | None => Some (failure 500 "Internal server error")
      end
  end.

(** The first gate of a list that turns the request down, with its error. *)
Fixpoint firstFailure (gs : list Gate) (req : CreateRatingBody) (w : World)
  : option (Gate * Response) :=
  match gs with
  | [] => None
  | g :: gs =>
      match check g req w with
      | Some e => Some (g, e)
      | None => firstFailure gs req w
      end
  end.

(** The store calls a gate issues. *)
Definition gateCalls (g : Gate) (req : CreateRatingBody) : list StoreCall :=
  match g with
  | RequiredFields | ScoreRange => []
  | LearnerExists => [Call "User" "findById" [body_learnerID req]]
  | TeacherExists => [Call "User" "findById" [body_teacherID req]]
  | ListingExists => [Call "SkillListing" "findById" [body_listingID req]]
  | CompletedSession =>
      [Call "Session" "findOne" [body_learnerID req; body_teacherID req;
                                 body_listingID req; Some "completed"]]
  | NoDuplicate =>
      [Call "Rating" "findOne" [body_learnerID req; body_teacherID req; body_listingID req]]
  end.

(** The calls issued when the gate [g] is the one that answers: those of the
    gates up to [g], in order. *)
Fixpoint callsUpTo (gs : list Gate) (g : Gate) (req : CreateRatingBody) : list StoreCall :=
  match gs with
  | [] => []
  | g' :: gs => gateCalls g' req ++ (if bool_decide (g' = g) then [] else callsUpTo gs g req)
  end.

(** The rating [createRating] writes. *)
Definition newRatingOf (env : Env) (l t s : ObjectId) (q : Q) : Rating :=
  {| r_learnerID := l; r_teacherID := t; r_listingID := s; r_rating := q;
     r_createdAt := now env |}.

(** The condition of a query and what it is once cast. *)
Inductive casts : Condition → (ObjectId * Rating → bool) → Prop :=
| casts_ById s oid :
    castObjectId s = Some oid → casts (ById (Some s)) (hasId (Some oid))
| casts_ByObjectId oid : casts (ByObjectId oid) (hasId (Some oid))
| casts_ByTriple sl st ss l t s :
    castObjectId sl = Some l → castObjectId st = Some t → castObjectId ss = Some s →
    casts (ByTriple (Some sl) (Some st) (Some ss)) (hasTriple (Some l) (Some t) (Some s))
| casts_ByListing s oid :
    castObjectId s = Some oid → casts (ByListing (Some s)) (ofListing (Some oid))
| casts_ByLearner s oid :
    castObjectId s = Some oid → casts (ByLearner (Some s)) (ofLearner (Some oid))
| casts_ByTeacher s oid :
    castObjectId s = Some oid → casts (ByTeacher (Some s)) (ofTeacher (Some oid)).

(** ** A sample store

    Six users, one listing taught by [bob], a session of [alice] with [bob]
    on the listing, and the ratings [bob] received for it. *)

Definition alice : ObjectId := "64b000000000000000000001".
Definition bob : ObjectId := "64b000000000000000000002".
Definition carol : ObjectId := "64b000000000000000000003".
Definition dave : ObjectId := "64b000000000000000000004".
Definition erin : ObjectId := "64b000000000000000000005".
Definition frank : ObjectId := "64b000000000000000000006".
Definition piano : ObjectId := "64c000000000000000000001".
Definition lesson : ObjectId := "64d000000000000000000001".

Definition person (name role : string) : User :=
  {| u_fullname := name; u_email := name ++ "@swapit.test"; u_role := role;
     u_profilePicture := "" |}.

Definition sampleUsers : gmap ObjectId User :=
  <[alice := person "Alice" "learner"]>
  (<[bob := person "Bob" "teacher"]>
   (<[carol := person "Carol" "learner"]>
    (<[dave := person "Dave" "learner"]>
     (<[erin := person "Erin" "learner"]>
      (<[frank := person "Frank" "learner"]> ∅))))).

Definition sampleListings : gmap ObjectId SkillListing :=
  <[piano := {| l_title := "Piano"; l_description := "Piano for beginners";
                l_fee := 20; l_category := "music" |}]> ∅.

(** The store with the session of [alice] in the given status and the given
    ratings. *)
Definition sampleWorld (sessionStatus : string) (rs : gmap ObjectId Rating) : World :=
  {| users := sampleUsers;
     skillListings := sampleListings;
     sessions := <[lesson := {| s_learnerID := alice; s_teacherID := bob;
                                s_skillListingID := piano;
                                s_status := sessionStatus |}]> ∅;
     ratings := rs;
     trace := [] |}.

Definition ratingBy (learner : ObjectId) (score : Q) (at_ : N) : Rating :=
  {| r_learnerID := learner; r_teacherID := bob; r_listingID := piano;
     r_rating := score; r_createdAt := at_ |}.

Definition rating1 : ObjectId := "64e000000000000000000001".
Definition rating2 : ObjectId := "64e000000000000000000002".
Definition rating3 : ObjectId := "64e000000000000000000003".
Definition rating4 : ObjectId := "64e000000000000000000004".
Definition rating5 : ObjectId := "64e000000000000000000005".
Definition rating6 : ObjectId := "64e000000000000000000006".

(** The scores 5, 5, 4, 3, 5. *)
Definition fiveRatings : gmap ObjectId Rating :=
  <[rating1 := ratingBy alice 5 100]>
  (<[rating2 := ratingBy carol 5 200]>
   (<[rating3 := ratingBy dave 4 300]>
    (<[rating4 := ratingBy erin 3 400]>
     (<[rating5 := ratingBy frank 5 500]> ∅)))).

Definition oneRating : gmap ObjectId Rating :=
  <[rating1 := ratingBy alice 4 100]> ∅.

Definition today : Env := {| now := 1000; newObjectId := rating6 |}.


Definition request (learner teacher listing : string) (score : Q) : CreateRatingBody :=
  {| body_learnerID := Some learner; body_teacherID := Some teacher;
     body_listingID := Some listing; body_rating := Some score |}.


(** A rating with another score. *)
Definition withScore (q : Q) (r : Rating) : Rating :=
  {| r_learnerID := r_learnerID r; r_teacherID := r_teacherID r;
     r_listingID := r_listingID r; r_rating := q; r_createdAt := r_createdAt r |}.

(** Every stored score is within [1, 5]; every stored score is an integer
    within [1, 5]. *)
Definition scoresInRange (w : World) : Prop :=
  ∀ k r, ratings w !! k = Some r → validScore (r_rating r).

Definition scoresWhole (w : World) : Prop :=
  ∀ k r, ratings w !! k = Some r → wholeScore (r_rating r).

(** Comparisons of scores are decidable. *)
#[export] Instance Qeq_decision (x y : Q) : Decision (x == y)%Q := Qeq_dec x y.

#[export] Instance Qle_decision (x y : Q) : Decision (x <= y)%Q.
Proof. destruct (Qlt_le_dec y x) as [H|H]; [right; by apply Qlt_not_le|by left]. Defined.

(** The distribution of a list of scores: how many are 1, 2, 3, 4 and 5. *)
Definition distributionOf (xs : list Q) : Json :=
  JObj [("1", JNat (count (λ x, x == 1)%Q xs));
        ("2", JNat (count (λ x, x == 2)%Q xs));
        ("3", JNat (count (λ x, x == 3)%Q xs));
        ("4", JNat (count (λ x, x == 4)%Q xs));
        ("5", JNat (count (λ x, x == 5)%Q xs))].

(** ** Notions for the handlers as a whole *)

(** The response says [success: true] exactly when its status is 200 or
    201. *)
Definition successful (r : Response) : bool :=
  (status r =? 200)%nat || (status r =? 201)%nat.

Definition flagged (r : Response) : Prop :=
  get "success" (body r) = Some (JBool (successful r)).

(** A computation that leaves the four collections as they are, however it
    completes; a property of every response that a computation returns. *)
Definition readOnly {A} (m : M A) : Prop := ∀ w, sameStore w (m w).2.

Definition answers {A} (P : A → Prop) (m : M A) : Prop :=
  ∀ w a w', m w = (Normal a, w') → P a.


(** The ratings a learner gave, as the store holds them. *)
Definition ratingsOfLearner (w : World) (uid : ObjectId) : list (ObjectId * Rating) :=
  filter (λ kv, r_learnerID kv.2 = uid) (map_to_list (ratings w)).

(** The identifier and the score of a document, and of a stored rating. *)
Definition docKey (d : RatingDoc) : ObjectId * Q := (doc_id d, doc_rating d).

Definition ratingKey (kv : ObjectId * Rating) : ObjectId * Q := (kv.1, r_rating kv.2).

(** The elements of a JSON array. *)
Definition items (j : option Json) : list Json :=
  match j with
  | Some (JArr l) => l
  | _ => []
  end.

(** A learner, a teacher or a listing as a populated rating shows it. *)
Definition userRef (w : World) (id : ObjectId) : Json :=
  match users w !! id with
  | Some u => JObj [("_id", JStr id); ("fullname", JStr (u_fullname u));
                    ("email", JStr (u_email u))]
  | None => JNull
  end.

Definition listingRef (w : World) (id : ObjectId) : Json :=
  match skillListings w !! id with
  | Some l => JObj [("_id", JStr id); ("title", JStr (l_title l))]
  | None => JNull
  end.

(** A rating joined with the names of its learner and teacher and the title
    of its listing. *)
Definition joined (w : World) (id : ObjectId) (r : Rating) : Json :=
  JObj [("_id", JStr id);
        ("learnerID", userRef w (r_learnerID r));
        ("teacherID", userRef w (r_teacherID r));
        ("listingID", listingRef w (r_listingID r));
        ("rating", JNum (r_rating r));
        ("createdAt", JDate (r_createdAt r))].

(** ** Notions for the statistics of a teacher *)

(** A score that the distribution of a teacher counts: one of 1 to 5. *)
Definition oneToFive (x : Q) : Prop :=
  (x == 1 ∨ x == 2 ∨ x == 3 ∨ x == 4 ∨ x == 5)%Q.

#[export] Instance oneToFive_dec (x : Q) : Decision (oneToFive x).
Proof. unfold oneToFive. apply _. Defined.

(** The skill a rating stands for among the skills a teacher taught: its
    listing, as long as the listing exists. *)
Definition skillOf (w : World) (kv : ObjectId * Rating) : option ObjectId :=
  _ ← skillListings w !! r_listingID kv.2; Some (r_listingID kv.2).

(** What the entry of a recent rating shows of the rating. *)
Definition recentKey (j : Json) : option Json * option Json * option Json :=
  (get "_id" j, get "rating" j, get "createdAt" j).

Definition recentOf (d : RatingDoc) : option Json * option Json * option Json :=
  (Some (JStr (doc_id d)), Some (JNum (doc_rating d)), Some (JDate (doc_createdAt d))).
(** * Proofs *)

(** ** Numbers: rounding to binary64 *)

Lemma pow2_pos (k : Z) : (0 < 2 ^ k)%Q.
Proof. by apply Qpower_0_lt. Qed.

Lemma pow2_succ (k : Z) : (2 ^ (k + 1) == 2 * 2 ^ k)%Q.
Proof. rewrite Qpower_plus by done. change (2 ^ 1)%Q with 2%Q. ring. Qed.

Lemma pow2_Z (k : Z) : (0 <= k)%Z → (inject_Z (2 ^ k) == 2 ^ k)%Q.
Proof. intros H. by rewrite Zpower_Qpower. Qed.

Lemma pow2_neg (k : Z) : (k <= 0)%Z → (2 ^ k * inject_Z (2 ^ (- k)) == 1)%Q.
Proof.
  intros H. rewrite pow2_Z by lia. rewrite <- Qpower_plus by done.
  replace (k + - k)%Z with 0%Z by lia. reflexivity.
Qed.

Lemma floorLog2_spec (x : Q) :
  (0 < x)%Q → (2 ^ Js.floorLog2 x <= x)%Q ∧ (x < 2 ^ (Js.floorLog2 x + 1))%Q.
Proof.
  intros Hx. unfold Js.floorLog2.
  destruct x as [p q]. cbn [Qnum Qden].
  assert (Hp : (0 < p)%Z) by (unfold Qlt in Hx; cbn in Hx; lia).
  set (lp := Z.log2 p). set (lq := Z.log2 (Z.pos q)).
  destruct (Z.log2_spec p Hp) as [Hp1 Hp2].
  destruct (Z.log2_spec (Z.pos q) ltac:(lia)) as [Hq1 Hq2].
  fold lp in Hp1, Hp2. fold lq in Hq1, Hq2.
  assert (Hlp : (0 <= lp)%Z) by apply Z.log2_nonneg.
  assert (Hlq : (0 <= lq)%Z) by apply Z.log2_nonneg.
  rewrite Zle_Qle, pow2_Z in Hp1, Hq1 by done.
  rewrite Zlt_Qlt, pow2_Z in Hp2, Hq2 by lia.
  replace (Z.succ lp) with (lp + 1)%Z in Hp2 by lia.
  replace (Z.succ lq) with (lq + 1)%Z in Hq2 by lia.
  rewrite pow2_succ in Hp2, Hq2.
  assert (Hk : (2 ^ lp == 2 ^ (lp - lq) * 2 ^ lq)%Q).
  { rewrite <- Qpower_plus by done. by replace (lp - lq + lq)%Z with lp by lia. }
  pose proof (pow2_pos (lp - lq)) as Hk0. pose proof (pow2_pos lq) as Hq0.
  set (K := (2 ^ (lp - lq))%Q) in *. set (A := (2 ^ lp)%Q) in *. set (B := (2 ^ lq)%Q) in *.
  assert (Hx' : (p # q == inject_Z p / inject_Z (Z.pos q))%Q) by apply Qmake_Qdiv.
  assert (Hqpos : (0 < inject_Z (Z.pos q))%Q) by (rewrite <- (Zlt_Qlt 0); lia).
  set (P := inject_Z p) in *. set (D := inject_Z (Z.pos q)) in *.
  assert (Hup : (p # q < 2 * K)%Q).
  { rewrite Hx'. apply Qlt_shift_div_r; [done|].
    apply (Qlt_le_trans _ (2 * A)); [done|]. rewrite Hk.
    rewrite <- Qmult_assoc. apply Qmult_le_l; [reflexivity|].
    apply Qmult_le_l; done. }
  assert (Hlow : (K < 2 * (p # q))%Q).
  { rewrite Hx'. unfold Qdiv. rewrite Qmult_assoc. apply Qlt_shift_div_l; [done|].
    apply (Qlt_le_trans _ (K * (2 * B))); [by apply Qmult_lt_l|].
    rewrite (Qmult_comm 2 B), Qmult_assoc, <- Hk, (Qmult_comm A 2).
    apply Qmult_le_l; [reflexivity|done]. }
  destruct (Qle_bool K (p # q)) eqn:E.
  - apply Qle_bool_iff in E. split; [done|]. by rewrite pow2_succ.
  - assert (HK : (p # q < K)%Q).
    { apply Qnot_le_lt. intros H. apply Qle_bool_iff in H. congruence. }
    replace (lp - lq - 1 + 1)%Z with (lp - lq)%Z by lia. split; [|done].
    assert (H2 : (2 * 2 ^ (lp - lq - 1) == K)%Q).
    { rewrite <- pow2_succ. by replace (lp - lq - 1 + 1)%Z with (lp - lq)%Z by lia. }
    pose proof (pow2_pos (lp - lq - 1)). lra.
Qed.

Lemma Qabs_pos_eq (x : Q) : (0 <= x)%Q → Qabs x = x.
Proof.
  destruct x as [p q]. unfold Qle. cbn. intros H. f_equal. apply Z.abs_eq. lia.
Qed.

Lemma binade_spec (x : Q) :
  (0 < x)%Q →
  let e := Js.binade x in
  (-1074 <= e)%Z ∧ (x < 2 ^ (e + 53))%Q ∧ (e = (-1074)%Z ∨ (2 ^ (e + 52) <= x)%Q).
Proof.
  intros Hx. cbn zeta. unfold Js.binade. rewrite (Qabs_pos_eq x) by lra.
  destruct (floorLog2_spec x Hx) as [Hlo Hhi]. set (l := Js.floorLog2 x) in *.
  split; [lia|]. split.
  - apply (Qlt_le_trans _ _ _ Hhi). apply Qpower_le_compat_l; [lia|done].
  - destruct (Z.max_spec (-1074) (l - 52)) as [[_ ->]|[_ ->]]; [right|by left].
    by replace (l - 52 + 52)%Z with l by lia.
Qed.

Lemma nearestEven_spec (t : Q) :
  (Qabs (inject_Z (Js.nearestEven t) - t) <= 1 # 2)%Q
  ∧ (∀ c : Z, (inject_Z c <= t)%Q → (c <= Js.nearestEven t)%Z)
  ∧ (∀ c : Z, (t <= inject_Z c)%Q → (Js.nearestEven t <= c)%Z).
Proof.
  unfold Js.nearestEven. pose proof (Qfloor_le t) as Hf. pose proof (Qlt_floor t) as Hc.
  set (f := Qfloor t) in *. rewrite inject_Z_plus in Hc. change (inject_Z 1) with 1%Q in Hc.
  assert (Hlow : ∀ c : Z, (inject_Z c <= t)%Q → (c <= f)%Z).
  { intros c Hle. apply Qfloor_resp_le in Hle. by rewrite Qfloor_Z in Hle. }
  assert (Hup : ∀ c : Z, (t <= inject_Z c)%Q → (inject_Z f < t)%Q → (f + 1 <= c)%Z).
  { intros c Hle Hlt. assert (H : (inject_Z f < inject_Z c)%Q) by lra.
    rewrite <- Zlt_Qlt in H. lia. }
  assert (Hup' : ∀ c : Z, (t <= inject_Z c)%Q → (f <= c)%Z).
  { intros c Hle. assert (H : (inject_Z f <= inject_Z c)%Q) by lra.
    by rewrite <- Zle_Qle in H. }
  assert (Hone : (inject_Z (f + 1) == inject_Z f + 1)%Q) by (by rewrite inject_Z_plus).
  destruct (Qcompare_spec (t - inject_Z f) (1 # 2)) as [He|Hl|Hg].
  - destruct (Z.even f).
    + split_and!; [apply Qabs_Qle_condition; lra|done|done].
    + split_and!.
      * rewrite Hone. apply Qabs_Qle_condition; lra.
      * intros c Hle. specialize (Hlow c Hle). lia.
      * intros c Hle. apply Hup; [done|lra].
  - split_and!; [apply Qabs_Qle_condition; lra|done|done].
  - split_and!.
    + rewrite Hone. apply Qabs_Qle_condition; lra.
    + intros c Hle. specialize (Hlow c Hle). lia.
    + intros c Hle. apply Hup; [done|lra].
Qed.

Lemma round64_compat (x y : Q) : (x == y)%Q → Js.round64 x = Js.round64 y.
Proof. intros H. unfold Js.round64. by rewrite (Qred_complete x y H). Qed.

(** [round64] at a positive number. *)
Lemma round64_pos (x : Q) :
  (0 < x)%Q →
  ∃ e m : Z,
    e = Js.binade (Qred x) ∧ m = Js.nearestEven (Qred x / 2 ^ e)
    ∧ Js.round64 x
      = if Qle_bool (2 ^ 1024) (Qabs (inject_Z m * 2 ^ e))
        then Js.Infinite false else Js.Finite (Qred (inject_Z m * 2 ^ e)).
Proof.
  intros Hx. eexists _, _. split; [reflexivity|]. split; [reflexivity|].
  unfold Js.round64. cbn zeta.
  assert (H0 : Qeq_bool (Qred x) 0 = false).
  { apply not_true_is_false. intros H%Qeq_bool_iff. rewrite Qred_correct in H. lra. }
  rewrite H0.
  assert (H1 : Qle_bool 0 (Qred x) = true).
  { apply Qle_bool_iff. rewrite Qred_correct. lra. }
  by rewrite H1.
Qed.

Lemma Qred_inject_Z (k : Z) : Qred (inject_Z k) = inject_Z k.
Proof. apply Qcanon.Qred_identity. cbn. apply Z.gcd_1_r. Qed.

(** Rounding keeps a number between two integers, up to [2^52], that it
    lies between: these are binary64 numbers themselves. *)
Lemma round64_bounds (x : Q) (lo hi : Z) :
  (0 < lo)%Z → (hi <= 2 ^ 52)%Z → (inject_Z lo <= x)%Q → (x <= inject_Z hi)%Q →
  ∃ r, Js.round64 x = Js.Finite (Qred r) ∧ (inject_Z lo <= r)%Q ∧ (r <= inject_Z hi)%Q.
Proof.
  intros Hlo Hhi Hx1 Hx2.
  assert (Hlo' : (0 < inject_Z lo)%Q) by (by rewrite <- (Zlt_Qlt 0)).
  assert (Hx : (0 < x)%Q) by lra.
  destruct (round64_pos x Hx) as (e & m & He & Hm & ->).
  pose proof (Qred_correct x) as Hr. set (x' := Qred x) in *.
  assert (Hx' : (0 < x')%Q) by (rewrite Hr; done).
  destruct (binade_spec x' Hx') as (He1 & He2 & He3). rewrite <- He in He1, He2, He3.
  assert (Hhi' : (inject_Z hi <= 2 ^ 52)%Q).
  { rewrite <- pow2_Z by lia. by rewrite <- Zle_Qle. }
  assert (He0 : (e <= 0)%Z).
  { destruct He3 as [->|He3]; [lia|].
    assert (H : (2 ^ (e + 52) <= 2 ^ 52)%Q) by lra.
    apply Qpower_le_compat_l_inv in H; [lia|done]. }
  pose proof (pow2_neg e He0) as Hs. pose proof (pow2_pos e) as Hp.
  set (s := (2 ^ (- e))%Z) in *. set (E := (2 ^ e)%Q) in *.
  assert (Hspos : (0 < inject_Z s)%Q).
  { rewrite <- (Zlt_Qlt 0). unfold s. apply Z.pow_pos_nonneg; lia. }
  assert (Ht : (x' / E == x' * inject_Z s)%Q).
  { unfold Qdiv. apply Qmult_comp; [reflexivity|].
    rewrite <- (Qmult_1_r (/ E)), <- Hs, Qmult_assoc, (Qmult_comm (/ E)), Qmult_inv_r by lra.
    ring. }
  destruct (nearestEven_spec (x' / E)) as (_ & Hn1 & Hn2). rewrite <- Hm in Hn1, Hn2.
  assert (Hm1 : (lo * s <= m)%Z).
  { apply Hn1. rewrite Ht, inject_Z_mult. apply Qmult_le_compat_r; lra. }
  assert (Hm2 : (m <= hi * s)%Z).
  { apply Hn2. rewrite Ht, inject_Z_mult. apply Qmult_le_compat_r; lra. }
  rewrite Zle_Qle, inject_Z_mult in Hm1, Hm2.
  assert (Hr1 : (inject_Z lo <= inject_Z m * E)%Q).
  { apply (Qmult_le_compat_r _ _ E) in Hm1; [|lra].
    rewrite <- Qmult_assoc, (Qmult_comm (inject_Z s)), Hs, Qmult_1_r in Hm1. done. }
  assert (Hr2 : (inject_Z m * E <= inject_Z hi)%Q).
  { apply (Qmult_le_compat_r _ _ E) in Hm2; [|lra].
    rewrite <- Qmult_assoc, (Qmult_comm (inject_Z s)), Hs, Qmult_1_r in Hm2. done. }
  exists (inject_Z m * E)%Q.
  assert (Hfin : Qle_bool (2 ^ 1024) (Qabs (inject_Z m * E)) = false).
  { apply not_true_is_false. intros H%Qle_bool_iff. rewrite Qabs_pos in H by lra.
    assert (H' : (2 ^ 1024 <= 2 ^ 52)%Q) by lra.
    apply Qpower_le_compat_l_inv in H'; [lia|done]. }
  by rewrite Hfin.
Qed.

Lemma round64_integer (x : Q) (k : Z) :
  (0 < k)%Z → (k <= 2 ^ 52)%Z → (x == inject_Z k)%Q → Js.round64 x = Js.Finite (inject_Z k).
Proof.
  intros Hk1 Hk2 Hx.
  destruct (round64_bounds x k k Hk1 Hk2) as (r & -> & Hr1 & Hr2); [lra..|].
  f_equal. rewrite <- (Qred_inject_Z k). apply Qred_complete. lra.
Qed.

(** The error of rounding a number between 1 and 5. *)
Lemma round64_error (x : Q) :
  (1 <= x)%Q → (x <= 5)%Q →
  ∃ r, Js.round64 x = Js.Finite (Qred r) ∧ (1 <= r)%Q ∧ (r <= 5)%Q
       ∧ (Qabs (r - x) <= 1 # 2 ^ 51)%Q.
Proof.
  intros Hx1 Hx2. assert (Hx : (0 < x)%Q) by lra.
  destruct (round64_bounds x 1 5) as (r0 & Hr0 & Hb1 & Hb2); [lia|lia|done..|].
  destruct (round64_pos x Hx) as (e & m & He & Hm & Hr).
  rewrite Hr0 in Hr.
  pose proof (Qred_correct x) as Hxr. set (x' := Qred x) in *.
  assert (Hx' : (0 < x')%Q) by (rewrite Hxr; done).
  destruct (binade_spec x' Hx') as (He1 & He2 & He3). rewrite <- He in He1, He2, He3.
  assert (He0 : (e <= -50)%Z).
  { destruct He3 as [->|He3]; [lia|].
    assert (H : (2 ^ (e + 52) < 2 ^ 3)%Q).
    { apply (Qle_lt_trans _ x'); [done|]. rewrite Hxr. change (2 ^ 3)%Q with 8%Q. lra. }
    apply Qpower_lt_compat_l_inv in H; [lia|done]. }
  assert (HE : (2 ^ e <= 1 # 2 ^ 50)%Q).
  { change (1 # 2 ^ 50)%Q with (2 ^ (-50))%Q. apply Qpower_le_compat_l; [done|done]. }
  pose proof (pow2_pos e) as Hp. set (E := (2 ^ e)%Q) in *.
  destruct (nearestEven_spec (x' / E)) as (Hn & _ & _). rewrite <- Hm in Hn.
  destruct (Qle_bool (2 ^ 1024) (Qabs (inject_Z m * E))); [discriminate Hr|].
  injection Hr as Hr.
  exists (inject_Z m * E)%Q. split; [by rewrite Hr0, Hr|].
  assert (Hr' : (r0 == inject_Z m * E)%Q).
  { rewrite <- (Qred_correct r0), Hr. apply Qred_correct. }
  change (inject_Z 1) with 1%Q in Hb1. change (inject_Z 5) with 5%Q in Hb2.
  split; [by rewrite <- Hr'|]. split; [by rewrite <- Hr'|].
  assert (Hd : (inject_Z m * E - x == (inject_Z m - x' / E) * E)%Q).
  { rewrite Hxr. field. lra. }
  rewrite Hd, Qabs_Qmult, (Qabs_pos E) by lra.
  apply (Qle_trans _ ((1 # 2) * (1 # 2 ^ 50))); [|by compute].
  apply Qmult_le_compat_nonneg; split; try lra. apply Qabs_nonneg.
Qed.

(** ** Sums, means and averages *)

Lemma total_Permutation (xs ys : list Q) : xs ≡ₚ ys → (total xs == total ys)%Q.
Proof.
  induction 1 as [|x xs ys _ IH|x y xs|xs ys zs _ IH1 _ IH2].
  - reflexivity.
  - change (x + total xs == x + total ys)%Q. by rewrite IH.
  - change (y + (x + total xs) == x + (y + total xs))%Q. ring.
  - by rewrite IH1.
Qed.

Lemma inject_Z_S (n : nat) : (inject_Z (Z.of_nat (S n)) == inject_Z (Z.of_nat n) + 1)%Q.
Proof. rewrite Nat2Z.inj_succ. unfold Z.succ. by rewrite inject_Z_plus. Qed.

Lemma total_bounds (xs : list Q) :
  Forall validScore xs →
  (inject_Z (Z.of_nat (length xs)) <= total xs)%Q
  ∧ (total xs <= 5 * inject_Z (Z.of_nat (length xs)))%Q.
Proof.
  induction 1 as [|x xs [Hlo Hhi] _ [IHlo IHhi]].
  - change ((0 <= 0)%Q ∧ (0 <= 5 * 0)%Q). split; lra.
  - change (total (x :: xs)) with (x + total xs)%Q.
    change (length (x :: xs)) with (S (length xs)). rewrite inject_Z_S. split; lra.
Qed.

Lemma wholeScore_oneToFive (x : Q) : wholeScore x → oneToFive x.
Proof.
  intros [Hi [H1 H5]]. unfold isInteger in Hi. generalize dependent (Qfloor x). intros f Hi.
  rewrite <- Hi in H1, H5.
  change 1%Q with (inject_Z 1) in H1. change 5%Q with (inject_Z 5) in H5.
  rewrite <- Zle_Qle in H1, H5. unfold oneToFive.
  assert (Hf : f = 1%Z ∨ f = 2%Z ∨ f = 3%Z ∨ f = 4%Z ∨ f = 5%Z) by lia.
  destruct Hf as [Hf | [Hf | [Hf | [Hf | Hf]]]]; subst f; rewrite <- Hi;
    [left|right; left|do 2 right; left|do 3 right; left|do 4 right]; reflexivity.
Qed.

Lemma oneToFive_integer (x : Q) :
  oneToFive x → ∃ j : Z, (1 <= j <= 5)%Z ∧ (x == inject_Z j)%Q.
Proof.
  intros [H|[H|[H|[H|H]]]];
    [exists 1%Z|exists 2%Z|exists 3%Z|exists 4%Z|exists 5%Z]; (split; [lia|exact H]).
Qed.

Lemma sum_integers_from (xs : list Q) (k : Z) :
  Forall oneToFive xs → (0 <= k)%Z → (k + 5 * Z.of_nat (length xs) <= 2 ^ 52)%Z →
  ∃ K : Z, fold_left Js.add xs (Js.Finite (inject_Z k)) = Js.Finite (inject_Z K)
           ∧ (inject_Z K == inject_Z k + total xs)%Q.
Proof.
  intros Hxs. revert k. induction Hxs as [|x xs Hx _ IH]; intros k Hk Hlen.
  - exists k. split; [done|]. change (total []) with 0%Q. ring.
  - destruct (oneToFive_integer x Hx) as (j & Hj & Hxj).
    cbn [length] in Hlen. rewrite Nat2Z.inj_succ in Hlen.
    cbn [fold_left Js.add].
    rewrite (round64_integer _ (k + j)); [|lia|lia|rewrite inject_Z_plus; lra].
    destruct (IH (k + j)%Z) as (K & HK & Ht); [lia|lia|].
    exists K. split; [done|]. rewrite Ht, inject_Z_plus.
    change (total (x :: xs)) with (x + total xs)%Q. lra.
Qed.

Lemma sum_integers (xs : list Q) :
  Forall oneToFive xs → (length xs < 2 ^ 32)%nat →
  ∃ K : Z, Js.sum xs = Js.Finite (inject_Z K) ∧ (inject_Z K == total xs)%Q.
Proof.
  intros Hxs Hlen.
  destruct (sum_integers_from xs 0 Hxs) as (K & HK & Ht); [lia| |].
  - apply Nat2Z.inj_lt in Hlen. rewrite Nat2Z.inj_pow in Hlen. cbn in Hlen. lia.
  - exists K. split; [done|]. rewrite Ht. change (inject_Z 0) with 0%Q. ring.
Qed.

Lemma sum_bounds_from (xs : list Q) (a : Q) (lo hi : Z) :
  Forall validScore xs → (0 <= lo)%Z → (hi + 5 * Z.of_nat (length xs) <= 2 ^ 52)%Z →
  (inject_Z lo <= a)%Q → (a <= inject_Z hi)%Q →
  ∃ s, fold_left Js.add xs (Js.Finite a) = Js.Finite s
       ∧ (inject_Z (lo + Z.of_nat (length xs)) <= s)%Q
       ∧ (s <= inject_Z (hi + 5 * Z.of_nat (length xs)))%Q.
Proof.
  intros Hxs. revert a lo hi. induction Hxs as [|x xs [Hx1 Hx2] _ IH]; intros a lo hi Hlo Hlen Ha1 Ha2.
  - exists a. cbn [length]. rewrite !Z.mul_0_r, !Z.add_0_r. done.
  - cbn [length] in *. rewrite Nat2Z.inj_succ in *. cbn [fold_left Js.add].
    destruct (round64_bounds (a + x) (lo + 1) (hi + 5)) as (r & -> & Hr1 & Hr2);
      [lia|lia|rewrite inject_Z_plus; change (inject_Z 1) with 1%Q; lra
      |rewrite inject_Z_plus; change (inject_Z 5) with 5%Q; lra|].
    destruct (IH (Qred r) (lo + 1)%Z (hi + 5)%Z) as (s & Hs & Hs1 & Hs2);
      [lia|lia|by rewrite Qred_correct|by rewrite Qred_correct|].
    exists s. split; [done|].
    replace (lo + Z.succ (Z.of_nat (length xs)))%Z with (lo + 1 + Z.of_nat (length xs))%Z by lia.
    replace (hi + 5 * Z.succ (Z.of_nat (length xs)))%Z
      with (hi + 5 + 5 * Z.of_nat (length xs))%Z by lia.
    done.
Qed.

Lemma sum_bounds (xs : list Q) :
  Forall validScore xs → (length xs < 2 ^ 32)%nat →
  ∃ s, Js.sum xs = Js.Finite s
       ∧ (inject_Z (Z.of_nat (length xs)) <= s)%Q
       ∧ (s <= 5 * inject_Z (Z.of_nat (length xs)))%Q.
Proof.
  intros Hxs Hlen.
  assert (Hn : (Z.of_nat (length xs) < 2 ^ 32)%Z).
  { apply Nat2Z.inj_lt in Hlen. by rewrite Nat2Z.inj_pow in Hlen. }
  destruct (sum_bounds_from xs 0 0 0 Hxs) as (s & Hs & Hs1 & Hs2); [lia|lia|done|done|].
  exists s. split; [done|]. rewrite Z.add_0_l in Hs1, Hs2.
  split; [done|]. by rewrite inject_Z_mult in Hs2.
Qed.

(** Dividing a sum that lies between [n] and [5 n] by [n]. *)
Lemma divLength_bounds (s : Q) (n : nat) :
  (0 < n)%nat → (inject_Z (Z.of_nat n) <= s)%Q → (s <= 5 * inject_Z (Z.of_nat n))%Q →
  ∃ r, Js.divLength (Js.Finite s) n = Js.Finite (Qred r) ∧ (1 <= r)%Q ∧ (r <= 5)%Q
       ∧ (Qabs (r - s / inject_Z (Z.of_nat n)) <= 1 # 2 ^ 51)%Q.
Proof.
  intros Hn Hs1 Hs2. destruct n as [|n]; [lia|]. unfold Js.divLength.
  set (N := inject_Z (Z.of_nat (S n))) in *.
  assert (HN : (0 < N)%Q) by (unfold N; rewrite <- (Zlt_Qlt 0); lia).
  apply round64_error.
  - apply Qle_shift_div_l; [done|]. lra.
  - apply Qle_shift_div_r; [done|]. lra.
Qed.

(** [toFixed(1)] of a number between 1 and 5. *)
Lemma toFixed1_bounds (r : Q) :
  (1 <= r)%Q → (r <= 5)%Q →
  ∃ (n : Z) (a : Q),
    Js.toFixed1 (Js.Finite r) = Js.Finite a ∧ Js.round64 (n # 10) = Js.Finite a
    ∧ (1 <= a)%Q ∧ (a <= 5)%Q
    ∧ (inject_Z n - (1 # 2) <= r * 10)%Q ∧ (r * 10 < inject_Z n + (1 # 2))%Q.
Proof.
  intros Hr1 Hr2. unfold Js.toFixed1. rewrite (Qabs_pos_eq r) by lra.
  assert (H21 : Qle_bool (inject_Z (10 ^ 21)) r = false).
  { apply not_true_is_false. intros H%Qle_bool_iff.
    assert (H' : (inject_Z (10 ^ 21) <= 5)%Q) by lra. by compute in H'. }
  assert (H0 : Qle_bool 0 r = true) by (apply Qle_bool_iff; lra).
  rewrite H21, H0. change (inject_Z 10) with 10%Q.
  pose proof (Qfloor_le (r * 10 + (1 # 2))) as Hf.
  pose proof (Qlt_floor (r * 10 + (1 # 2))) as Hc.
  set (n := Qfloor (r * 10 + (1 # 2))) in *.
  rewrite inject_Z_plus in Hc. change (inject_Z 1) with 1%Q in Hc.
  assert (Hn1 : (10 <= n)%Z).
  { assert (H : (inject_Z 10 <= r * 10 + (1 # 2))%Q) by (change (inject_Z 10) with 10%Q; lra).
    apply Qfloor_resp_le in H. by rewrite Qfloor_Z in H. }
  assert (Hn2 : (n <= 50)%Z).
  { assert (H : (inject_Z n < inject_Z 51)%Q) by (change (inject_Z 51) with 51%Q; lra).
    rewrite <- Zlt_Qlt in H. lia. }
  assert (Hq : (n # 10 == inject_Z n / 10)%Q) by apply Qmake_Qdiv.
  rewrite Zle_Qle in Hn1, Hn2.
  change (inject_Z 10) with 10%Q in Hn1. change (inject_Z 50) with 50%Q in Hn2.
  destruct (round64_bounds (n # 10) 1 5) as (a & Ha & Ha1 & Ha2); [lia|lia|..].
  { rewrite Hq. change (inject_Z 1) with 1%Q. apply Qle_shift_div_l; lra. }
  { rewrite Hq. change (inject_Z 5) with 5%Q. apply Qle_shift_div_r; lra. }
  exists n, (Qred a). pose proof (Qred_correct a) as Hra.
  change (inject_Z 1) with 1%Q in Ha1. change (inject_Z 5) with 5%Q in Ha2.
  split_and!; first [done|lra].
Qed.

Lemma oneToFive_validScore (x : Q) : oneToFive x → validScore x.
Proof. intros [H|[H|[H|[H|H]]]]; split; lra. Qed.

(** The margin: a quotient [k / n] of integers is not within [1 / 2n] of a
    number of the form [N + 1/2] without being it. *)
Lemma tenth_of_quotient (k n N : Z) (r : Q) :
  (0 < n)%Z → (n < 2 ^ 32)%Z →
  (Qabs (r - inject_Z k / inject_Z n) <= 1 # 2 ^ 51)%Q →
  (inject_Z N - (1 # 2) <= r * 10)%Q → (r * 10 < inject_Z N + (1 # 2))%Q →
  (Qabs ((N # 10) - inject_Z k / inject_Z n) <= 1 # 20)%Q.
Proof.
  intros Hn1 Hn2 Hr HN1 HN2.
  apply Qabs_Qle_condition in Hr as [Hr1 Hr2].
  assert (Hnq : (0 < inject_Z n)%Q) by (by rewrite <- (Zlt_Qlt 0)).
  assert (Hnq2 : (inject_Z n < inject_Z (2 ^ 32))%Q) by (by rewrite <- Zlt_Qlt).
  change (inject_Z (2 ^ 32)) with 4294967296%Q in Hnq2.
  set (Kq := inject_Z k) in *. set (Nq := inject_Z n) in *. set (Nn := inject_Z N) in *.
  set (m := (Kq / Nq)%Q) in *.
  assert (Hm : (m * Nq == Kq)%Q) by (unfold m; field; lra).
  assert (He : ((1 # 2 ^ 51) * 20 * Nq < 1)%Q).
  { apply (Qlt_le_trans _ ((1 # 2 ^ 51) * 20 * 4294967296)); [|by compute].
    apply Qmult_lt_l; [by compute|done]. }
  set (eps := (1 # 2 ^ 51)%Q) in *.
  (* upper *)
  assert (Hup : (20 * Kq < (2 * Nn + 1) * Nq + 1)%Q).
  { assert (H : (10 * m < Nn + (1 # 2) + 10 * eps)%Q) by lra.
    apply (Qmult_lt_compat_r _ _ (2 * Nq)) in H; [|lra].
    assert (H1 : (10 * m * (2 * Nq) == 20 * Kq)%Q) by (rewrite <- Hm; ring).
    assert (H2 : ((Nn + (1 # 2) + 10 * eps) * (2 * Nq)
                  == (2 * Nn + 1) * Nq + eps * 20 * Nq)%Q) by ring.
    rewrite H1, H2 in H. lra. }
  assert (Hlow : ((2 * Nn - 1) * Nq - 1 < 20 * Kq)%Q).
  { assert (H : (Nn - (1 # 2) - 10 * eps <= 10 * m)%Q) by lra.
    apply (Qmult_le_compat_r _ _ (2 * Nq)) in H; [|lra].
    assert (H1 : (10 * m * (2 * Nq) == 20 * Kq)%Q) by (rewrite <- Hm; ring).
    assert (H2 : ((Nn - (1 # 2) - 10 * eps) * (2 * Nq)
                  == (2 * Nn - 1) * Nq - eps * 20 * Nq)%Q) by ring.
    rewrite H1, H2 in H. lra. }
  assert (Zup : (20 * k < (2 * N + 1) * n + 1)%Z).
  { rewrite Zlt_Qlt, !inject_Z_plus, !inject_Z_mult, !inject_Z_plus, !inject_Z_mult.
    exact Hup. }
  assert (Zlow : ((2 * N - 1) * n - 1 < 20 * k)%Z).
  { rewrite Zlt_Qlt. unfold Z.sub. rewrite !inject_Z_plus, !inject_Z_mult, !inject_Z_plus,
      !inject_Z_mult. exact Hlow. }
  assert (Zup' : (20 * k <= (2 * N + 1) * n)%Z) by lia.
  assert (Zlow' : ((2 * N - 1) * n <= 20 * k)%Z) by lia.
  rewrite Zle_Qle in Zup', Zlow'. unfold Z.sub in Zlow'.
  rewrite !inject_Z_mult, !inject_Z_plus, !inject_Z_mult in Zup', Zlow'.
  change (inject_Z 20) with 20%Q in *. change (inject_Z 2) with 2%Q in *.
  change (inject_Z 1) with 1%Q in *. change (inject_Z (- (1))) with (-1)%Q in *.
  fold Kq Nq Nn in Zup', Zlow'.
  assert (Hq : (N # 10 == Nn / 10)%Q) by apply Qmake_Qdiv.
  rewrite Hq. apply Qabs_Qle_condition. split.
  - assert (H : (m <= Nn / 10 + (1 # 20))%Q).
    { unfold m. apply Qle_shift_div_r; [done|].
      assert (H3 : ((Nn / 10 + (1 # 20)) * Nq == ((2 * Nn + 1) * Nq) / 20)%Q) by field.
      rewrite H3. apply Qle_shift_div_l; [done|]. lra. }
    lra.
  - assert (H : (Nn / 10 - (1 # 20) <= m)%Q).
    { unfold m. apply Qle_shift_div_l; [done|].
      assert (H3 : ((Nn / 10 - (1 # 20)) * Nq == ((2 * Nn + -1) * Nq) / 20)%Q) by field.
      rewrite H3. apply Qle_shift_div_r; [done|]. lra. }
    lra.
Qed.

(** The average that the handlers show for integer scores: the number
    written with one decimal that is nearest to the mean. *)
Lemma average_rounded (xs : list Q) :
  Forall oneToFive xs → (0 < length xs)%nat → (length xs < 2 ^ 32)%nat →
  ∃ a, Js.toFixed1 (Js.divLength (Js.sum xs) (length xs)) = Js.Finite a
       ∧ roundedTo1 a (mean xs) ∧ validScore a.
Proof.
  intros Hxs Hn1 Hn2.
  destruct (sum_integers xs Hxs Hn2) as (K & -> & HK).
  pose proof (total_bounds xs (Forall_impl _ _ _ Hxs oneToFive_validScore)) as [Ht1 Ht2].
  destruct (divLength_bounds (inject_Z K) (length xs) Hn1) as (r & -> & Hr1 & Hr2 & Hr);
    [by rewrite HK|by rewrite HK|].
  destruct (toFixed1_bounds (Qred r)) as (N & a & -> & Ha & Ha1 & Ha2 & HN1 & HN2);
    [by rewrite Qred_correct|by rewrite Qred_correct|].
  exists a. split; [done|]. split; [|done].
  exists N. split; [done|]. unfold mean. rewrite <- HK.
  apply (tenth_of_quotient K (Z.of_nat (length xs)) N (Qred r)).
  - lia.
  - apply Nat2Z.inj_lt in Hn2. by rewrite Nat2Z.inj_pow in Hn2.
  - by rewrite Qred_correct.
  - done.
  - done.
Qed.

(** The averages of ratings within [1, 5]. *)
Lemma average_within_range (xs : list Q) :
  Forall validScore xs → (0 < length xs)%nat → (length xs < 2 ^ 32)%nat →
  ∃ a, Js.toFixed1 (Js.divLength (Js.sum xs) (length xs)) = Js.Finite a ∧ validScore a.
Proof.
  intros Hxs Hn1 Hn2.
  destruct (sum_bounds xs Hxs Hn2) as (s & -> & Hs1 & Hs2).
  destruct (divLength_bounds s (length xs) Hn1 Hs1 Hs2) as (r & -> & Hr1 & Hr2 & _).
  destruct (toFixed1_bounds (Qred r)) as (N & a & -> & _ & Ha1 & Ha2 & _);
    [by rewrite Qred_correct|by rewrite Qred_correct|].
  by exists a.
Qed.

(** A mean halfway between two tenths: seven scores 5 and thirteen scores 4
    have the mean 4.35; the quotient in binary64 lies below it, and 4.3 is
    shown. *)
Example seven_fives_thirteen_fours :
  Js.toFixed1 (Js.divLength (Js.sum (replicate 7 5%Q ++ replicate 13 4%Q)%list) 20)
  = Js.round64 (43 # 10).
Proof. vm_compute. reflexivity. Qed.

(** Scores that are not integers: with four scores 1 and the score
    1.2499999999999998 (the binary64 number below 1.25) the sum is rounded
    up to 5.25, the quotient is the binary64 number above 1.05, and 1.1 is
    shown although the mean is below 1.05. *)
Example scores_between_integers :
  let scores := [1; 1; 1; 1; 5629499534213119 # 4503599627370496]%Q in
  Js.round64 (5629499534213119 # 4503599627370496)
  = Js.Finite (5629499534213119 # 4503599627370496)
  ∧ Js.toFixed1 (Js.divLength (Js.sum scores) 5) = Js.round64 (11 # 10)
  ∧ (mean scores < 21 # 20)%Q.
Proof. cbn zeta. split_and!; vm_compute; reflexivity. Qed.

(** A list of a few elements is shorter than an array may be. *)
Lemma small_length (n : nat) : (n ≤ 32)%nat → (n < 2 ^ 32)%nat.
Proof.
  intros H. apply (Nat.le_lt_trans _ 32); [done|]. apply Nat.pow_gt_lin_r. lia.
Qed.

(** ** The gates on the score *)

Lemma lt_outside (q : Q) : (q < 1)%Q → Js.lt (Some q) 1 = true.
Proof.
  intros H. unfold Js.lt. apply negb_true_iff, not_true_is_false.
  intros Hle%Qle_bool_iff. lra.
Qed.

Lemma gt_outside (q : Q) : (5 < q)%Q → Js.gt (Some q) 5 = true.
Proof.
  intros H. unfold Js.gt. apply negb_true_iff, not_true_is_false.
  intros Hle%Qle_bool_iff. lra.
Qed.

Lemma range_gate_outside (q : Q) :
  (q < 1 ∨ 5 < q)%Q → (Js.lt (Some q) 1 || Js.gt (Some q) 5) = true.
Proof.
  intros [H|H]; [rewrite (lt_outside q H)|rewrite (gt_outside q H)]; auto using orb_true_r.
Qed.

Lemma range_gate_inside (q : Q) :
  (Js.lt (Some q) 1 || Js.gt (Some q) 5) = false → validScore q.
Proof.
  unfold Js.lt, Js.gt. intros [H1 H2]%orb_false_iff.
  apply negb_false_iff in H1, H2. by split; apply Qle_bool_iff.
Qed.

(** ** Lists and collections *)

Lemma filter_bool_Prop {A} (p : A → bool) (P : A → Prop) `{∀ x, Decision (P x)} (l : list A) :
  (∀ x, p x = true ↔ P x) → List.filter p l = filter P l.
Proof.
  intros Hp. induction l as [|x l IH]; [done|].
  cbn. rewrite IH. unfold filter at 2. cbn. fold (filter P l).
  destruct (p x) eqn:E; case_decide as HP; try done.
  - apply Hp in E. done.
  - apply Hp in HP. congruence.
Qed.

Lemma head_filter_None {A} (p : A → bool) (l : list A) :
  head (List.filter p l) = None ↔ ∀ x, x ∈ l → p x = false.
Proof.
  induction l as [|x l IH]; cbn.
  - split; [by intros _ ? ?%elem_of_nil|done].
  - destruct (p x) eqn:E; cbn.
    + split; [done|]. intros H. specialize (H x (list_elem_of_here _ _)). congruence.
    + rewrite IH. split.
      * intros H y [->|Hy]%elem_of_cons; auto.
      * intros H y Hy. apply H. by apply list_elem_of_further.
Qed.

Lemma head_filter_exists {A} (p : string * A → bool) (P : A → Prop) (c : gmap string A) :
  (∀ kv, p kv = true ↔ P kv.2) →
  is_Some (head (List.filter p (map_to_list c))) ↔ map_Exists (λ _, P) c.
Proof.
  intros Hp. split.
  - intros [[k x] Hx]. apply head_Some_elem_of in Hx.
    apply list_elem_of_In, filter_In in Hx as [Hin%list_elem_of_In%elem_of_map_to_list Hpx].
    exists k, x. split; [done|]. by apply Hp in Hpx.
  - intros (k & x & Hkx & HP).
    destruct (head _) eqn:E; [by eexists|].
    apply head_filter_None with (x := (k, x)) in E.
    + apply (Hp (k, x)) in HP. congruence.
    + by apply elem_of_map_to_list.
Qed.

Lemma filter_key_absent {A} (l : list (string * A)) (k : string) :
  k ∉ l.*1 → List.filter (λ kv, eqId (Some k) kv.1) l = [].
Proof.
  induction l as [|[k' v'] l IH]; [done|]. cbn. intros Hk.
  apply not_elem_of_cons in Hk as [Hne Hk]. unfold eqId at 1. cbn.
  rewrite bool_decide_eq_false_2 by congruence. auto.
Qed.

Lemma filter_key_unique {A} (l : list (string * A)) (k : string) (v : A) :
  NoDup (l.*1) → (k, v) ∈ l → List.filter (λ kv, eqId (Some k) kv.1) l = [(k, v)].
Proof.
  induction l as [|[k' v'] l IH]; [by intros _ ?%elem_of_nil|].
  cbn. intros [Hk' Hnd]%NoDup_cons [Heq|Hin]%elem_of_cons.
  - injection Heq as <- <-. unfold eqId at 1. cbn.
    rewrite bool_decide_eq_true_2 by done. by rewrite filter_key_absent.
  - unfold eqId at 1. cbn. rewrite bool_decide_eq_false_2; [auto|].
    intros [= ->]. apply Hk'. apply list_elem_of_fmap. by exists (k', v).
Qed.

(** ** Running the store calls *)

Lemma castObjectId_length (s oid : string) :
  castObjectId s = Some oid → String.length s = 24%nat.
Proof.
  unfold castObjectId. destruct (String.length s =? 24)%nat eqn:E; [|done].
  intros _. by apply Nat.eqb_eq.
Qed.

Lemma castObjectId_truthy (s oid : string) :
  castObjectId s = Some oid → Js.truthy (Some s) = true.
Proof.
  intros H%castObjectId_length. destruct s; [done|reflexivity].
Qed.

Lemma bind_run {A B} (m : M A) (f : A → M B) (w w' : World) (a : A) :
  m w = (Normal a, w') → (m ≫= f) w = f a w'.
Proof. intros H. unfold mbind, M_bind. by rewrite H. Qed.

Lemma bind_throw {A B} (m : M A) (f : A → M B) (w w' : World) (e : string) :
  m w = (Throw e, w') → (m ≫= f) w = (Throw e, w').
Proof. intros H. unfold mbind, M_bind. by rewrite H. Qed.

Lemma cast_run (s oid : string) (w : World) :
  castObjectId s = Some oid → cast (Some s) w = (Normal (Some oid), w).
Proof. intros H. unfold cast. by rewrite H. Qed.

Lemma cast_throw (s : string) (w : World) :
  castObjectId s = None → cast (Some s) w = (Throw "CastError", w).
Proof. intros H. unfold cast. by rewrite H. Qed.

Lemma User_findById_run (s oid : string) (w : World) :
  castObjectId s = Some oid →
  User_findById (Some s) w
  = (Normal ((oid,.) <$> users w !! oid), logged (Call "User" "findById" [Some s]) w).
Proof.
  intros H. unfold User_findById, called, read, lookupId, mbind at 1 2, M_bind.
  by rewrite (cast_run _ _ _ H).
Qed.

Lemma User_findById_throw (s : string) (w : World) :
  castObjectId s = None →
  User_findById (Some s) w = (Throw "CastError", logged (Call "User" "findById" [Some s]) w).
Proof.
  intros H. unfold User_findById, called, mbind, M_bind.
  by rewrite (cast_throw _ _ H).
Qed.

Lemma User_findOne_throw (s : string) (w : World) :
  castObjectId s = None →
  User_findOne (Some s) w = (Throw "CastError", logged (Call "User" "findOne" [Some s]) w).
Proof.
  intros H. unfold User_findOne, called, mbind, M_bind.
  by rewrite (cast_throw _ _ H).
Qed.

Lemma SkillListing_findById_run (s oid : string) (w : World) :
  castObjectId s = Some oid →
  SkillListing_findById (Some s) w
  = (Normal ((oid,.) <$> skillListings w !! oid),
     logged (Call "SkillListing" "findById" [Some s]) w).
Proof.
  intros H. unfold SkillListing_findById, called, read, lookupId, mbind at 1 2, M_bind.
  by rewrite (cast_run _ _ _ H).
Qed.

Lemma SkillListing_findById_throw (s : string) (w : World) :
  castObjectId s = None →
  SkillListing_findById (Some s) w
  = (Throw "CastError", logged (Call "SkillListing" "findById" [Some s]) w).
Proof.
  intros H. unfold SkillListing_findById, called, mbind, M_bind.
  by rewrite (cast_throw _ _ H).
Qed.

Lemma Session_findOne_run (sl st ss l t s status : string) (w : World) :
  castObjectId sl = Some l → castObjectId st = Some t → castObjectId ss = Some s →
  Session_findOne (Some sl) (Some st) (Some ss) status w
  = (Normal (head (docs (sessionFor (Some l) (Some t) (Some s) status) (sessions w))),
     logged (Call "Session" "findOne" [Some sl; Some st; Some ss; Some status]) w).
Proof.
  intros Hl Ht Hs. unfold Session_findOne, called, read, mbind, M_bind.
  by rewrite (cast_run _ _ _ Hl), (cast_run _ _ _ Ht), (cast_run _ _ _ Hs).
Qed.

Lemma castCondition_run (c : Condition) (p : ObjectId * Rating → bool) (w : World) :
  casts c p → castCondition c w = (Normal p, w).
Proof.
  destruct 1; unfold castCondition, mbind, M_bind;
    repeat (erewrite cast_run by eassumption); reflexivity.
Qed.

Lemma awaitAll_run (q : Query) (p : ObjectId * Rating → bool) (w : World) :
  casts (q_condition q) p →
  awaitAll q w
  = (Normal (selected p q w),
     logged (Call "Rating" (q_method q) (conditionArgs (q_condition q))) w).
Proof.
  intros H. unfold awaitAll, called, read, mbind, M_bind.
  by rewrite (castCondition_run _ _ _ H).
Qed.

Lemma awaitOne_run (q : Query) (p : ObjectId * Rating → bool) (w : World) :
  casts (q_condition q) p →
  awaitOne q w
  = (Normal (head (selected p q w)),
     logged (Call "Rating" (q_method q) (conditionArgs (q_condition q))) w).
Proof.
  intros H. unfold awaitOne. by rewrite (bind_run _ _ _ _ _ (awaitAll_run _ _ _ H)).
Qed.

Lemma awaitOne_throw_ById (q : Query) (s : string) (w : World) :
  q_condition q = ById (Some s) → castObjectId s = None →
  awaitOne q w = (Throw "CastError", logged (Call "Rating" (q_method q) [Some s]) w).
Proof.
  intros Hq H. unfold awaitOne, awaitAll, called, castCondition, mbind, M_bind. rewrite Hq.
  by rewrite (cast_throw _ _ H).
Qed.

(** ** What a query selects *)

Lemma selected_ById (q : Query) (oid : ObjectId) (w : World) :
  head (selected (hasId (Some oid)) q w)
  = toDoc w (q_populate q) <$> ((oid,.) <$> ratings w !! oid).
Proof.
  unfold selected, hasId. destruct (ratings w !! oid) as [r|] eqn:E.
  - rewrite (filter_key_unique _ oid r).
    + by destruct (q_sort q).
    + apply NoDup_fst_map_to_list.
    + by apply elem_of_map_to_list.
  - rewrite filter_key_absent.
    + by destruct (q_sort q).
    + intros ([k v] & -> & Hin%elem_of_map_to_list)%list_elem_of_fmap. cbn in E. congruence.
Qed.

Lemma selected_scores p q w :
  doc_rating <$> selected p q w ≡ₚ scoresOf (List.filter p (map_to_list (ratings w))).
Proof.
  unfold selected, scoresOf.
  assert (H : doc_rating <$> (toDoc w (q_populate q) <$> List.filter p (map_to_list (ratings w)))
              = (λ kv, r_rating kv.2) <$> List.filter p (map_to_list (ratings w))).
  { rewrite <- list_fmap_compose. done. }
  destruct (q_sort q); [|by rewrite H].
  rewrite <- H. apply fmap_Permutation, merge_sort_Permutation.
Qed.

Lemma selected_length p q w :
  length (selected p q w) = length (List.filter p (map_to_list (ratings w))).
Proof.
  rewrite <- (length_fmap doc_rating), selected_scores. unfold scoresOf. by rewrite length_fmap.
Qed.

Lemma mean_Permutation (xs ys : list Q) : xs ≡ₚ ys → (mean xs == mean ys)%Q.
Proof. intros Hp. unfold mean. by rewrite (total_Permutation _ _ Hp), Hp. Qed.

(** The average of the documents selected, when their scores are integers
    between 1 and 5: the mean rounded to one decimal place. *)
Lemma average_of_whole p q w :
  let scores := scoresOf (List.filter p (map_to_list (ratings w))) in
  Forall oneToFive scores → (0 < length scores)%nat → (length scores < 2 ^ 32)%nat →
  ∃ a, Js.toFixed1 (average (selected p q w)) = Js.Finite a
       ∧ roundedTo1 a (mean scores) ∧ validScore a.
Proof.
  intros scores Hs Hn1 Hn2. pose proof (selected_scores p q w) as Hp. fold scores in Hp.
  unfold average. rewrite <- (length_fmap doc_rating).
  destruct (average_rounded (doc_rating <$> selected p q w)) as (a & Ha & (n & Hn & Hr) & Hv).
  - by rewrite Hp.
  - by rewrite Hp.
  - by rewrite Hp.
  - exists a. split; [done|]. split; [|done]. exists n. split; [done|].
    by rewrite <- (mean_Permutation _ _ Hp).
Qed.

(** With integer scores the sum is exact, so that the order in which a
    query returns the documents does not matter. *)
Lemma average_whole_query p q q' w :
  let scores := scoresOf (List.filter p (map_to_list (ratings w))) in
  Forall oneToFive scores → (length scores < 2 ^ 32)%nat →
  average (selected p q w) = average (selected p q' w).
Proof.
  intros scores Hs Hn.
  pose proof (selected_scores p q w) as Hp. pose proof (selected_scores p q' w) as Hp'.
  fold scores in Hp, Hp'. unfold average. rewrite !selected_length. f_equal.
  destruct (sum_integers (doc_rating <$> selected p q w)) as (K & -> & HK);
    [by rewrite Hp..|].
  destruct (sum_integers (doc_rating <$> selected p q' w)) as (K' & -> & HK');
    [by rewrite Hp'..|].
  do 2 f_equal. apply inject_Z_injective.
  by rewrite HK, HK', (total_Permutation _ _ Hp), (total_Permutation _ _ Hp').
Qed.

(** The average of the documents selected, when their scores are within
    [1, 5]. *)
Lemma average_of_valid p q w :
  let scores := scoresOf (List.filter p (map_to_list (ratings w))) in
  Forall validScore scores → (0 < length scores)%nat → (length scores < 2 ^ 32)%nat →
  ∃ a, Js.toFixed1 (average (selected p q w)) = Js.Finite a ∧ validScore a.
Proof.
  intros scores Hs Hn1 Hn2. pose proof (selected_scores p q w) as Hp. fold scores in Hp.
  unfold average. rewrite <- (length_fmap doc_rating).
  apply average_within_range; by rewrite Hp.
Qed.

Lemma ofListing_filter (w : World) (lid : ObjectId) :
  List.filter (ofListing (Some lid)) (map_to_list (ratings w)) = ratingsOfListing w lid.
Proof.
  apply filter_bool_Prop. intros [k r]. unfold ofListing, eqId. cbn.
  rewrite bool_decide_eq_true. split; [by intros [= ->]|by intros ->].
Qed.

Lemma ofTeacher_filter (w : World) (tid : ObjectId) :
  List.filter (ofTeacher (Some tid)) (map_to_list (ratings w)) = ratingsOfTeacher w tid.
Proof.
  apply filter_bool_Prop. intros [k r]. unfold ofTeacher, eqId. cbn.
  rewrite bool_decide_eq_true. split; [by intros [= ->]|by intros ->].
Qed.

Lemma sessionFor_sessionOf l t s st d :
  sessionFor (Some l) (Some t) (Some s) st d = true ↔ sessionOf l t s st d.
Proof.
  unfold sessionFor, sessionOf, eqId.
  rewrite !andb_true_iff, !bool_decide_eq_true, String.eqb_eq.
  split; [intros [[[[= ->] [= ->]] [= ->]] ->]|intros (-> & -> & -> & ->)]; done.
Qed.

Lemma hasTriple_ratingOf l t s kv :
  hasTriple (Some l) (Some t) (Some s) kv = true ↔ ratingOf l t s kv.2.
Proof.
  unfold hasTriple, ratingOf, eqId.
  rewrite !andb_true_iff, !bool_decide_eq_true.
  split; [intros [[[= ->] [= ->]] [= ->]]|intros (-> & -> & ->)]; done.
Qed.

Lemma found_session (w : World) (l t s : ObjectId) (st : string) :
  is_Some (head (docs (sessionFor (Some l) (Some t) (Some s) st) (sessions w)))
  ↔ map_Exists (λ _, sessionOf l t s st) (sessions w).
Proof.
  unfold docs. apply (head_filter_exists (λ kv, sessionFor _ _ _ st kv.2)).
  intros kv. apply sessionFor_sessionOf.
Qed.

Lemma found_rating (q : Query) (w : World) (l t s : ObjectId) :
  is_Some (head (selected (hasTriple (Some l) (Some t) (Some s)) q w)) ↔ hasRating w l t s.
Proof.
  unfold hasRating. rewrite <- (head_filter_exists (hasTriple (Some l) (Some t) (Some s)))
    by apply hasTriple_ratingOf.
  pose proof (selected_length (hasTriple (Some l) (Some t) (Some s)) q w) as Hl.
  destruct (selected _ _ _), (List.filter _ _); cbn in *; try done;
    split; intros [? ?]; done || eauto.
Qed.

(** ** [createRating], gate by gate *)

Lemma bind_unfold {A B} (m : M A) (f : A → M B) (w : World) :
  (m ≫= f) w = match m w with
               | (Normal a, w') => f a w'
               | (Throw e, w') => (Throw e, w')
               end.
Proof. reflexivity. Qed.

Lemma Rating_insert_run (ratingValid : Q → bool) (env : Env) (sl st ss l t s : string)
    (q : Q) (w : World) :
  castObjectId sl = Some l → castObjectId st = Some t → castObjectId ss = Some s →
  Rating_insert ratingValid (Rating_new env (Some sl) (Some st) (Some ss) (Some q)) w
  = let w' := logged (Call "Rating" "save" [Some (newObjectId env)]) w in
    if ratingValid q then
      if bool_decide (is_Some (ratings w !! newObjectId env))
      then (Throw "MongoServerError", w')
      else (Normal (), withRatings (insert (newObjectId env) (newRatingOf env l t s q)) w')
    else (Throw "ValidationError", w').
Proof.
  intros Hl Ht Hs. unfold Rating_insert, Rating_new, called, read, setRatings, mbind, M_bind.
  cbn [n_id n_learnerID n_teacherID n_listingID n_rating n_createdAt].
  rewrite (cast_run _ _ _ Hl), (cast_run _ _ _ Ht), (cast_run _ _ _ Hs).
  destruct (ratingValid q); [|done].
  cbn [ratings logged]. by destruct (bool_decide _).
Qed.

(** Closes the case of a gate that answers: the response, the store and the
    calls issued are read off the goal. *)
Ltac answered :=
  cbn [negb]; unfold respond, mret, M_ret; cbn [fst snd]; lazy beta iota zeta;
  split; [reflexivity|]; split; [done|];
  match goal with
  | |- context [callsUpTo ?gs ?g ?req] =>
      let calls := eval vm_compute in (callsUpTo gs g req) in
      change (callsUpTo gs g req) with calls
  end;
  cbn [trace logged]; rewrite <- ?app_assoc, ?app_nil_r; reflexivity.

Lemma createRating_outcome (ratingValid : Q → bool) (env : Env) (req : CreateRatingBody)
    (w : World) :
  let res := createRating ratingValid env req w in
  match firstFailure gateOrder req w with
  | Some (g, e) =>
      res.1 = e ∧ sameStore w res.2 ∧ trace res.2 = (trace w ++ callsUpTo gateOrder g req)%list
  | None =>
      ∃ l t s q,
        triple req = Some (l, t, s) ∧ body_rating req = Some q ∧ validScore q
        ∧ users res.2 = users w ∧ skillListings res.2 = skillListings w
        ∧ sessions res.2 = sessions w
        ∧ if ratingValid q && negb (bool_decide (is_Some (ratings w !! newObjectId env)))
          then status res.1 = 201%nat
               ∧ ratings res.2 = <[newObjectId env := newRatingOf env l t s q]> (ratings w)
          else res.1 = failure 500 "Internal server error" ∧ ratings res.2 = ratings w
  end.
Proof.
  destruct req as [ol ot os oq]. unfold createRating, tryCatch, gateOrder.
  cbn [body_learnerID body_teacherID body_listingID body_rating firstFailure check].
  (* required fields *)
  destruct (Js.truthy ol) eqn:El; cbn [negb orb andb];
    [|answered].
  destruct (Js.truthy ot) eqn:Et; cbn [negb orb andb];
    [|answered].
  destruct (Js.truthy os) eqn:Es; cbn [negb orb andb];
    [|answered].
  destruct (Js.truthyNum oq) eqn:Eq; cbn [negb orb andb];
    [|answered].
  destruct ol as [sl|]; [|done]. destruct ot as [st|]; [|done].
  destruct os as [ss|]; [|done]. destruct oq as [q|]; [|done].
  (* score range *)
  unfold Js.lt, Js.gt.
  destruct (Qle_bool 1 q) eqn:Q1; cbn [negb orb andb];
    [|answered].
  destruct (Qle_bool q 5) eqn:Q5; cbn [negb orb andb];
    [|answered].
  apply Qle_bool_iff in Q1, Q5.
  (* learner *)
  unfold resolves. cbn [mbind option_bind].
  destruct (castObjectId sl) as [l|] eqn:Cl.
  2:{ rewrite (bind_throw _ _ _ _ _ (User_findById_throw _ w Cl)). answered. }
  rewrite (bind_run _ _ _ _ _ (User_findById_run _ _ w Cl)).
  destruct (users w !! l) as [ul|] eqn:Ul; cbn [fmap option_fmap option_map].
  2:{ rewrite bool_decide_eq_false_2 by (by intros [? ?]). answered. }
  rewrite bool_decide_eq_true_2 by eauto. cbn [negb].
  (* teacher *)
  destruct (castObjectId st) as [t|] eqn:Ct.
  2:{ rewrite (bind_throw _ _ _ _ _ (User_findById_throw _ _ Ct)). answered. }
  rewrite (bind_run _ _ _ _ _ (User_findById_run _ _ _ Ct)). cbn [users logged].
  destruct (users w !! t) as [ut|] eqn:Ut; cbn [fmap option_fmap option_map].
  2:{ rewrite bool_decide_eq_false_2 by (by intros [? ?]). answered. }
  rewrite bool_decide_eq_true_2 by eauto. cbn [negb].
  (* listing *)
  destruct (castObjectId ss) as [s|] eqn:Cs.
  2:{ rewrite (bind_throw _ _ _ _ _ (SkillListing_findById_throw _ _ Cs)). answered. }
  rewrite (bind_run _ _ _ _ _ (SkillListing_findById_run _ _ _ Cs)). cbn [skillListings logged].
  destruct (skillListings w !! s) as [ls|] eqn:Ls; cbn [fmap option_fmap option_map].
  2:{ rewrite bool_decide_eq_false_2 by (by intros [? ?]). answered. }
  rewrite bool_decide_eq_true_2 by eauto. cbn [negb].
  (* completed session *)
  assert (Htriple : triple {| body_learnerID := Some sl; body_teacherID := Some st;
                              body_listingID := Some ss; body_rating := Some q |}
                    = Some (l, t, s)).
  { unfold triple. cbn. rewrite Cl. cbn. rewrite Ct. cbn. by rewrite Cs. }
  rewrite Htriple.
  rewrite (bind_run _ _ _ _ _ (Session_findOne_run _ _ _ _ _ _ _ _ Cl Ct Cs)).
  cbn [sessions logged].
  destruct (bool_decide (hasCompletedSession w l t s)) eqn:Hs.
  2:{ rewrite (bool_decide_eq_false_2 (is_Some (head (docs _ _)))); [answered|].
      rewrite found_session. by apply bool_decide_eq_false in Hs. }
  rewrite (bool_decide_eq_true_2 (is_Some (head (docs _ _))))
    by (apply found_session; by apply bool_decide_eq_true in Hs).
  cbn [negb].
  (* duplicate *)
  erewrite bind_run by (apply awaitOne_run, casts_ByTriple; eassumption).
  destruct (bool_decide (hasRating w l t s)) eqn:Hr.
  { rewrite (bool_decide_eq_true_2 (is_Some (head (selected _ _ _)))); [answered|].
    apply found_rating. by apply bool_decide_eq_true in Hr. }
  rewrite (bool_decide_eq_false_2 (is_Some (head (selected _ _ _)))).
  2:{ intros Hf%found_rating. apply bool_decide_eq_false in Hr. by apply Hr. }
  (* the rating is written *)
  exists l, t, s, q. split; [done|]. split; [done|]. split; [done|].
  rewrite bind_unfold, (Rating_insert_run ratingValid env _ _ _ _ _ _ q _ Cl Ct Cs).
  cbn zeta. cbn [ratings logged].
  destruct (ratingValid q); cbn [andb]; [|done].
  destruct (bool_decide (is_Some (ratings w !! newObjectId env))); cbn [negb]; [done|].
  erewrite bind_run by (apply awaitOne_run, casts_ByObjectId).
  done.
Qed.

(** * The claims *)

(** C4: a score outside [1, 5] makes both [createRating] and [updateRating]
    fail with a validation error; the world is left as it was, so that no
    document changes and no store call is issued. *)
Theorem out_of_range_score_is_rejected
    (ratingValid : Q → bool) (env : Env) (l t s id : option string) (q : Q) (w : World) :
  (q < 1 ∨ 5 < q)%Q →
  let c := createRating ratingValid env
             {| body_learnerID := l; body_teacherID := t; body_listingID := s;
                body_rating := Some q |} w in
  let u := updateRating ratingValid id (Some q) w in
  errorKind c.1 = Some ValidationError ∧ c.2 = w
  ∧ errorKind u.1 = Some ValidationError ∧ u.2 = w.
Proof.
  intros Hq c u. subst c u. pose proof (range_gate_outside q Hq) as Hg.
  unfold createRating, updateRating, tryCatch.
  cbn [body_learnerID body_teacherID body_listingID body_rating].
  rewrite Hg.
  split_and!.
  - destruct (_ || negb (Js.truthyNum _)); reflexivity.
  - destruct (_ || negb (Js.truthyNum _)); reflexivity.
  - destruct (negb (Js.truthy id)); [reflexivity|].
    rewrite <- orb_assoc, Hg, orb_true_r. reflexivity.
  - destruct (negb (Js.truthy id)); [reflexivity|].
    rewrite <- orb_assoc, Hg, orb_true_r. reflexivity.
Qed.

Lemma out_of_range_score_is_rejected_witness :
  errorKind (createRating ratingSchema today (request alice bob piano 6)
               (sampleWorld "completed" ∅)).1 = Some ValidationError
  ∧ (updateRating ratingSchema (Some rating1) (Some 0%Q)
       (sampleWorld "completed" oneRating)).2 = sampleWorld "completed" oneRating.
Proof.
  split.
  - refine (proj1 (out_of_range_score_is_rejected ratingSchema today (Some alice) (Some bob)
                     (Some piano) None 6 (sampleWorld "completed" ∅) _)).
    right. reflexivity.
  - refine (proj2 (proj2 (proj2 (out_of_range_score_is_rejected ratingSchema today None None
                     None (Some rating1) 0 (sampleWorld "completed" oneRating) _)))).
    left. reflexivity.
Defined.

(** ** [deleteRating] *)

Lemma deleteRating_found (env : Env) (id oid userId : string) (w : World) (r : Rating) :
  castObjectId id = Some oid → ratings w !! oid = Some r →
  deleteRating env (Some id) userId w =
    if String.eqb (r_learnerID r) userId
    then ({| status := 200;
             body := JObj [("message", JStr "Rating deleted successfully");
                           ("success", JBool true);
                           ("deletedRating", snapshot oid r (now env))] |},
          logged (Call "Rating" "findByIdAndDelete" [Some id])
            (withRatings (delete oid) (logged (Call "Rating" "findById" [Some id]) w)))
    else (failure 403 "You can only delete your own ratings",
          logged (Call "Rating" "findById" [Some id]) w).
Proof.
  intros Hc Hr. unfold deleteRating, tryCatch.
  rewrite (castObjectId_truthy _ _ Hc). change (default "" (Some id)) with id.
  rewrite (castObjectId_length _ _ Hc). cbn [Nat.eqb negb].
  erewrite bind_run by (apply awaitOne_run, casts_ById, Hc).
  rewrite selected_ById, Hr.
  cbn [fmap option_fmap option_map toDoc populated q_populate Rating_findById List.find
       fst snd doc_learnerID Ref_toString].
  destruct (String.eqb (r_learnerID r) userId) eqn:E; cbn [negb]; [|reflexivity].
  unfold Rating_findByIdAndDelete, called, setRatings, respond, mbind, M_bind, mret, M_ret.
  rewrite (cast_run _ _ _ Hc). reflexivity.
Qed.

Lemma deleteRating_missing (env : Env) (id oid userId : string) (w : World) :
  castObjectId id = Some oid → ratings w !! oid = None →
  deleteRating env (Some id) userId w
  = (failure 404 "Rating not found", logged (Call "Rating" "findById" [Some id]) w).
Proof.
  intros Hc Hr. unfold deleteRating, tryCatch.
  rewrite (castObjectId_truthy _ _ Hc). change (default "" (Some id)) with id.
  rewrite (castObjectId_length _ _ Hc). cbn [Nat.eqb negb].
  erewrite bind_run by (apply awaitOne_run, casts_ById, Hc).
  by rewrite selected_ById, Hr.
Qed.

(** C5: on a rating that exists, [deleteRating] succeeds exactly when the
    requesting user is the learner of the rating.  Another user is answered
    with a forbidden error and the rating stays as it was; the learner is
    answered with the fields of the rating and the time of the deletion, and
    the rating is gone. *)
Theorem deleteRating_owner_only (env : Env) (id oid userId : string) (w : World) (r : Rating) :
  castObjectId id = Some oid → ratings w !! oid = Some r →
  let res := deleteRating env (Some id) userId w in
  (status res.1 = 200%nat ↔ userId = r_learnerID r)
  ∧ (userId ≠ r_learnerID r →
     errorKind res.1 = Some ForbiddenError ∧ sameStore w res.2 ∧ ratings res.2 !! oid = Some r)
  ∧ (userId = r_learnerID r →
     get "deletedRating" (body res.1) = Some (snapshot oid r (now env))
     ∧ ratings res.2 = delete oid (ratings w)
     ∧ users res.2 = users w ∧ skillListings res.2 = skillListings w
     ∧ sessions res.2 = sessions w).
Proof.
  intros Hc Hr res. subst res. rewrite (deleteRating_found env id oid userId w r Hc Hr).
  destruct (String.eqb (r_learnerID r) userId) eqn:E.
  - apply String.eqb_eq in E. split_and!; try done.
  - apply String.eqb_neq in E. split_and!; try done.
Qed.

Lemma deleteRating_owner_only_witness :
  status (deleteRating today (Some rating1) alice (sampleWorld "completed" oneRating)).1
  = 200%nat
  ∧ errorKind (deleteRating today (Some rating1) bob (sampleWorld "completed" oneRating)).1
    = Some ForbiddenError.
Proof.
  split.
  - apply (deleteRating_owner_only today rating1 rating1 alice
             (sampleWorld "completed" oneRating) (ratingBy alice 4 100)); reflexivity.
  - apply (deleteRating_owner_only today rating1 rating1 bob
             (sampleWorld "completed" oneRating) (ratingBy alice 4 100));
      [reflexivity|reflexivity|discriminate].
Defined.

(** ** Facts on the gates *)

Lemma check_error (g : Gate) (req : CreateRatingBody) (w : World) (e : Response) :
  check g req w = Some e → is_Some (errorKind e).
Proof.
  destruct g; cbn; unfold resolves;
    repeat (case_match; try done); intros [= <-]; by eexists.
Qed.

Lemma firstFailure_error (gs : list Gate) (req : CreateRatingBody) (w : World)
    (g : Gate) (e : Response) :
  firstFailure gs req w = Some (g, e) → check g req w = Some e.
Proof.
  induction gs as [|g' gs IH]; [done|]. cbn.
  destruct (check g' req w) eqn:E; [by intros [= <- <-]|done].
Qed.

Lemma firstFailure_None (gs : list Gate) (req : CreateRatingBody) (w : World) (g : Gate) :
  firstFailure gs req w = None → g ∈ gs → check g req w = None.
Proof.
  induction gs as [|g' gs IH]; [by intros _ ?%elem_of_nil|]. cbn.
  destruct (check g' req w) eqn:E; [done|].
  intros H [->|Hin]%elem_of_cons; auto.
Qed.

(** C10: [createRating] passes its gates in a fixed order (required fields,
    score range, learner, teacher, listing, completed session, duplicate) and
    answers with the error of the first gate that turns the request down: the
    store is left as it was and only the calls of the gates up to that one
    are issued, so that nothing of a later gate is consulted.  When no gate
    turns the request down the rating is written, or the write itself fails.
    In particular a request without a completed session is answered with a
    forbidden error even when a rating of the triple exists. *)
Theorem createRating_answers_first_failing_gate
    (ratingValid : Q → bool) (env : Env) (req : CreateRatingBody) (w : World) :
  let res := createRating ratingValid env req w in
  (∀ g e, firstFailure gateOrder req w = Some (g, e) →
     res.1 = e ∧ sameStore w res.2
     ∧ trace res.2 = (trace w ++ callsUpTo gateOrder g req)%list)
  ∧ (firstFailure gateOrder req w = None →
     status res.1 = 201%nat ∨ errorKind res.1 = Some InternalError)
  ∧ (∀ l t s,
       triple req = Some (l, t, s) →
       firstFailure [RequiredFields; ScoreRange; LearnerExists; TeacherExists; ListingExists]
         req w = None →
       ¬ hasCompletedSession w l t s → hasRating w l t s →
       errorKind res.1 = Some ForbiddenError).
Proof.
  intros res. pose proof (createRating_outcome ratingValid env req w) as H.
  cbn zeta in H. fold res in H. split_and!.
  - intros g e Hf. by rewrite Hf in H.
  - intros Hf. rewrite Hf in H. destruct H as (l & t & s & q & _ & _ & _ & _ & _ & _ & H).
    destruct (_ && _); [left; apply H|right]. destruct H as [-> _]. reflexivity.
  - intros l t s Ht Hf Hs Hr.
    assert (Hff : firstFailure gateOrder req w
                  = Some (CompletedSession,
                          failure 403 "You can only rate courses you have completed")).
    { unfold gateOrder. cbn [firstFailure] in *.
      destruct (check RequiredFields req w); [done|].
      destruct (check ScoreRange req w); [done|].
      destruct (check LearnerExists req w); [done|].
      destruct (check TeacherExists req w); [done|].
      destruct (check ListingExists req w); [done|].
      cbn [check]. rewrite Ht. by rewrite bool_decide_eq_false_2. }
    rewrite Hff in H. destruct H as [-> _]. reflexivity.
Qed.

(** ** Requests that pass the first five gates *)

Lemma validScore_truthy (q : Q) : validScore q → Js.truthyNum (Some q) = true.
Proof.
  intros [Hlo Hhi]. unfold Js.truthyNum. apply negb_true_iff, not_true_is_false.
  intros H%Qeq_bool_iff. rewrite H in Hlo. by apply Hlo.
Qed.

Lemma request_triple (sl st ss l t s : string) (q : Q) :
  castObjectId sl = Some l → castObjectId st = Some t → castObjectId ss = Some s →
  triple (request sl st ss q) = Some (l, t, s).
Proof. intros Hl Ht Hs. unfold triple, request. cbn. rewrite Hl. cbn. rewrite Ht. cbn. by rewrite Hs. Qed.

Lemma request_passes (sl st ss l t s : string) (q : Q) (w : World) :
  castObjectId sl = Some l → castObjectId st = Some t → castObjectId ss = Some s →
  is_Some (users w !! l) → is_Some (users w !! t) → is_Some (skillListings w !! s) →
  validScore q →
  firstFailure [RequiredFields; ScoreRange; LearnerExists; TeacherExists; ListingExists]
    (request sl st ss q) w = None.
Proof.
  intros Hl Ht Hs [ul Hul] [ut Hut] [ls Hls] Hq.
  cbn [firstFailure check request body_learnerID body_teacherID body_listingID body_rating].
  rewrite (castObjectId_truthy _ _ Hl), (castObjectId_truthy _ _ Ht),
    (castObjectId_truthy _ _ Hs), (validScore_truthy q Hq).
  destruct Hq as [Hlo%Qle_bool_iff Hhi%Qle_bool_iff]. rewrite Hlo, Hhi.
  unfold resolves. cbn. by rewrite Hl, Ht, Hs, Hul, Hut, Hls.
Qed.

(** C3, as amended: for a request with a score within [1, 5] whose learner,
    teacher and listing exist, [createRating] fails with a forbidden error
    when the triple has no completed session, and with a conflict error when
    it has a completed session and a rating of the triple exists; in both
    cases the store is left as it was. *)
Theorem createRating_forbidden_or_conflict
    (ratingValid : Q → bool) (env : Env) (sl st ss l t s : string) (q : Q) (w : World) :
  castObjectId sl = Some l → castObjectId st = Some t → castObjectId ss = Some s →
  is_Some (users w !! l) → is_Some (users w !! t) → is_Some (skillListings w !! s) →
  validScore q →
  let res := createRating ratingValid env (request sl st ss q) w in
  (¬ hasCompletedSession w l t s →
   errorKind res.1 = Some ForbiddenError ∧ sameStore w res.2)
  ∧ (hasCompletedSession w l t s → hasRating w l t s →
     errorKind res.1 = Some ConflictError ∧ sameStore w res.2).
Proof.
  intros Hl Ht Hs Hul Hut Hls Hq res.
  pose proof (request_passes _ _ _ _ _ _ q w Hl Ht Hs Hul Hut Hls Hq) as Hp.
  pose proof (request_triple _ _ _ _ _ _ q Hl Ht Hs) as Htr.
  pose proof (createRating_outcome ratingValid env (request sl st ss q) w) as H.
  cbn zeta in H. fold res in H. unfold gateOrder in H.
  cbn [firstFailure] in Hp, H.
  destruct (check RequiredFields _ w); [done|].
  destruct (check ScoreRange _ w); [done|].
  destruct (check LearnerExists _ w); [done|].
  destruct (check TeacherExists _ w); [done|].
  destruct (check ListingExists _ w); [done|].
  cbn [check] in H. rewrite Htr in H. split.
  - intros Hn. rewrite (bool_decide_eq_false_2 _ Hn) in H.
    destruct H as (-> & H & _). done.
  - intros Hc Hr. rewrite (bool_decide_eq_true_2 _ Hc), (bool_decide_eq_true_2 _ Hr) in H.
    destruct H as (-> & H & _). done.
Qed.

Lemma createRating_forbidden_or_conflict_witness :
  errorKind (createRating ratingSchema today (request alice bob piano 4)
               (sampleWorld "scheduled" ∅)).1 = Some ForbiddenError
  ∧ errorKind (createRating ratingSchema today (request alice bob piano 4)
                 (sampleWorld "completed" oneRating)).1 = Some ConflictError.
Proof.
  split.
  - refine (proj1 (proj1 (createRating_forbidden_or_conflict ratingSchema today
                     alice bob piano alice bob piano 4 (sampleWorld "scheduled" ∅)
                     eq_refl eq_refl eq_refl _ _ _ _) _)).
    + by eexists.
    + by eexists.
    + by eexists.
    + split; discriminate.
    + apply (bool_decide_eq_false_1
               (hasCompletedSession (sampleWorld "scheduled" ∅) alice bob piano)).
      vm_compute. reflexivity.
  - refine (proj1 (proj2 (createRating_forbidden_or_conflict ratingSchema today
                     alice bob piano alice bob piano 4 (sampleWorld "completed" oneRating)
                     eq_refl eq_refl eq_refl _ _ _ _) _ _)).
    + by eexists.
    + by eexists.
    + by eexists.
    + split; discriminate.
    + exists lesson, {| s_learnerID := alice; s_teacherID := bob;
                        s_skillListingID := piano; s_status := "completed" |}.
      split; [reflexivity|]. by repeat split.
    + exists rating1, (ratingBy alice 4 100). split; [reflexivity|]. by repeat split.
Defined.

(** C3, as stated, fails: a rating of the triple exists, its session is not
    completed, and the answer is a forbidden error, not a conflict. *)
Lemma existing_rating_without_session_is_forbidden :
  hasRating (sampleWorld "cancelled" oneRating) alice bob piano
  ∧ is_Some (users (sampleWorld "cancelled" oneRating) !! alice)
  ∧ is_Some (users (sampleWorld "cancelled" oneRating) !! bob)
  ∧ is_Some (skillListings (sampleWorld "cancelled" oneRating) !! piano)
  ∧ errorKind (createRating ratingSchema today (request alice bob piano 4)
                 (sampleWorld "cancelled" oneRating)).1 = Some ForbiddenError.
Proof.
  split_and!; [|by eexists..|vm_compute; reflexivity].
  exists rating1, (ratingBy alice 4 100). split; [reflexivity|]. by repeat split.
Qed.

(** ** What [deleteRating] does to the store *)




(** ** What [updateRating] does to the store *)

Lemma updateRating_effect (ratingValid : Q → bool) (id : option string) (score : option Q)
    (w : World) :
  let res := updateRating ratingValid id score w in
  users res.2 = users w ∧ skillListings res.2 = skillListings w
  ∧ sessions res.2 = sessions w
  ∧ (status res.1 = 200%nat → ∃ q, score = Some q ∧ validScore q ∧ ratingValid q = true)
  ∧ (ratings res.2 = ratings w
     ∨ ∃ q oid, score = Some q ∧ validScore q ∧ ratingValid q = true
                ∧ ratings res.2 = alter (withScore q) oid (ratings w)).
Proof.
  unfold updateRating, tryCatch.
  destruct (Js.truthy id) eqn:Ei; cbn [negb]; [|by split_and!; auto].
  destruct (Js.truthyNum score) eqn:Es; cbn [negb orb]; [|by split_and!; auto].
  destruct (Js.lt score 1 || Js.gt score 5) eqn:Er; [by split_and!; auto|].
  destruct id as [s|]; [|done]. destruct score as [q|]; [|done].
  apply range_gate_inside in Er.
  destruct (castObjectId s) as [oid|] eqn:Hc.
  2:{ erewrite bind_throw by (by apply awaitOne_throw_ById). by split_and!; auto. }
  erewrite bind_run by (apply awaitOne_run, casts_ById, Hc).
  rewrite selected_ById.
  destruct (ratings w !! oid) as [r|]; cbn [fmap option_fmap option_map];
    [|by split_and!; auto].
  unfold Rating_saveRating, called, setRatings, respond, mbind, M_bind, mret, M_ret.
  destruct (ratingValid q) eqn:Ev; [|by split_and!; auto].
  cbn. split_and!; eauto. right. exists q, oid. done.
Qed.

(** ** The scores that are written *)

(** Whatever the schema: a rating that [createRating] or [updateRating]
    writes has a score that passed the range gate of the handler and the
    validators of the schema. *)
Lemma written_scores_pass_gate_and_schema
    (ratingValid : Q → bool) (env : Env) (req : CreateRatingBody) (id : option string)
    (score : option Q) (w : World) :
  let c := createRating ratingValid env req w in
  let u := updateRating ratingValid id score w in
  (status c.1 = 201%nat → ∃ q, body_rating req = Some q ∧ validScore q ∧ ratingValid q = true)
  ∧ (status u.1 = 200%nat → ∃ q, score = Some q ∧ validScore q ∧ ratingValid q = true)
  ∧ (∀ k r, ratings c.2 !! k = Some r → ratings w !! k = Some r ∨ (validScore (r_rating r) ∧ ratingValid (r_rating r) = true))
  ∧ (∀ k r, ratings u.2 !! k = Some r → ratings w !! k = Some r ∨ (validScore (r_rating r) ∧ ratingValid (r_rating r) = true)).
Proof.
  intros c u.
  assert (Hc : (status c.1 = 201%nat → ∃ q, body_rating req = Some q ∧ validScore q ∧ ratingValid q = true)
               ∧ ∀ k r, ratings c.2 !! k = Some r →
                        ratings w !! k = Some r ∨ (validScore (r_rating r) ∧ ratingValid (r_rating r) = true)).
  { pose proof (createRating_outcome ratingValid env req w) as H. cbn zeta in H. fold c in H.
    destruct (firstFailure gateOrder req w) as [[g e]|] eqn:Hf.
    - destruct H as (He & (_ & _ & _ & Hr) & _). split.
      + intros Hs. rewrite He in Hs.
        apply firstFailure_error in Hf. destruct g; cbn in Hf; unfold resolves in Hf;
          repeat (case_match; try done); by injection Hf as <-.
      + intros k r. rewrite <- Hr. auto.
    - destruct H as (l & t & s & q & _ & Hq & Hv & _ & _ & _ & H).
      destruct (ratingValid q) eqn:Ev; cbn [andb] in H.
      + split; [intros _; exists q; by split_and!|].
        destruct (negb _).
        * destruct H as [_ ->]. intros k r [[<- <-]|[_ ?]]%lookup_insert_Some; [|auto].
          right. by split_and!.
        * destruct H as [_ ->]. auto.
      + destruct H as [He ->]. split; [|auto]. intros Hs. rewrite He in Hs. discriminate Hs. }
  assert (Hu : (status u.1 = 200%nat → ∃ q, score = Some q ∧ validScore q ∧ ratingValid q = true)
               ∧ ∀ k r, ratings u.2 !! k = Some r →
                        ratings w !! k = Some r ∨ (validScore (r_rating r) ∧ ratingValid (r_rating r) = true)).
  { destruct (updateRating_effect ratingValid id score w) as (_ & _ & _ & Hs & Hr).
    fold u in Hs, Hr. split.
    { intros H200. destruct (Hs H200) as (q & ? & ? & ?). exists q. by split_and!. }
    destruct Hr as [->|(q & oid & _ & Hv & Hs' & ->)]; [auto|].
    intros k r. rewrite lookup_alter. case_decide as Hk; [|auto].
    destruct (ratings w !! oid); [|done]. intros [= <-]. right. by split_and!. }
  destruct Hc as [Hc1 Hc2], Hu as [Hu1 Hu2]. by split_and!.
Qed.

Lemma ratingSchema_whole (q : Q) : ratingSchema q = true ↔ wholeScore q.
Proof.
  unfold ratingSchema, wholeScore, isInteger, validScore.
  rewrite !andb_true_iff, Qeq_bool_iff, !Qle_bool_iff. tauto.
Qed.

(** C2: with the schema of the data model, in which the score is an integer
    between 1 and 5, [createRating] and [updateRating] accept a score only
    if it is an integer between 1 and 5, and a rating that either of them
    writes has such a score: no rating with another score is stored, and a
    store whose scores are integers between 1 and 5 stays one.  The range is
    what the handlers test themselves; the integer is what the schema tests
    at [save]. *)
Theorem written_scores_are_whole
    (env : Env) (req : CreateRatingBody) (id : option string) (score : option Q) (w : World) :
  let c := createRating ratingSchema env req w in
  let u := updateRating ratingSchema id score w in
  (status c.1 = 201%nat → ∃ q, body_rating req = Some q ∧ wholeScore q)
  ∧ (status u.1 = 200%nat → ∃ q, score = Some q ∧ wholeScore q)
  ∧ (∀ k r, ratings c.2 !! k = Some r → ratings w !! k = Some r ∨ wholeScore (r_rating r))
  ∧ (∀ k r, ratings u.2 !! k = Some r → ratings w !! k = Some r ∨ wholeScore (r_rating r))
  ∧ (scoresWhole w → scoresWhole c.2 ∧ scoresWhole u.2).
Proof.
  intros c u.
  destruct (written_scores_pass_gate_and_schema ratingSchema env req id score w)
    as (Hc1 & Hu1 & Hc2 & Hu2).
  fold c in Hc1, Hc2. fold u in Hu1, Hu2. split_and!.
  - intros H. destruct (Hc1 H) as (q & Hq & _ & Hs). exists q. by rewrite <- ratingSchema_whole.
  - intros H. destruct (Hu1 H) as (q & Hq & _ & Hs). exists q. by rewrite <- ratingSchema_whole.
  - intros k r Hr. destruct (Hc2 k r Hr) as [?|[_ Hs]]; [by left|right].
    by apply ratingSchema_whole.
  - intros k r Hr. destruct (Hu2 k r Hr) as [?|[_ Hs]]; [by left|right].
    by apply ratingSchema_whole.
  - intros Hw. split; intros k r Hr.
    + destruct (Hc2 k r Hr) as [?|[_ Hs]]; [by apply (Hw k)|by apply ratingSchema_whole].
    + destruct (Hu2 k r Hr) as [?|[_ Hs]]; [by apply (Hw k)|by apply ratingSchema_whole].
Qed.

(** The score 4 is accepted and stored, at creation and at an update; the
    score 4.5 passes the range gates and is turned down at [save]: the
    answer is an internal error and nothing is written. *)
Lemma written_scores_are_whole_witness :
  let c := createRating ratingSchema today (request alice bob piano 4)
             (sampleWorld "completed" ∅) in
  let u := updateRating ratingSchema (Some rating1) (Some 2%Q)
             (sampleWorld "completed" oneRating) in
  let c' := createRating ratingSchema today (request alice bob piano (9 # 2))
              (sampleWorld "completed" ∅) in
  let u' := updateRating ratingSchema (Some rating1) (Some (7 # 2))
              (sampleWorld "completed" oneRating) in
  (status c.1 = 201%nat ∧ ∃ q, body_rating (request alice bob piano 4) = Some q ∧ wholeScore q)
  ∧ (status u.1 = 200%nat ∧ ∃ q, Some 2%Q = Some q ∧ wholeScore q)
  ∧ r_rating <$> ratings c.2 !! rating6 = Some 4%Q
  ∧ r_rating <$> ratings u.2 !! rating1 = Some 2%Q
  ∧ (status c'.1 = 500%nat ∧ ratings c'.2 = ∅)
  ∧ (status u'.1 = 500%nat ∧ ratings u'.2 = oneRating).
Proof.
  cbn zeta.
  pose proof (written_scores_are_whole today (request alice bob piano 4) (Some rating1)
                (Some 2%Q) (sampleWorld "completed" ∅)) as Hc.
  pose proof (written_scores_are_whole today (request alice bob piano 4) (Some rating1)
                (Some 2%Q) (sampleWorld "completed" oneRating)) as Hu.
  cbn zeta in Hc, Hu. destruct Hc as (Hc & _). destruct Hu as (_ & Hu & _).
  assert (H201 : status (createRating ratingSchema today (request alice bob piano 4)
                           (sampleWorld "completed" ∅)).1 = 201%nat)
    by (vm_compute; reflexivity).
  assert (H200 : status (updateRating ratingSchema (Some rating1) (Some 2%Q)
                           (sampleWorld "completed" oneRating)).1 = 200%nat)
    by (vm_compute; reflexivity).
  split; [exact (conj H201 (Hc H201))|]. split; [exact (conj H200 (Hu H200))|].
  split_and!; vm_compute; reflexivity.
Defined.

(** ** Identifiers that are not well formed *)


(** In [getRatingsByLearnerId] the test of the length is commented out: an
    identifier that is not well formed is passed to [User.findOne]. *)
Lemma getRatingsByLearnerId_queries_the_store (s : string) (w : World) :
  Js.truthy (Some s) = true → castObjectId s = None →
  getRatingsByLearnerId (Some s) w
  = ({| status := 500;
        body := JObj [("message", JStr "Internal server error"); ("success", JBool false);
                      ("error", JMessage "CastError")] |},
     logged (Call "User" "findOne" [Some s]) w).
Proof.
  intros Ht Hc. unfold getRatingsByLearnerId, tryCatch. rewrite Ht. cbn [negb].
  by rewrite (bind_throw _ _ _ _ _ (User_findOne_throw _ _ Hc)).
Qed.

(** ** The average of a listing *)

Lemma getAverageRating_run (w : World) (s lid : string) :
  castObjectId s = Some lid →
  getAverageRating (Some s) w =
    (let ratings := selected (ofListing (Some lid)) (Rating_find (ByListing (Some s))) w in
     if (length ratings <? 5)%nat
     then {| status := 200;
             body := JObj [("message", JStr "Average rating not available yet");
                           ("success", JBool true);
                           ("averageRating", JNull);
                           ("totalRatings", JNat (length ratings));
                           ("minimumRequired", JNat 5);
                           ("note", JStr "At least 5 ratings are required to show average rating")] |}
     else {| status := 200;
             body := JObj [("message", JStr "Average rating retrieved successfully");
                           ("success", JBool true);
                           ("averageRating", Js.number (Js.toFixed1 (average ratings)));
                           ("totalRatings", JNat (length ratings))] |},
     logged (Call "Rating" "find" [Some s]) w).
Proof.
  intros Hc. unfold getAverageRating, tryCatch.
  rewrite (castObjectId_truthy _ _ Hc). cbn [negb].
  erewrite bind_run by (apply awaitAll_run, casts_ByListing, Hc).
  cbn zeta. by destruct (length _ <? 5)%nat.
Qed.

Lemma getRatingsByListing_run (w : World) (s lid : string) :
  castObjectId s = Some lid →
  ∃ q, getRatingsByListing (Some s) w =
    (let ratings := selected (ofListing (Some lid)) q w in
     {| status := 200;
        body := JObj [("message", JStr "Ratings retrieved successfully");
                      ("success", JBool true);
                      ("ratings", JArr (RatingDoc_toJSON <$> ratings));
                      ("totalRatings", JNat (length ratings));
                      ("averageRating",
                       if (5 <=? length ratings)%nat
                       then Js.number (Js.toFixed1 (average ratings)) else JNull);
                      ("minimumRequired", JNat 5);
                      ("note", if (length ratings <? 5)%nat
                               then JStr "At least 5 ratings are required to show average rating"
                               else JNull)] |},
     logged (Call "Rating" "find" [Some s]) w).
Proof.
  intros Hc. eexists. unfold getRatingsByListing, tryCatch.
  rewrite (castObjectId_truthy _ _ Hc). cbn [negb].
  erewrite bind_run by (apply awaitAll_run, casts_ByListing, Hc).
  reflexivity.
Qed.

(** C1: for a listing with fewer than 5 ratings, [getAverageRating] and
    [getRatingsByListing] answer with the average [null]; with 5 ratings or
    more, whose scores are integers between 1 and 5 as the data model has
    them, both answer with the mean of the scores rounded to one decimal
    place (at a mean halfway between two tenths, with one of the two).
    The number of ratings is below [2^32], the limit of an array. *)
Theorem average_needs_five_ratings (w : World) (listingId lid : string) :
  castObjectId listingId = Some lid →
  let scores := scoresOf (ratingsOfListing w lid) in
  let r1 := (getAverageRating (Some listingId) w).1 in
  let r2 := (getRatingsByListing (Some listingId) w).1 in
  status r1 = 200%nat ∧ status r2 = 200%nat
  ∧ ((length scores < 5)%nat →
     get "averageRating" (body r1) = Some JNull
     ∧ get "averageRating" (body r2) = Some JNull)
  ∧ ((5 ≤ length scores)%nat → (length scores < 2 ^ 32)%nat → Forall wholeScore scores →
     ∃ a, get "averageRating" (body r1) = Some (JNum a)
          ∧ get "averageRating" (body r2) = Some (JNum a)
          ∧ roundedTo1 a (mean scores)).
Proof.
  intros Hc scores r1 r2. subst r1 r2.
  rewrite (getAverageRating_run w _ _ Hc).
  destruct (getRatingsByListing_run w _ _ Hc) as (q & ->).
  cbn zeta. rewrite !selected_length.
  pose proof (average_of_whole (ofListing (Some lid)) q w) as Hm.
  pose proof (average_whole_query (ofListing (Some lid))
                (Rating_find (ByListing (Some listingId))) q w) as Hq.
  cbn zeta in Hm, Hq. rewrite ofListing_filter in *. fold scores in Hm, Hq.
  assert (Hlen : length scores = length (ratingsOfListing w lid)).
  { unfold scores, scoresOf. by rewrite length_fmap. }
  rewrite <- Hlen.
  destruct (length scores <? 5)%nat eqn:E.
  - apply Nat.ltb_lt in E. rewrite (proj2 (Nat.leb_gt 5 (length scores)) E).
    split; [done|]. split; [done|]. split; [done|]. lia.
  - apply Nat.ltb_ge in E. rewrite (proj2 (Nat.leb_le 5 (length scores)) E).
    split; [done|]. split; [done|]. split; [lia|].
    intros _ Hn Hwhole.
    assert (Hone : Forall oneToFive scores)
      by (eapply Forall_impl; [exact Hwhole|apply wholeScore_oneToFive]).
    destruct (Hm Hone ltac:(lia) Hn) as (a & Ha & Hr & _).
    exists a. cbn [fst status body]. rewrite (Hq Hone Hn), Ha. by split_and!.
Qed.

Lemma average_needs_five_ratings_witness :
  get "averageRating" (body (getAverageRating (Some piano)
                               (sampleWorld "completed" oneRating)).1) = Some JNull
  ∧ ∃ a, get "averageRating" (body (getRatingsByListing (Some piano)
                                      (sampleWorld "completed" fiveRatings)).1)
         = Some (JNum a)
         ∧ roundedTo1 a (mean (scoresOf (ratingsOfListing
                                            (sampleWorld "completed" fiveRatings) piano))).
Proof.
  split.
  - refine (proj1 (proj1 (proj2 (proj2 (average_needs_five_ratings
             (sampleWorld "completed" oneRating) piano piano eq_refl))) _)).
    vm_compute. lia.
  - destruct (proj2 (proj2 (proj2 (average_needs_five_ratings
                (sampleWorld "completed" fiveRatings) piano piano eq_refl))))
      as (a & _ & Ha & Hr).
    + vm_compute. lia.
    + apply small_length. vm_compute. lia.
    + vm_compute. repeat constructor; discriminate.
    + exists a. by split.
Defined.

(** ** The statistics of a teacher *)

Lemma countWhere_count (test : Q → bool) (P : Q → Prop) `{∀ q, Decision (P q)}
    (docs : list RatingDoc) (xs : list Q) :
  (∀ x, test x = true ↔ P x) → doc_rating <$> docs ≡ₚ xs →
  countWhere test docs = count P xs.
Proof.
  intros Ht Hp. unfold countWhere, count. rewrite <- Hp.
  rewrite <- (filter_bool_Prop test P _ Ht).
  clear Hp. induction docs as [|d docs IH]; [done|].
  rewrite fmap_cons. cbn [List.filter].
  destruct (test (doc_rating d)); cbn [length]; by rewrite IH.
Qed.

Lemma count_Qred (P : Q → Prop) `{∀ q, Decision (P q)} (xs : list Q) :
  (∀ x y, (x == y)%Q → P x → P y) → count P (Qred <$> xs) = count P xs.
Proof.
  intros HP. unfold count. induction xs as [|x xs IH]; [done|].
  rewrite fmap_cons, !filter_cons.
  destruct (decide (P (Qred x))) as [H1|H1], (decide (P x)) as [H2|H2]; cbn; auto.
  - destruct H2. apply (HP (Qred x)); [apply Qred_correct|done].
  - destruct H1. apply (HP x); [symmetry; apply Qred_correct|done].
Qed.

Lemma count_Permutation (P : Q → Prop) `{∀ q, Decision (P q)} (xs ys : list Q) :
  xs ≡ₚ ys → count P xs = count P ys.
Proof. intros Hp. unfold count. by rewrite Hp. Qed.

Lemma total_Qred (xs : list Q) : (total (Qred <$> xs) == total xs)%Q.
Proof.
  induction xs as [|x xs IH]; [reflexivity|].
  change (Qred x + total (Qred <$> xs) == x + total xs)%Q. by rewrite IH, Qred_correct.
Qed.

Lemma fold_qmax_greatest (xs : list Q) (x : Q) :
  greatest (fold_left Js.qmax xs x) (x :: xs).
Proof.
  revert x. induction xs as [|y xs IH]; intros x; cbn.
  - split; [apply list_elem_of_here|]. intros z ->%list_elem_of_singleton. apply Qle_refl.
  - destruct (IH (Js.qmax x y)) as [Hin Hmax]. unfold Js.qmax in *.
    destruct (Qle_bool x y) eqn:E.
    + apply Qle_bool_iff in E. split.
      * by apply list_elem_of_further.
      * intros z [->|Hz]%elem_of_cons; [|by apply Hmax].
        apply (Qle_trans _ y); [exact E|]. apply Hmax, list_elem_of_here.
    + assert (y <= x)%Q.
      { apply Qlt_le_weak, Qnot_le_lt. intros H%Qle_bool_iff. congruence. }
      split.
      * apply elem_of_cons in Hin as [->|Hin]; [apply list_elem_of_here|].
        by do 2 apply list_elem_of_further.
      * intros z [->|[->|Hz]%elem_of_cons]%elem_of_cons.
        -- apply Hmax, list_elem_of_here.
        -- apply (Qle_trans _ x); [assumption|]. apply Hmax, list_elem_of_here.
        -- by apply Hmax, list_elem_of_further.
Qed.

Lemma fold_qmin_least (xs : list Q) (x : Q) :
  least (fold_left Js.qmin xs x) (x :: xs).
Proof.
  revert x. induction xs as [|y xs IH]; intros x; cbn.
  - split; [apply list_elem_of_here|]. intros z ->%list_elem_of_singleton. apply Qle_refl.
  - destruct (IH (Js.qmin x y)) as [Hin Hmin]. unfold Js.qmin in *.
    destruct (Qle_bool x y) eqn:E.
    + apply Qle_bool_iff in E. split.
      * apply elem_of_cons in Hin as [->|Hin]; [apply list_elem_of_here|].
        by do 2 apply list_elem_of_further.
      * intros z [->|[->|Hz]%elem_of_cons]%elem_of_cons.
        -- apply Hmin, list_elem_of_here.
        -- apply (Qle_trans _ x); [|exact E]. apply Hmin, list_elem_of_here.
        -- by apply Hmin, list_elem_of_further.
    + assert (y <= x)%Q.
      { apply Qlt_le_weak, Qnot_le_lt. intros H%Qle_bool_iff. congruence. }
      split.
      * by apply list_elem_of_further.
      * intros z [->|Hz]%elem_of_cons; [|by apply Hmin].
        apply (Qle_trans _ y); [|assumption]. apply Hmin, list_elem_of_here.
Qed.

Lemma greatest_Permutation (m : Q) (xs ys : list Q) :
  xs ≡ₚ ys → greatest m xs → greatest m ys.
Proof.
  intros Hp [Hin Hmax]. split; [by rewrite <- Hp|]. intros x Hx. apply Hmax. by rewrite Hp.
Qed.

Lemma least_Permutation (m : Q) (xs ys : list Q) :
  xs ≡ₚ ys → least m xs → least m ys.
Proof.
  intros Hp [Hin Hmin]. split; [by rewrite <- Hp|]. intros x Hx. apply Hmin. by rewrite Hp.
Qed.

Lemma selected_logged (p : ObjectId * Rating → bool) (q : Query) (c : StoreCall) (w : World) :
  selected p q (logged c w) = selected p q w.
Proof. reflexivity. Qed.

(** The handler up to the ratings of the teacher. *)
Ltac run_teacher_stats Hc Hu Hr :=
  unfold getAverageRatingsByTeacherId, tryCatch;
  rewrite (castObjectId_truthy _ _ Hc);
  match goal with
  | |- context [default "" (Some ?s)] => change (default "" (Some s)) with s
  end;
  rewrite (castObjectId_length _ _ Hc); cbn [Nat.eqb negb];
  rewrite (bind_run _ _ _ _ _ (User_findById_run _ _ _ Hc)), Hu;
  cbn [fmap option_fmap option_map fst snd]; rewrite Hr; cbn [String.eqb Ascii.eqb Bool.eqb negb];
  erewrite bind_run by (apply awaitAll_run, casts_ByTeacher, Hc);
  rewrite !selected_logged.

(** C7, as amended: a teacher who has received no rating is answered with
    success: no rating in total, the average [null] and no rating listed.
    The report carries no score distribution: the field is absent, not
    empty or filled with zeros, and so are the other statistics. *)
Theorem teacher_without_ratings (w : World) (teacherId tid : string) (u : User) :
  castObjectId teacherId = Some tid → users w !! tid = Some u → u_role u = "teacher" →
  ratingsOfTeacher w tid = [] →
  let res := (getAverageRatingsByTeacherId (Some teacherId) w).1 in
  status res = 200%nat
  ∧ errorKind res = None
  ∧ get "success" (body res) = Some (JBool true)
  ∧ get "totalRatings" (body res) = Some (JNat 0)
  ∧ get "averageRating" (body res) = Some JNull
  ∧ get "ratings" (body res) = Some (JArr [])
  ∧ get "teacher" (body res) = Some (userSummary (tid, u))
  ∧ get "ratingDistribution" (body res) = None
  ∧ get "statistics" (body res) = None.
Proof.
  intros Hc Hu Hr Hnone. cbn zeta. run_teacher_stats Hc Hu Hr.
  rewrite selected_length, ofTeacher_filter, Hnone. cbn [length Nat.eqb].
  by split_and!.
Qed.

Lemma teacher_without_ratings_witness :
  get "totalRatings" (body (getAverageRatingsByTeacherId (Some bob)
                              (sampleWorld "completed" ∅)).1) = Some (JNat 0)
  ∧ get "averageRating" (body (getAverageRatingsByTeacherId (Some bob)
                                 (sampleWorld "completed" ∅)).1) = Some JNull.
Proof.
  pose proof (teacher_without_ratings (sampleWorld "completed" ∅) bob bob
                (person "Bob" "teacher") eq_refl eq_refl eq_refl eq_refl) as H.
  cbn zeta in H. destruct H as (_ & _ & _ & Ht & Ha & _). by split.
Defined.

(** C7, as stated, fails: the report for a teacher without ratings holds no
    score distribution at all, neither an empty one nor one of zeros. *)
Lemma teacher_without_ratings_has_no_distribution :
  let w := sampleWorld "completed" ∅ in
  let res := (getAverageRatingsByTeacherId (Some bob) w).1 in
  u_role <$> users w !! bob = Some "teacher"
  ∧ ratingsOfTeacher w bob = []
  ∧ status res = 200%nat
  ∧ ¬ ∃ distribution, get "ratingDistribution" (body res) = Some distribution.
Proof.
  cbn zeta. split_and!; [reflexivity..|]. intros [d Hd]. vm_compute in Hd. discriminate Hd.
Qed.

(** C6: for a teacher who has received ratings,
    [getAverageRatingsByTeacherId] answers with the mean of the scores
    rounded to one decimal place (for scores that are integers between 1 and
    5, as the data model has them, and fewer than [2^32] of them), the
    number of scores equal to each of 1 to 5, the greatest and the least
    score, the number of scores of at least 4 and the number of scores of at
    most 2.  On the scores 5, 5, 4, 3, 5 the average is 4.4, the
    distribution is 1: 0, 2: 0, 3: 1, 4: 1, 5: 3, four scores are at least 4
    and none is at most 2. *)
Theorem teacher_rating_stats (w : World) (teacherId tid : string) (u : User) :
  castObjectId teacherId = Some tid → users w !! tid = Some u → u_role u = "teacher" →
  let scores := scoresOf (ratingsOfTeacher w tid) in
  let res := (getAverageRatingsByTeacherId (Some teacherId) w).1 in
  let stats := get "statistics" (body res) in
  (scores ≠ [] →
   status res = 200%nat
   ∧ ((length scores < 2 ^ 32)%nat → Forall wholeScore scores →
      ∃ a, get "averageRating" (body res) = Some (JNum a) ∧ roundedTo1 a (mean scores))
   ∧ get "ratingDistribution" (body res) = Some (distributionOf scores)
   ∧ (∃ hi, stats ≫= get "highestRating" = Some (JNum hi) ∧ greatest hi scores)
   ∧ (∃ lo, stats ≫= get "lowestRating" = Some (JNum lo) ∧ least lo scores)
   ∧ stats ≫= get "ratingsAbove4" = Some (JNat (count (λ x, 4 <= x)%Q scores))
   ∧ stats ≫= get "ratingsBelow3" = Some (JNat (count (λ x, x <= 2)%Q scores)))
  ∧ (Qred <$> scores ≡ₚ [5; 5; 4; 3; 5]%Q →
     get "averageRating" (body res) = Some (written (22 # 5))
     ∧ get "ratingDistribution" (body res)
       = Some (JObj [("1", JNat 0); ("2", JNat 0); ("3", JNat 1); ("4", JNat 1);
                     ("5", JNat 3)])
     ∧ stats ≫= get "ratingsAbove4" = Some (JNat 4)
     ∧ stats ≫= get "ratingsBelow3" = Some (JNat 0)).
Proof.
  intros Hc Hu Hr scores.
  set (query := sortNewestFirst
                  (populate "listingID" ["title"; "description"; "fee"]
                     (populate "learnerID" ["fullname"; "email"]
                        (Rating_find (ByTeacher (Some teacherId)))))).
  set (rs := selected (ofTeacher (Some tid)) query w).
  assert (general : scores ≠ [] →
    let res := (getAverageRatingsByTeacherId (Some teacherId) w).1 in
    let stats := get "statistics" (body res) in
    status res = 200%nat
    ∧ get "averageRating" (body res) = Some (Js.number (Js.toFixed1 (average rs)))
    ∧ get "ratingDistribution" (body res) = Some (distributionOf scores)
    ∧ (∃ hi, stats ≫= get "highestRating" = Some (JNum hi) ∧ greatest hi scores)
    ∧ (∃ lo, stats ≫= get "lowestRating" = Some (JNum lo) ∧ least lo scores)
    ∧ stats ≫= get "ratingsAbove4" = Some (JNat (count (λ x, 4 <= x)%Q scores))
    ∧ stats ≫= get "ratingsBelow3" = Some (JNat (count (λ x, x <= 2)%Q scores))).
  { intros Hne. cbn zeta. run_teacher_stats Hc Hu Hr. fold query. fold rs.
    pose proof (selected_scores (ofTeacher (Some tid)) query w) as Hp.
    pose proof (selected_length (ofTeacher (Some tid)) query w) as Hl.
    rewrite ofTeacher_filter in Hp, Hl. fold scores in Hp. fold rs in Hp, Hl.
    assert (Hlen : length rs = length scores).
    { rewrite Hl. unfold scores, scoresOf. by rewrite length_fmap. }
    destruct (length rs =? 0)%nat eqn:E.
    { apply Nat.eqb_eq in E. rewrite Hlen in E. by destruct scores. }
    unfold respond, mret, M_ret. cbn [fst snd status body].
    split; [done|]. split; [reflexivity|].
    split.
    { change (Some (JObj [("1", JNat (countWhere (λ r, Js.seq r 1) rs));
                          ("2", JNat (countWhere (λ r, Js.seq r 2) rs));
                          ("3", JNat (countWhere (λ r, Js.seq r 3) rs));
                          ("4", JNat (countWhere (λ r, Js.seq r 4) rs));
                          ("5", JNat (countWhere (λ r, Js.seq r 5) rs))])
              = Some (distributionOf scores)).
      unfold distributionOf.
      rewrite !(countWhere_count _ (λ x, x == _)%Q rs scores (λ x, Qeq_bool_iff x _) Hp).
      done. }
    assert (Hrs : doc_rating <$> rs ≠ []).
    { intros H. apply (f_equal length) in H. rewrite length_fmap, Hlen in H.
      by destruct scores. }
    destruct (doc_rating <$> rs) as [|x xs] eqn:Ex; [done|].
    split.
    { exists (fold_left Js.qmax xs x). split; [reflexivity|].
      apply (greatest_Permutation _ _ _ Hp), fold_qmax_greatest. }
    split.
    { exists (fold_left Js.qmin xs x). split; [reflexivity|].
      apply (least_Permutation _ _ _ Hp), fold_qmin_least. }
    rewrite <- Ex in Hp. split.
    - change (Some (JNat (countWhere (λ r, Js.ge r 4) rs))
              = Some (JNat (count (λ x, 4 <= x)%Q scores))).
      by rewrite (countWhere_count (λ r, Js.ge r 4) (λ x, 4 <= x)%Q rs scores
                    (λ x, Qle_bool_iff 4 x) Hp).
    - change (Some (JNat (countWhere (λ r, Js.le r 2) rs))
              = Some (JNat (count (λ x, x <= 2)%Q scores))).
      by rewrite (countWhere_count (λ r, Js.le r 2) (λ x, x <= 2)%Q rs scores
                    (λ x, Qle_bool_iff x 2) Hp). }
  pose proof (average_of_whole (ofTeacher (Some tid)) query w) as Hm.
  cbn zeta in Hm. rewrite ofTeacher_filter in Hm. fold scores rs in Hm.
  cbn zeta in general. intros res stats. subst res stats. split.
  - intros Hne. destruct (general Hne) as (Hs & Ha & Hd & Hhi & Hlo & H4 & H2).
    split_and!; try done.
    intros Hn Hwhole.
    assert (Hone : Forall oneToFive scores)
      by (eapply Forall_impl; [exact Hwhole|apply wholeScore_oneToFive]).
    destruct (Hm Hone) as (a & Hfix & Hround & _); [by destruct scores; [|cbn; lia]|done|].
    exists a. by rewrite Ha, Hfix.
  - intros Hp.
    assert (Hne : scores ≠ []).
    { intros H. rewrite H in Hp. by apply Permutation_nil_cons in Hp. }
    destruct (general Hne) as (Hs & Ha & Hd & Hhi & Hlo & H4 & H2).
    assert (Hcount : ∀ (P : Q → Prop) `{∀ q, Decision (P q)},
               (∀ x y, (x == y)%Q → P x → P y) →
               count P scores = count P [5; 5; 4; 3; 5]%Q).
    { intros P ? HP. by rewrite <- (count_Qred P scores HP), (count_Permutation P _ _ Hp). }
    assert (Hlen : length scores = 5%nat).
    { by rewrite <- (length_fmap Qred scores), Hp. }
    assert (Hone : Forall oneToFive scores).
    { apply Forall_forall. intros x Hx.
      assert (Hin : Qred x ∈ [5; 5; 4; 3; 5]%Q) by (rewrite <- Hp; by apply list_elem_of_fmap_2).
      pose proof (Qred_correct x) as Hx'. unfold oneToFive.
      repeat (apply elem_of_cons in Hin as [Hin|Hin]); [..|by apply elem_of_nil in Hin];
        rewrite Hin in Hx'; rewrite <- Hx'; auto 6 using Qeq_refl. }
    assert (Htotal : (total scores == 22)%Q).
    { by rewrite <- (total_Qred scores), (total_Permutation _ _ Hp). }
    pose proof (selected_scores (ofTeacher (Some tid)) query w) as Hsel.
    rewrite ofTeacher_filter in Hsel. fold scores rs in Hsel.
    assert (Havg : Js.toFixed1 (average rs) = Js.round64 (22 # 5)).
    { assert (Hlrs : length rs = 5%nat).
      { rewrite <- (length_fmap doc_rating rs). by rewrite Hsel. }
      unfold average. rewrite Hlrs.
      destruct (sum_integers (doc_rating <$> rs)) as (K & -> & HK).
      - by rewrite Hsel.
      - rewrite Hsel, Hlen. by apply small_length; lia.
      - rewrite (total_Permutation _ _ Hsel), Htotal in HK.
        change 22%Q with (inject_Z 22) in HK. apply inject_Z_injective in HK as ->.
        vm_compute. reflexivity. }
    split_and!.
    + by rewrite Ha, Havg.
    + rewrite Hd. unfold distributionOf.
      rewrite !Hcount by (intros x y Hxy Hx; by rewrite <- Hxy). reflexivity.
    + rewrite H4, Hcount by (intros x y Hxy Hx; by rewrite <- Hxy).
      reflexivity.
    + rewrite H2, Hcount by (intros x y Hxy Hx; by rewrite <- Hxy).
      reflexivity.
Qed.

Lemma teacher_rating_stats_witness :
  get "averageRating" (body (getAverageRatingsByTeacherId (Some bob)
                               (sampleWorld "completed" fiveRatings)).1)
  = Some (written (22 # 5))
  ∧ get "statistics" (body (getAverageRatingsByTeacherId (Some bob)
                              (sampleWorld "completed" fiveRatings)).1)
    ≫= get "ratingsAbove4" = Some (JNat 4)
  ∧ ∃ a, get "averageRating" (body (getAverageRatingsByTeacherId (Some bob)
                                      (sampleWorld "completed" fiveRatings)).1)
         = Some (JNum a)
         ∧ roundedTo1 a (mean (scoresOf (ratingsOfTeacher
                                            (sampleWorld "completed" fiveRatings) bob))).
Proof.
  pose proof (teacher_rating_stats (sampleWorld "completed" fiveRatings) bob bob
                (person "Bob" "teacher") eq_refl eq_refl eq_refl) as [Hg H].
  cbn zeta in Hg, H.
  assert (Hp : Qred <$> scoresOf (ratingsOfTeacher (sampleWorld "completed" fiveRatings) bob)
               ≡ₚ [5; 5; 4; 3; 5]%Q).
  { vm_compute. solve_Permutation. }
  destruct (H Hp) as (Ha & _ & H4 & _).
  destruct Hg as (_ & Hr & _); [by vm_compute|].
  split; [done|]. split; [done|]. apply Hr.
  - apply small_length. vm_compute. lia.
  - vm_compute. repeat constructor; discriminate.
Defined.

(** * Further properties of the handlers *)

(** ** Computations that only read *)

Lemma sameStore_refl (w : World) : sameStore w w.
Proof. by repeat split. Qed.

Lemma sameStore_trans (w1 w2 w3 : World) : sameStore w1 w2 → sameStore w2 w3 → sameStore w1 w3.
Proof. intros (? & ? & ? & ?) (? & ? & ? & ?). repeat split; congruence. Qed.

Lemma readOnly_ret {A} (a : A) : readOnly (mret a : M A).
Proof. intros w. apply sameStore_refl. Qed.

Lemma readOnly_respond (st : nat) (fields : list (string * Json)) : readOnly (respond st fields).
Proof. intros w. apply sameStore_refl. Qed.

Lemma readOnly_throw {A} (e : string) : readOnly (throw e : M A).
Proof. intros w. apply sameStore_refl. Qed.

Lemma readOnly_read {A} (f : World → A) : readOnly (read f).
Proof. intros w. apply sameStore_refl. Qed.

Lemma readOnly_called (c : StoreCall) : readOnly (called c).
Proof. intros w. by repeat split. Qed.

Lemma readOnly_bind {A B} (m : M A) (f : A → M B) :
  readOnly m → (∀ a, readOnly (f a)) → readOnly (m ≫= f).
Proof.
  intros Hm Hf w. rewrite bind_unfold. specialize (Hm w).
  destruct (m w) as [[a|e] w']; [|done].
  eapply sameStore_trans; [exact Hm|apply Hf].
Qed.

Lemma readOnly_cast (v : option string) : readOnly (cast v).
Proof.
  destruct v as [s|]; cbn; [|apply readOnly_ret].
  destruct (castObjectId s); [apply readOnly_ret|apply readOnly_throw].
Qed.

Create HintDb readonly.

#[local] Hint Resolve readOnly_ret readOnly_respond readOnly_throw readOnly_read
  readOnly_called readOnly_cast : readonly.

Ltac read_only :=
  repeat first
    [ apply readOnly_bind; [|intros ?]
    | solve [auto with readonly]
    | match goal with
      | |- readOnly (if ?b then _ else _) => destruct b
      | |- readOnly (match ?x with _ => _ end) => destruct x
      end ].

Lemma readOnly_User_findById (id : option string) : readOnly (User_findById id).
Proof. unfold User_findById. read_only. Qed.

Lemma readOnly_User_findOne (id : option string) : readOnly (User_findOne id).
Proof. unfold User_findOne. read_only. Qed.

Lemma readOnly_castCondition (c : Condition) : readOnly (castCondition c).
Proof. destruct c; cbn [castCondition]; read_only. Qed.

Lemma readOnly_awaitAll (q : Query) : readOnly (awaitAll q).
Proof. unfold awaitAll. read_only. apply readOnly_castCondition. Qed.

#[local] Hint Resolve readOnly_User_findById readOnly_User_findOne readOnly_awaitAll : readonly.

Lemma readOnly_tryCatch (body : M Response) (handler : string → Response) (w : World) :
  readOnly body → sameStore w (tryCatch body handler w).2.
Proof.
  intros H. unfold tryCatch. specialize (H w). by destruct (body w) as [[r|e] w'].
Qed.

(** X1: the handlers that read ratings never change a document: whatever the
    request and the store, the four collections are after the call what
    they were before it. *)
Theorem reading_handlers_leave_the_store
    (id : option string) (userId : string) (w : World) :
  sameStore w (getRatingsByListing id w).2
  ∧ sameStore w (getAverageRating id w).2
  ∧ sameStore w (getMyRatings userId w).2
  ∧ sameStore w (getRatingsByUserId id w).2
  ∧ sameStore w (getRatingsByLearnerId id w).2
  ∧ sameStore w (getMyReceivedRatings userId w).2
  ∧ sameStore w (getAverageRatingsByTeacherId id w).2.
Proof.
  split_and!; apply readOnly_tryCatch; read_only.
Qed.

(** ** What every response satisfies *)

Lemma answers_respond (P : Response → Prop) (st : nat) (fields : list (string * Json)) :
  P {| status := st; body := JObj fields |} → answers P (respond st fields).
Proof. intros H w a w' [= <- _]. exact H. Qed.

Lemma answers_bind {A B} (P : B → Prop) (m : M A) (f : A → M B) :
  (∀ a, answers P (f a)) → answers P (m ≫= f).
Proof.
  intros Hf w b w'. rewrite bind_unfold. destruct (m w) as [[a|e] w1]; [|done].
  apply Hf.
Qed.

Lemma answers_tryCatch (P : Response → Prop) (body : M Response)
    (handler : string → Response) (w : World) :
  answers P body → (∀ e, P (handler e)) → P (tryCatch body handler w).1.
Proof.
  intros Hb Hh. unfold tryCatch. destruct (body w) as [[r|e] w'] eqn:E; [|apply Hh].
  by apply (Hb w r w').
Qed.

Ltac all_answers :=
  repeat first
    [ apply answers_respond; reflexivity
    | apply answers_bind; intros ?
    | match goal with
      | |- answers _ (if ?b then _ else _) => destruct b
      | |- answers _ (match ?x with _ => _ end) => destruct x
      | |- answers _ (let _ := _ in _) => cbv zeta
      end ].

(** X2: in every response of every handler the [success] flag is [true]
    exactly when the status is 200 or 201, and [false] with every other
    status. *)
Theorem success_flag_follows_status
    (ratingValid : Q → bool) (env : Env) (req : CreateRatingBody) (id : option string)
    (score : option Q) (userId : string) (w : World) :
  flagged (createRating ratingValid env req w).1
  ∧ flagged (updateRating ratingValid id score w).1
  ∧ flagged (deleteRating env id userId w).1
  ∧ flagged (getRatingsByListing id w).1
  ∧ flagged (getAverageRating id w).1
  ∧ flagged (getMyRatings userId w).1
  ∧ flagged (getRatingsByUserId id w).1
  ∧ flagged (getRatingsByLearnerId id w).1
  ∧ flagged (getMyReceivedRatings userId w).1
  ∧ flagged (getAverageRatingsByTeacherId id w).1.
Proof.
  unfold createRating, updateRating, deleteRating, getRatingsByListing, getAverageRating,
    getMyRatings, getRatingsByUserId, getRatingsByLearnerId, getMyReceivedRatings,
    getAverageRatingsByTeacherId.
  split_and!; (apply (answers_tryCatch flagged); [|intros e; reflexivity]); all_answers.
Qed.

(** ** [updateRating] on a rating that exists, and on one that does not *)

Lemma updateRating_found (ratingValid : Q → bool) (id oid : string) (q : Q) (w : World)
    (r : Rating) :
  castObjectId id = Some oid → ratings w !! oid = Some r → validScore q →
  updateRating ratingValid (Some id) (Some q) w =
    let w' := logged (Call "Rating" "save" [Some oid])
                (logged (Call "Rating" "findById" [Some id]) w) in
    if ratingValid q
    then ({| status := 200;
             body := JObj [("message", JStr "Rating updated successfully");
                           ("success", JBool true);
                           ("rating", JObj [("_id", JStr oid); ("rating", JNum q)])] |},
          withRatings (alter (withScore q) oid) w')
    else (failure 500 "Internal server error", w').
Proof.
  intros Hc Hr Hq. unfold updateRating, tryCatch.
  rewrite (castObjectId_truthy _ _ Hc), (validScore_truthy q Hq). cbn [negb orb].
  destruct Hq as [Hlo%Qle_bool_iff Hhi%Qle_bool_iff].
  unfold Js.lt, Js.gt. rewrite Hlo, Hhi. cbn [negb orb].
  erewrite bind_run by (apply awaitOne_run, casts_ById, Hc).
  rewrite selected_ById, Hr. cbn [fmap option_fmap option_map].
  unfold Rating_saveRating, called, setRatings, respond, mbind, M_bind, mret, M_ret.
  cbn [toDoc doc_id fst snd]. by destruct (ratingValid q).
Qed.

Lemma updateRating_missing (ratingValid : Q → bool) (id oid : string) (q : Q) (w : World) :
  castObjectId id = Some oid → ratings w !! oid = None → validScore q →
  updateRating ratingValid (Some id) (Some q) w
  = (failure 404 "Rating not found", logged (Call "Rating" "findById" [Some id]) w).
Proof.
  intros Hc Hr Hq. unfold updateRating, tryCatch.
  rewrite (castObjectId_truthy _ _ Hc), (validScore_truthy q Hq). cbn [negb orb].
  destruct Hq as [Hlo%Qle_bool_iff Hhi%Qle_bool_iff].
  unfold Js.lt, Js.gt. rewrite Hlo, Hhi. cbn [negb orb].
  erewrite bind_run by (apply awaitOne_run, casts_ById, Hc).
  by rewrite selected_ById, Hr.
Qed.

(** X3: on a rating that exists, a score within [1, 5] that the schema
    accepts is written by [updateRating] whoever asks: the answer carries
    the identifier and the new score, the rating keeps its learner, teacher,
    listing and time of creation, and no other document changes. *)
Theorem updateRating_changes_only_the_score
    (ratingValid : Q → bool) (id oid : string) (q : Q) (w : World) (r : Rating) :
  castObjectId id = Some oid → ratings w !! oid = Some r → validScore q →
  ratingValid q = true →
  let res := updateRating ratingValid (Some id) (Some q) w in
  status res.1 = 200%nat
  ∧ get "rating" (body res.1) = Some (JObj [("_id", JStr oid); ("rating", JNum q)])
  ∧ ratings res.2 !! oid = Some (withScore q r)
  ∧ (∀ k, k ≠ oid → ratings res.2 !! k = ratings w !! k)
  ∧ users res.2 = users w ∧ skillListings res.2 = skillListings w
  ∧ sessions res.2 = sessions w.
Proof.
  intros Hc Hr Hq Hv res. subst res.
  rewrite (updateRating_found ratingValid id oid q w r Hc Hr Hq). cbn zeta. rewrite Hv.
  cbn [fst snd status body ratings withRatings logged users skillListings sessions].
  split_and!; try done.
  - by rewrite lookup_alter_eq, Hr.
  - intros k Hk. by rewrite lookup_alter_ne.
Qed.

Lemma updateRating_changes_only_the_score_witness :
  ratings (updateRating ratingSchema (Some rating1) (Some 2%Q)
             (sampleWorld "completed" oneRating)).2 !! rating1
  = Some (ratingBy alice 2 100).
Proof.
  refine (proj1 (proj2 (proj2 (updateRating_changes_only_the_score ratingSchema rating1
                   rating1 2 (sampleWorld "completed" oneRating) (ratingBy alice 4 100)
                   eq_refl eq_refl _ eq_refl)))).
  split; discriminate.
Defined.

(** X4: [updateRating] with a well-formed identifier under which no rating
    is stored answers with a not-found error after the one query that looks
    the rating up, and changes nothing. *)
Theorem updateRating_unknown_rating
    (ratingValid : Q → bool) (id oid : string) (q : Q) (w : World) :
  castObjectId id = Some oid → ratings w !! oid = None → validScore q →
  let res := updateRating ratingValid (Some id) (Some q) w in
  errorKind res.1 = Some NotFoundError
  ∧ sameStore w res.2
  ∧ trace res.2 = (trace w ++ [Call "Rating" "findById" [Some id]])%list.
Proof.
  intros Hc Hr Hq res. subst res.
  by rewrite (updateRating_missing ratingValid id oid q w Hc Hr Hq).
Qed.

Lemma updateRating_unknown_rating_witness :
  errorKind (updateRating ratingSchema (Some rating2) (Some 3%Q)
               (sampleWorld "completed" oneRating)).1 = Some NotFoundError.
Proof.
  refine (proj1 (updateRating_unknown_rating ratingSchema rating2 rating2 3
                   (sampleWorld "completed" oneRating) eq_refl eq_refl _)).
  split; discriminate.
Defined.

(** ** [createRating] when every gate lets the request pass *)

(** The three references as [createRating] and [getRatingsByListing]
    populate them. *)
Lemma toDoc_joined (w : World) (id : ObjectId) (r : Rating) :
  RatingDoc_toJSON
    (toDoc w [("learnerID", ["fullname"; "email"]); ("teacherID", ["fullname"; "email"]);
              ("listingID", ["title"])] (id, r))
  = joined w id r.
Proof.
  unfold toDoc, RatingDoc_toJSON, joined, userRef, listingRef, populateUser, populateListing.
  cbn [populated List.find fst snd String.eqb Ascii.eqb Bool.eqb fmap option_fmap option_map
       doc_id doc_learnerID doc_teacherID doc_listingID doc_rating doc_createdAt].
  destruct (users w !! r_learnerID r), (users w !! r_teacherID r),
    (skillListings w !! r_listingID r); reflexivity.
Qed.

Lemma joined_logged (c : StoreCall) (w : World) (id : ObjectId) (r : Rating) :
  joined (logged c w) id r = joined w id r.
Proof. reflexivity. Qed.

Lemma createRating_created (ratingValid : Q → bool) (env : Env) (sl st ss l t s : string)
    (q : Q) (w : World) :
  castObjectId sl = Some l → castObjectId st = Some t → castObjectId ss = Some s →
  is_Some (users w !! l) → is_Some (users w !! t) → is_Some (skillListings w !! s) →
  hasCompletedSession w l t s → ¬ hasRating w l t s →
  validScore q → ratingValid q = true → ratings w !! newObjectId env = None →
  let res := createRating ratingValid env (request sl st ss q) w in
  res.1 = {| status := 201;
             body := JObj [("message", JStr "Rating created successfully");
                           ("success", JBool true);
                           ("rating", joined w (newObjectId env) (newRatingOf env l t s q))] |}
  ∧ ratings res.2 = <[newObjectId env := newRatingOf env l t s q]> (ratings w)
  ∧ users res.2 = users w ∧ skillListings res.2 = skillListings w
  ∧ sessions res.2 = sessions w
  ∧ trace res.2
    = (trace w ++ [Call "User" "findById" [Some sl];
                   Call "User" "findById" [Some st];
                   Call "SkillListing" "findById" [Some ss];
                   Call "Session" "findOne" [Some sl; Some st; Some ss; Some "completed"];
                   Call "Rating" "findOne" [Some sl; Some st; Some ss];
                   Call "Rating" "save" [Some (newObjectId env)];
                   Call "Rating" "findById" [Some (newObjectId env)]])%list.
Proof.
  intros Cl Ct Cs [ul Ul] [ut Ut] [ls Ls] Hs Hr Hq Hv Hfresh. cbn zeta.
  unfold createRating, tryCatch, request.
  cbn [body_learnerID body_teacherID body_listingID body_rating].
  rewrite (castObjectId_truthy _ _ Cl), (castObjectId_truthy _ _ Ct),
    (castObjectId_truthy _ _ Cs), (validScore_truthy q Hq). cbn [negb orb].
  destruct Hq as [Hlo%Qle_bool_iff Hhi%Qle_bool_iff].
  unfold Js.lt, Js.gt. rewrite Hlo, Hhi. cbn [negb orb].
  rewrite (bind_run _ _ _ _ _ (User_findById_run _ _ w Cl)), Ul.
  cbn [fmap option_fmap option_map].
  rewrite (bool_decide_eq_true_2 (is_Some (Some (l, ul)))) by eauto. cbn [negb].
  rewrite (bind_run _ _ _ _ _ (User_findById_run _ _ _ Ct)). cbn [users logged]. rewrite Ut.
  cbn [fmap option_fmap option_map].
  rewrite (bool_decide_eq_true_2 (is_Some (Some (t, ut)))) by eauto. cbn [negb].
  rewrite (bind_run _ _ _ _ _ (SkillListing_findById_run _ _ _ Cs)).
  cbn [skillListings logged]. rewrite Ls. cbn [fmap option_fmap option_map].
  rewrite (bool_decide_eq_true_2 (is_Some (Some (s, ls)))) by eauto. cbn [negb].
  rewrite (bind_run _ _ _ _ _ (Session_findOne_run _ _ _ _ _ _ _ _ Cl Ct Cs)).
  cbn [sessions logged].
  rewrite (bool_decide_eq_true_2 (is_Some (head (docs _ _)))) by (by apply found_session).
  cbn [negb].
  erewrite bind_run by (apply awaitOne_run, casts_ByTriple; eassumption).
  rewrite (bool_decide_eq_false_2 (is_Some (head (selected _ _ _))))
    by (by intros Hf%found_rating).
  rewrite bind_unfold, (Rating_insert_run ratingValid env _ _ _ _ _ _ q _ Cl Ct Cs).
  cbn zeta. cbn [ratings logged]. rewrite Hv.
  rewrite (bool_decide_eq_false_2 (is_Some (ratings w !! newObjectId env)))
    by (rewrite Hfresh; by intros [? ?]).
  erewrite bind_run by (apply awaitOne_run, casts_ByObjectId).
  rewrite selected_ById. cbn [ratings withRatings logged].
  rewrite lookup_insert_eq. cbn [fmap option_fmap option_map orNull].
  unfold respond, mret, M_ret. cbn [fst snd].
  split.
  { f_equal. do 3 f_equal.
    change (q_populate _) with [("learnerID", ["fullname"; "email"]);
                                ("teacherID", ["fullname"; "email"]);
                                ("listingID", ["title"])].
    rewrite toDoc_joined. reflexivity. }
  cbn [trace logged withRatings ratings users skillListings sessions].
  rewrite <- !app_assoc. done.
Qed.

(** The prerequisites of a rating of [bob]'s [piano] lesson by [alice] in
    the sample store. *)
Ltac sample_prerequisites :=
  lazymatch goal with
  | |- is_Some _ => by eexists
  | |- hasCompletedSession _ _ _ _ =>
      exists lesson, {| s_learnerID := alice; s_teacherID := bob;
                        s_skillListingID := piano; s_status := "completed" |};
      split; [reflexivity|by repeat split]
  | |- ¬ hasRating ?w ?l ?t ?s =>
      apply (bool_decide_eq_false_1 (hasRating w l t s)); vm_compute; reflexivity
  | |- validScore _ => split; discriminate
  end.

(** X5: when every gate lets the request pass, the schema accepts the score
    and the new identifier is unused, [createRating] answers 201 with the
    new rating joined with the names and e-mail addresses of its learner and
    teacher and the title of its listing, stores that rating under the new
    identifier with the time of the request, and changes nothing else. *)
Theorem createRating_stores_and_returns_the_rating
    (ratingValid : Q → bool) (env : Env) (sl st ss l t s : string) (q : Q) (w : World) :
  castObjectId sl = Some l → castObjectId st = Some t → castObjectId ss = Some s →
  is_Some (users w !! l) → is_Some (users w !! t) → is_Some (skillListings w !! s) →
  hasCompletedSession w l t s → ¬ hasRating w l t s →
  validScore q → ratingValid q = true → ratings w !! newObjectId env = None →
  let res := createRating ratingValid env (request sl st ss q) w in
  status res.1 = 201%nat
  ∧ get "rating" (body res.1) = Some (joined w (newObjectId env) (newRatingOf env l t s q))
  ∧ ratings res.2 !! newObjectId env = Some (newRatingOf env l t s q)
  ∧ (∀ k, k ≠ newObjectId env → ratings res.2 !! k = ratings w !! k)
  ∧ users res.2 = users w ∧ skillListings res.2 = skillListings w
  ∧ sessions res.2 = sessions w.
Proof.
  intros Cl Ct Cs Ul Ut Ls Hs Hr Hq Hv Hfresh res.
  destruct (createRating_created ratingValid env sl st ss l t s q w)
    as (He & Hrs & Hu & Hl & Hss & _); try done.
  fold res in He, Hrs, Hu, Hl, Hss. rewrite He, Hrs.
  split_and!; try done.
  - apply lookup_insert_eq.
  - intros k Hk. by rewrite lookup_insert_ne.
Qed.

Lemma createRating_stores_and_returns_the_rating_witness :
  status (createRating ratingSchema today (request alice bob piano 4)
            (sampleWorld "completed" ∅)).1 = 201%nat.
Proof.
  refine (proj1 (createRating_stores_and_returns_the_rating ratingSchema today
                   alice bob piano alice bob piano 4 (sampleWorld "completed" ∅)
                   eq_refl eq_refl eq_refl _ _ _ _ _ _ eq_refl eq_refl));
    sample_prerequisites.
Defined.

(** ** A rating that was created is listed, and can be deleted *)

Lemma joined_same (w w' : World) (id : ObjectId) (r : Rating) :
  users w' = users w → skillListings w' = skillListings w → joined w' id r = joined w id r.
Proof. intros Hu Hl. unfold joined, userRef, listingRef. by rewrite Hu, Hl. Qed.

Lemma getRatingsByListing_found (w : World) (s lid : string) :
  castObjectId s = Some lid →
  let found := selected (ofListing (Some lid))
                 (sortNewestFirst
                    (populate "listingID" ["title"]
                       (populate "teacherID" ["fullname"; "email"]
                          (populate "learnerID" ["fullname"; "email"]
                             (Rating_find (ByListing (Some s))))))) w in
  status (getRatingsByListing (Some s) w).1 = 200%nat
  ∧ get "ratings" (body (getRatingsByListing (Some s) w).1)
    = Some (JArr (RatingDoc_toJSON <$> found))
  ∧ get "totalRatings" (body (getRatingsByListing (Some s) w).1)
    = Some (JNat (length found)).
Proof.
  intros Hc. cbn zeta. unfold getRatingsByListing, tryCatch.
  rewrite (castObjectId_truthy _ _ Hc). cbn [negb].
  erewrite bind_run by (apply awaitAll_run, casts_ByListing, Hc).
  done.
Qed.

(** X6: a rating that [createRating] has just created is listed by
    [getRatingsByListing] for its listing exactly as the creation returned
    it, and the listing counts one rating more than before. *)
Theorem created_rating_is_listed
    (ratingValid : Q → bool) (env : Env) (sl st ss l t s : string) (q : Q) (w : World) :
  castObjectId sl = Some l → castObjectId st = Some t → castObjectId ss = Some s →
  is_Some (users w !! l) → is_Some (users w !! t) → is_Some (skillListings w !! s) →
  hasCompletedSession w l t s → ¬ hasRating w l t s →
  validScore q → ratingValid q = true → ratings w !! newObjectId env = None →
  let created := createRating ratingValid env (request sl st ss q) w in
  let listed := (getRatingsByListing (Some ss) created.2).1 in
  status listed = 200%nat
  ∧ (∃ entry, get "rating" (body created.1) = Some entry
              ∧ entry ∈ items (get "ratings" (body listed))
              ∧ get "rating" entry = Some (JNum q))
  ∧ get "totalRatings" (body listed) = Some (JNat (S (length (ratingsOfListing w s)))).
Proof.
  intros Cl Ct Cs Ul Ut Ls Hs Hr Hq Hv Hfresh created listed.
  destruct (createRating_created ratingValid env sl st ss l t s q w)
    as (He & Hrs & Hu & Hl & _); try done.
  fold created in He, Hrs, Hu, Hl.
  destruct (getRatingsByListing_found created.2 ss s Cs) as (H200 & Hitems & Htotal).
  fold listed in H200, Hitems, Htotal. cbn zeta in Hitems, Htotal.
  set (query := sortNewestFirst _) in *.
  set (new := newRatingOf env l t s q) in *.
  assert (Hin : (newObjectId env, new)
                ∈ List.filter (ofListing (Some s)) (map_to_list (ratings created.2))).
  { apply list_elem_of_In, filter_In. split.
    - apply list_elem_of_In, elem_of_map_to_list. rewrite Hrs. apply lookup_insert_eq.
    - unfold ofListing, eqId. by apply bool_decide_eq_true. }
  split; [done|]. split.
  - exists (joined w (newObjectId env) new). rewrite He. split; [done|]. split; [|done].
    rewrite Hitems. cbn [items]. apply list_elem_of_fmap.
    exists (toDoc created.2 (q_populate query) (newObjectId env, new)). split.
    + change (q_populate query) with [("learnerID", ["fullname"; "email"]);
                                      ("teacherID", ["fullname"; "email"]);
                                      ("listingID", ["title"])].
      by rewrite toDoc_joined, (joined_same w created.2).
    + unfold selected. change (q_sort query) with true. cbn match.
      rewrite merge_sort_Permutation. apply list_elem_of_fmap. eauto.
  - rewrite Htotal, selected_length, ofListing_filter. do 2 f_equal.
    unfold ratingsOfListing. rewrite Hrs.
    rewrite (map_to_list_insert _ _ _ Hfresh), filter_cons_True by done. done.
Qed.

Lemma created_rating_is_listed_witness :
  get "totalRatings"
    (body (getRatingsByListing (Some piano)
             (createRating ratingSchema today (request alice bob piano 4)
                (sampleWorld "completed" ∅)).2).1)
  = Some (JNat 1).
Proof.
  refine (proj2 (proj2 (created_rating_is_listed ratingSchema today alice bob piano
                   alice bob piano 4 (sampleWorld "completed" ∅)
                   eq_refl eq_refl eq_refl _ _ _ _ _ _ eq_refl eq_refl)));
    sample_prerequisites.
Defined.

(** X7: a rating that [createRating] has just created is deleted by its
    learner with [deleteRating], which puts the store back as it was before
    the creation. *)
Theorem created_rating_can_be_deleted
    (ratingValid : Q → bool) (env env' : Env) (sl st ss l t s : string) (q : Q) (w : World) :
  castObjectId sl = Some l → castObjectId st = Some t → castObjectId ss = Some s →
  is_Some (users w !! l) → is_Some (users w !! t) → is_Some (skillListings w !! s) →
  hasCompletedSession w l t s → ¬ hasRating w l t s →
  validScore q → ratingValid q = true → ratings w !! newObjectId env = None →
  castObjectId (newObjectId env) = Some (newObjectId env) →
  let created := createRating ratingValid env (request sl st ss q) w in
  let deleted := deleteRating env' (Some (newObjectId env)) l created.2 in
  status deleted.1 = 200%nat ∧ sameStore w deleted.2.
Proof.
  intros Cl Ct Cs Ul Ut Ls Hs Hr Hq Hv Hfresh Hid created deleted.
  destruct (createRating_created ratingValid env sl st ss l t s q w)
    as (_ & Hrs & Hu & Hl & Hss & _); try done.
  fold created in Hrs, Hu, Hl, Hss.
  unfold deleted. clearbody created.
  rewrite (deleteRating_found env' (newObjectId env) (newObjectId env) l created.2
             (newRatingOf env l t s q) Hid) by (rewrite Hrs; apply lookup_insert_eq).
  change (r_learnerID (newRatingOf env l t s q)) with l. rewrite String.eqb_refl.
  cbn [fst snd status users skillListings sessions ratings withRatings logged].
  split; [done|].
  repeat split; cbn [users skillListings sessions ratings withRatings logged];
    try congruence.
  rewrite Hrs, delete_insert_eq. symmetry. by apply delete_id.
Qed.

Lemma created_rating_can_be_deleted_witness :
  sameStore (sampleWorld "completed" ∅)
    (deleteRating today (Some rating6) alice
       (createRating ratingSchema today (request alice bob piano 4)
          (sampleWorld "completed" ∅)).2).2.
Proof.
  refine (proj2 (created_rating_can_be_deleted ratingSchema today today alice bob piano
                   alice bob piano 4 (sampleWorld "completed" ∅)
                   eq_refl eq_refl eq_refl _ _ _ _ _ _ eq_refl eq_refl eq_refl));
    sample_prerequisites.
Defined.

(** ** What a created rating presupposes, and one rating per triple *)

Lemma check_not_created (g : Gate) (req : CreateRatingBody) (w : World) (e : Response) :
  check g req w = Some e → status e ≠ 201%nat.
Proof.
  destruct g; cbn; unfold resolves;
    repeat (case_match; try done); by intros [= <-].
Qed.

Lemma resolves_None {A} (id : option string) (c : gmap ObjectId A) (msg : string) :
  resolves id c msg = None → ∃ oid, id ≫= castObjectId = Some oid ∧ is_Some (c !! oid).
Proof.
  unfold resolves. destruct (id ≫= castObjectId) as [oid|]; [|done].
  destruct (c !! oid) eqn:E; [|done]. intros _. exists oid. eauto.
Qed.

Lemma triple_Some (req : CreateRatingBody) (l t s : ObjectId) :
  triple req = Some (l, t, s) →
  body_learnerID req ≫= castObjectId = Some l
  ∧ body_teacherID req ≫= castObjectId = Some t
  ∧ body_listingID req ≫= castObjectId = Some s.
Proof.
  unfold triple.
  destruct (body_learnerID req ≫= castObjectId) as [l'|]; [|done].
  destruct (body_teacherID req ≫= castObjectId) as [t'|]; [|done].
  destruct (body_listingID req ≫= castObjectId) as [s'|]; [|done].
  cbn. by intros [= -> -> ->].
Qed.

(** What letting a request pass every gate means. *)
Lemma gates_passed (req : CreateRatingBody) (w : World) (l t s : ObjectId) :
  firstFailure gateOrder req w = None → triple req = Some (l, t, s) →
  is_Some (users w !! l) ∧ is_Some (users w !! t) ∧ is_Some (skillListings w !! s)
  ∧ hasCompletedSession w l t s ∧ ¬ hasRating w l t s.
Proof.
  intros Hf Ht. destruct (triple_Some req l t s Ht) as (Hl & Hte & Hs).
  assert (Hg : ∀ g, g ∈ gateOrder → check g req w = None)
    by (intros g; by apply firstFailure_None).
  split_and!.
  - destruct (resolves_None _ _ _ (Hg LearnerExists ltac:(set_solver))) as (o & Ho & ?).
    rewrite Hl in Ho. by injection Ho as <-.
  - destruct (resolves_None _ _ _ (Hg TeacherExists ltac:(set_solver))) as (o & Ho & ?).
    rewrite Hte in Ho. by injection Ho as <-.
  - destruct (resolves_None _ _ _ (Hg ListingExists ltac:(set_solver))) as (o & Ho & ?).
    rewrite Hs in Ho. by injection Ho as <-.
  - pose proof (Hg CompletedSession ltac:(set_solver)) as H. cbn in H. rewrite Ht in H.
    by case_bool_decide.
  - pose proof (Hg NoDuplicate ltac:(set_solver)) as H. cbn in H. rewrite Ht in H.
    by case_bool_decide.
Qed.

(** X8: [createRating] answers 201 only to a request that names a learner, a
    teacher and a listing that exist, with a completed session of the three
    and no rating of the three yet, and a score within [1, 5] that the
    schema accepts; the rating it then stores is the one of the request. *)
Theorem createRating_creates_only_when_entitled
    (ratingValid : Q → bool) (env : Env) (req : CreateRatingBody) (w : World) :
  let res := createRating ratingValid env req w in
  status res.1 = 201%nat →
  ∃ l t s q,
    triple req = Some (l, t, s) ∧ body_rating req = Some q
    ∧ is_Some (users w !! l) ∧ is_Some (users w !! t) ∧ is_Some (skillListings w !! s)
    ∧ hasCompletedSession w l t s ∧ ¬ hasRating w l t s
    ∧ validScore q ∧ ratingValid q = true
    ∧ ratings w !! newObjectId env = None
    ∧ ratings res.2 = <[newObjectId env := newRatingOf env l t s q]> (ratings w).
Proof.
  intros res H201. subst res.
  pose proof (createRating_outcome ratingValid env req w) as Ho. cbn zeta in Ho.
  destruct (firstFailure gateOrder req w) as [[g e]|] eqn:Ef.
  - destruct Ho as (He & _). rewrite He in H201.
    by destruct (check_not_created g req w e (firstFailure_error _ _ _ _ _ Ef)).
  - destruct Ho as (l & t & s & q & Ht & Hq & Hv & _ & _ & _ & Hw).
    exists l, t, s, q.
    destruct (gates_passed req w l t s Ef Ht) as (? & ? & ? & ? & ?).
    destruct (ratingValid q); cbn [andb] in Hw;
      [|destruct Hw as [Hw _]; rewrite Hw in H201; discriminate H201].
    case_bool_decide as Hfresh; cbn [negb] in Hw;
      [destruct Hw as [Hw _]; rewrite Hw in H201; discriminate H201|].
    destruct Hw as [_ Hw]. split_and!; try done.
    destruct (ratings w !! newObjectId env) eqn:E; [|done]. destruct Hfresh. eauto.
Qed.

Lemma createRating_creates_only_when_entitled_witness :
  ∃ l t s q,
    triple (request alice bob piano 4) = Some (l, t, s)
    ∧ body_rating (request alice bob piano 4) = Some q
    ∧ is_Some (sampleUsers !! l) ∧ is_Some (sampleUsers !! t)
    ∧ is_Some (sampleListings !! s)
    ∧ hasCompletedSession (sampleWorld "completed" ∅) l t s
    ∧ ¬ hasRating (sampleWorld "completed" ∅) l t s.
Proof.
  destruct (createRating_creates_only_when_entitled ratingSchema today
              (request alice bob piano 4) (sampleWorld "completed" ∅))
    as (l & t & s & q & H1 & H2 & H3 & H4 & H5 & H6 & H7 & _).
  - vm_compute. reflexivity.
  - exists l, t, s, q. repeat split; assumption.
Defined.




(** ** The ratings of a learner and of a teacher, newest first *)

Lemma newerEq_total : Total newerEq.
Proof. intros a b. unfold newerEq. lia. Qed.

Lemma newerEq_trans : Transitive newerEq.
Proof. intros a b c. unfold newerEq. lia. Qed.

Lemma selected_keys p q w :
  docKey <$> selected p q w ≡ₚ ratingKey <$> List.filter p (map_to_list (ratings w)).
Proof.
  unfold selected.
  assert (H : docKey <$> (toDoc w (q_populate q) <$> List.filter p (map_to_list (ratings w)))
              = ratingKey <$> List.filter p (map_to_list (ratings w))).
  { rewrite <- list_fmap_compose. done. }
  destruct (q_sort q); [|by rewrite H].
  by rewrite merge_sort_Permutation, H.
Qed.

Lemma selected_sorted p q w :
  q_sort q = true → StronglySorted newerEq (selected p q w).
Proof.
  intros Hs. unfold selected. rewrite Hs.
  apply (@StronglySorted_merge_sort _ newerEq _ newerEq_trans newerEq_total).
Qed.

Lemma ofLearner_filter (w : World) (uid : ObjectId) :
  List.filter (ofLearner (Some uid)) (map_to_list (ratings w)) = ratingsOfLearner w uid.
Proof.
  apply filter_bool_Prop. intros [k r]. unfold ofLearner, eqId. cbn.
  rewrite bool_decide_eq_true. split; [by intros [= ->]|by intros ->].
Qed.

(** X10: for a user who exists, [getRatingsByUserId] answers with the
    ratings that user gave as a learner, each once, newest first, and with
    the user's name and e-mail address; [getMyRatings] lists the same
    ratings for the user who is signed in. *)
Theorem learner_ratings_newest_first (w : World) (s uid : string) (u : User) :
  castObjectId s = Some uid → users w !! uid = Some u →
  let byId := (getRatingsByUserId (Some s) w).1 in
  let mine := (getMyRatings s w).1 in
  status byId = 200%nat
  ∧ get "user" (body byId) = Some (userSummary (uid, u))
  ∧ get "ratings" (body mine) = get "ratings" (body byId)
  ∧ ∃ found,
      get "ratings" (body byId) = Some (JArr (RatingDoc_toJSON <$> found))
      ∧ docKey <$> found ≡ₚ ratingKey <$> ratingsOfLearner w uid
      ∧ StronglySorted newerEq found.
Proof.
  intros Hc Hu. cbn zeta. unfold getRatingsByUserId, getMyRatings, tryCatch.
  rewrite (castObjectId_truthy _ _ Hc). change (default "" (Some s)) with s.
  rewrite (castObjectId_length _ _ Hc). cbn [Nat.eqb negb].
  rewrite (bind_run _ _ _ _ _ (User_findById_run _ _ _ Hc)), Hu.
  cbn [fmap option_fmap option_map].
  erewrite !bind_run by (apply awaitAll_run, casts_ByLearner, Hc).
  rewrite !selected_logged. set (q := sortNewestFirst _).
  split_and!; try done.
  exists (selected (ofLearner (Some uid)) q w). split_and!; [done| |].
  - by rewrite selected_keys, ofLearner_filter.
  - by apply selected_sorted.
Qed.

Lemma learner_ratings_newest_first_witness :
  get "ratings" (body (getMyRatings alice (sampleWorld "completed" fiveRatings)).1)
  = get "ratings" (body (getRatingsByUserId (Some alice)
                           (sampleWorld "completed" fiveRatings)).1).
Proof.
  refine (proj1 (proj2 (proj2 (learner_ratings_newest_first
                   (sampleWorld "completed" fiveRatings) alice alice (person "Alice" "learner")
                   eq_refl _)))).
  vm_compute. reflexivity.
Defined.

(** X11: for a learner who exists, [getRatingsByLearnerId] answers with the
    ratings the learner gave, each once, newest first, with their number and
    with the learner's name and e-mail address. *)
Theorem getRatingsByLearnerId_lists_and_counts (w : World) (s uid : string) (u : User) :
  castObjectId s = Some uid → users w !! uid = Some u →
  let res := (getRatingsByLearnerId (Some s) w).1 in
  status res = 200%nat
  ∧ get "learner" (body res) = Some (userSummary (uid, u))
  ∧ get "totalRatings" (body res) = Some (JNat (length (ratingsOfLearner w uid)))
  ∧ ∃ found,
      get "ratings" (body res) = Some (JArr (RatingDoc_toJSON <$> found))
      ∧ docKey <$> found ≡ₚ ratingKey <$> ratingsOfLearner w uid
      ∧ StronglySorted newerEq found.
Proof.
  intros Hc Hu. cbn zeta. unfold getRatingsByLearnerId, tryCatch.
  rewrite (castObjectId_truthy _ _ Hc). cbn [negb].
  assert (Hf : User_findOne (Some s) w
               = (Normal ((uid,.) <$> users w !! uid),
                  logged (Call "User" "findOne" [Some s]) w)).
  { unfold User_findOne, called, read, lookupId, mbind at 1 2, M_bind.
    by rewrite (cast_run _ _ _ Hc). }
  rewrite (bind_run _ _ _ _ _ Hf), Hu. cbn [fmap option_fmap option_map].
  erewrite bind_run by (apply awaitAll_run, casts_ByLearner, Hc).
  rewrite !selected_logged, selected_length, ofLearner_filter.
  set (q := sortNewestFirst _).
  split_and!; try done.
  exists (selected (ofLearner (Some uid)) q w). split_and!; [done| |].
    + by rewrite selected_keys, ofLearner_filter.
    + by apply selected_sorted.
Qed.

Lemma getRatingsByLearnerId_lists_and_counts_witness :
  get "totalRatings" (body (getRatingsByLearnerId (Some alice)
                              (sampleWorld "completed" fiveRatings)).1)
  = Some (JNat (length (ratingsOfLearner (sampleWorld "completed" fiveRatings) alice))).
Proof.
  refine (proj1 (proj2 (proj2 (getRatingsByLearnerId_lists_and_counts
                   (sampleWorld "completed" fiveRatings) alice alice (person "Alice" "learner")
                   eq_refl _)))).
  vm_compute. reflexivity.
Defined.

(** X12: [getMyReceivedRatings] answers with the ratings in which the user
    who is signed in is the teacher, each once, newest first, and with their
    number; it looks no user up, so that it answers in this way whether or
    not the user exists or is a teacher. *)
Theorem getMyReceivedRatings_lists_and_counts (w : World) (s uid : string) :
  castObjectId s = Some uid →
  let res := getMyReceivedRatings s w in
  status res.1 = 200%nat
  ∧ get "totalRatings" (body res.1) = Some (JNat (length (ratingsOfTeacher w uid)))
  ∧ (∃ found,
       get "ratings" (body res.1) = Some (JArr (RatingDoc_toJSON <$> found))
       ∧ docKey <$> found ≡ₚ ratingKey <$> ratingsOfTeacher w uid
       ∧ StronglySorted newerEq found)
  ∧ trace res.2 = (trace w ++ [Call "Rating" "find" [Some s]])%list.
Proof.
  intros Hc. cbn zeta. unfold getMyReceivedRatings, tryCatch.
  erewrite bind_run by (apply awaitAll_run, casts_ByTeacher, Hc).
  rewrite selected_length, ofTeacher_filter.
  set (q := sortNewestFirst _).
  split_and!; try done.
  exists (selected (ofTeacher (Some uid)) q w). split_and!; [done| |].
  - by rewrite selected_keys, ofTeacher_filter.
  - by apply selected_sorted.
Qed.

Lemma getMyReceivedRatings_lists_and_counts_witness :
  get "totalRatings" (body (getMyReceivedRatings bob (sampleWorld "completed" fiveRatings)).1)
  = Some (JNat (length (ratingsOfTeacher (sampleWorld "completed" fiveRatings) bob))).
Proof.
  exact (proj1 (proj2 (getMyReceivedRatings_lists_and_counts
                  (sampleWorld "completed" fiveRatings) bob bob eq_refl))).
Defined.

(** ** Users that do not exist, and users that are no teachers *)

(** X13: [getRatingsByUserId], [getRatingsByLearnerId] and
    [getAverageRatingsByTeacherId] answer a well-formed identifier under
    which no user is stored with a not-found error after the one query that
    looks the user up: no rating is queried, and the store is left as it
    was. *)
Theorem unknown_user_is_not_found (w : World) (s uid : string) :
  castObjectId s = Some uid → users w !! uid = None →
  let u := getRatingsByUserId (Some s) w in
  let l := getRatingsByLearnerId (Some s) w in
  let t := getAverageRatingsByTeacherId (Some s) w in
  (u.1 = failure 404 "User not found"
   ∧ u.2 = logged (Call "User" "findById" [Some s]) w)
  ∧ (l.1 = failure 404 "Learner not found"
     ∧ l.2 = logged (Call "User" "findOne" [Some s]) w)
  ∧ (t.1 = failure 404 "Teacher not found"
     ∧ t.2 = logged (Call "User" "findById" [Some s]) w).
Proof.
  intros Hc Hu. cbn zeta.
  unfold getRatingsByUserId, getRatingsByLearnerId, getAverageRatingsByTeacherId, tryCatch.
  rewrite (castObjectId_truthy _ _ Hc). change (default "" (Some s)) with s.
  rewrite (castObjectId_length _ _ Hc). cbn [Nat.eqb negb].
  assert (Hf : User_findOne (Some s) w
               = (Normal ((uid,.) <$> users w !! uid),
                  logged (Call "User" "findOne" [Some s]) w)).
  { unfold User_findOne, called, read, lookupId, mbind at 1 2, M_bind.
    by rewrite (cast_run _ _ _ Hc). }
  rewrite (bind_run _ _ _ _ _ Hf), !(bind_run _ _ _ _ _ (User_findById_run _ _ _ Hc)), Hu.
  done.
Qed.

Lemma unknown_user_is_not_found_witness :
  (getRatingsByUserId (Some rating1) (sampleWorld "completed" fiveRatings)).1
  = failure 404 "User not found".
Proof.
  exact (proj1 (proj1 (unknown_user_is_not_found (sampleWorld "completed" fiveRatings)
                         rating1 rating1 eq_refl eq_refl))).
Defined.

(** X14: [getAverageRatingsByTeacherId] answers for a user whose role is not
    [teacher] with a validation error after the one query that looks the
    user up: no rating is queried, whatever ratings the user has received,
    and the store is left as it was. *)
Theorem only_teachers_have_rating_stats (w : World) (s uid : string) (u : User) :
  castObjectId s = Some uid → users w !! uid = Some u → u_role u ≠ "teacher" →
  let stats := getAverageRatingsByTeacherId (Some s) w in
  stats.1 = failure 400 "This user is not a teacher"
  ∧ stats.2 = logged (Call "User" "findById" [Some s]) w.
Proof.
  intros Hc Hu Hr. cbn zeta.
  unfold getAverageRatingsByTeacherId, tryCatch.
  rewrite (castObjectId_truthy _ _ Hc). change (default "" (Some s)) with s.
  rewrite (castObjectId_length _ _ Hc). cbn [Nat.eqb negb].
  rewrite (bind_run _ _ _ _ _ (User_findById_run _ _ _ Hc)), Hu.
  cbn [fmap option_fmap option_map fst snd].
  apply String.eqb_neq in Hr. rewrite Hr. done.
Qed.

Lemma only_teachers_have_rating_stats_witness :
  (getAverageRatingsByTeacherId (Some alice) (sampleWorld "completed" fiveRatings)).1
  = failure 400 "This user is not a teacher".
Proof.
  refine (proj1 (only_teachers_have_rating_stats (sampleWorld "completed" fiveRatings)
                   alice alice (person "Alice" "learner") eq_refl _ _)).
  - vm_compute. reflexivity.
  - discriminate.
Defined.

(** ** Identifiers of the right length that are not well formed *)

Lemma length_truthy (s : string) : String.length s = 24%nat → Js.truthy (Some s) = true.
Proof. by destruct s. Qed.

Lemma awaitAll_throw (q : Query) (s : string) (w : World) :
  q_condition q ∈ [ById (Some s); ByListing (Some s); ByLearner (Some s); ByTeacher (Some s)] →
  castObjectId s = None →
  awaitAll q w = (Throw "CastError", logged (Call "Rating" (q_method q) [Some s]) w).
Proof.
  intros Hq Hc. unfold awaitAll, called, castCondition, mbind, M_bind.
  repeat (apply elem_of_cons in Hq as [->|Hq]); [..|by apply elem_of_nil in Hq];
    by rewrite (cast_throw _ _ Hc).
Qed.

(** X15: an identifier of 24 characters that is not a well-formed
    [ObjectId] passes every check of the handlers and fails in the store:
    each handler that takes the identifier of a rating, a listing or a user
    answers with an internal error after its first store call, and changes
    nothing. *)
Theorem malformed_identifier_is_an_internal_error
    (ratingValid : Q → bool) (env : Env) (s userId : string) (q : Q) (w : World) :
  String.length s = 24%nat → castObjectId s = None → validScore q →
  let fails (h : Handler) (c : StoreCall) :=
    errorKind (h w).1 = Some InternalError ∧ (h w).2 = logged c w in
  fails (updateRating ratingValid (Some s) (Some q)) (Call "Rating" "findById" [Some s])
  ∧ fails (deleteRating env (Some s) userId) (Call "Rating" "findById" [Some s])
  ∧ fails (getRatingsByListing (Some s)) (Call "Rating" "find" [Some s])
  ∧ fails (getAverageRating (Some s)) (Call "Rating" "find" [Some s])
  ∧ fails (getMyRatings s) (Call "Rating" "find" [Some s])
  ∧ fails (getRatingsByUserId (Some s)) (Call "User" "findById" [Some s])
  ∧ fails (getRatingsByLearnerId (Some s)) (Call "User" "findOne" [Some s])
  ∧ fails (getMyReceivedRatings s) (Call "Rating" "find" [Some s])
  ∧ fails (getAverageRatingsByTeacherId (Some s)) (Call "User" "findById" [Some s]).
Proof.
  intros Hl Hc Hq. cbn zeta.
  unfold updateRating, deleteRating, getRatingsByListing, getAverageRating, getMyRatings,
    getRatingsByUserId, getRatingsByLearnerId, getMyReceivedRatings,
    getAverageRatingsByTeacherId, tryCatch.
  rewrite (length_truthy s Hl), (validScore_truthy q Hq).
  change (default "" (Some s)) with s. rewrite Hl. cbn [Nat.eqb negb orb].
  destruct Hq as [Hlo%Qle_bool_iff Hhi%Qle_bool_iff].
  unfold Js.lt, Js.gt. rewrite Hlo, Hhi. cbn [negb orb].
  split_and!;
    (erewrite bind_throw
       by first [apply (User_findById_throw _ _ Hc)
                |apply (User_findOne_throw _ _ Hc)
                |apply awaitOne_throw_ById; [reflexivity|exact Hc]
                |apply (awaitAll_throw _ s); [cbn; set_solver|exact Hc]]);
    reflexivity.
Qed.

Lemma malformed_identifier_is_an_internal_error_witness :
  errorKind (deleteRating today (Some "64e00000000000000000000z") alice
               (sampleWorld "completed" oneRating)).1 = Some InternalError.
Proof.
  refine (proj1 (proj1 (proj2 (malformed_identifier_is_an_internal_error ratingSchema today
                   "64e00000000000000000000z" alice 3 (sampleWorld "completed" oneRating)
                   eq_refl eq_refl _)))).
  split; discriminate.
Defined.

(** ** More of the statistics of a teacher *)

Lemma teacher_stats_found (w : World) (s tid : string) (u : User) :
  castObjectId s = Some tid → users w !! tid = Some u → u_role u = "teacher" →
  ratingsOfTeacher w tid ≠ [] →
  let rs := selected (ofTeacher (Some tid))
              (sortNewestFirst
                 (populate "listingID" ["title"; "description"; "fee"]
                    (populate "learnerID" ["fullname"; "email"]
                       (Rating_find (ByTeacher (Some s)))))) w in
  let res := (getAverageRatingsByTeacherId (Some s) w).1 in
  status res = 200%nat
  ∧ get "averageRating" (body res) = Some (Js.number (Js.toFixed1 (average rs)))
  ∧ get "totalRatings" (body res) = Some (JNat (length rs))
  ∧ get "ratingDistribution" (body res)
    = Some (JObj [("1", JNat (countWhere (λ r, Js.seq r 1) rs));
                  ("2", JNat (countWhere (λ r, Js.seq r 2) rs));
                  ("3", JNat (countWhere (λ r, Js.seq r 3) rs));
                  ("4", JNat (countWhere (λ r, Js.seq r 4) rs));
                  ("5", JNat (countWhere (λ r, Js.seq r 5) rs))])
  ∧ get "uniqueSkillsCount" (body res)
    = Some (JNat (length (remove_dups ((λ r, Ref_id (doc_listingID r)) <$> rs))))
  ∧ recentKey <$> items (get "recentRatings" (body res)) = recentOf <$> take 5 rs.
Proof.
  intros Hc Hu Hr Hne. cbn zeta. run_teacher_stats Hc Hu Hr.
  set (rs := selected _ _ w).
  assert (Hl : length rs ≠ 0%nat).
  { unfold rs. rewrite selected_length, ofTeacher_filter. by destruct (ratingsOfTeacher w tid). }
  apply Nat.eqb_neq in Hl. rewrite Hl.
  unfold respond, mret, M_ret. cbn [fst snd status body].
  split_and!; try reflexivity.
  change (recentKey <$> ((λ rating,
            mkObj [("_id", Some (JStr (doc_id rating)));
                   ("rating", Some (JNum (doc_rating rating)));
                   ("learner", Ref_field "fullname" (doc_learnerID rating));
                   ("skill", Ref_field "title" (doc_listingID rating));
                   ("createdAt", Some (JDate (doc_createdAt rating)))]) <$> take 5 rs)
          = recentOf <$> take 5 rs).
  rewrite <- list_fmap_compose. apply list_fmap_ext. intros _ d _.
  unfold recentKey, recentOf, mkObj, compose. cbn.
  by destruct (Ref_field "fullname" _), (Ref_field "title" _).
Qed.

Lemma remove_dups_length_Permutation `{EqDecision A} (l1 l2 : list A) :
  l1 ≡ₚ l2 → length (remove_dups l1) = length (remove_dups l2).
Proof.
  intros Hp. apply Permutation_length, NoDup_Permutation; try apply NoDup_remove_dups.
  intros x. by rewrite !elem_of_remove_dups, Hp.
Qed.

Lemma selected_skills p q w :
  populated "listingID" (q_populate q) ≠ None →
  (λ r, Ref_id (doc_listingID r)) <$> selected p q w
  ≡ₚ skillOf w <$> List.filter p (map_to_list (ratings w)).
Proof.
  intros Hq. unfold selected.
  assert (H : (λ r, Ref_id (doc_listingID r))
                <$> (toDoc w (q_populate q) <$> List.filter p (map_to_list (ratings w)))
              = skillOf w <$> List.filter p (map_to_list (ratings w))).
  { rewrite <- list_fmap_compose. apply list_fmap_ext. intros _ [k r] _.
    unfold compose, toDoc, skillOf, populateListing. cbn [doc_listingID snd].
    destruct (populated "listingID" (q_populate q)); [|done].
    by destruct (skillListings w !! r_listingID r). }
  destruct (q_sort q); [|by rewrite H].
  by rewrite merge_sort_Permutation, H.
Qed.

(** X16: for a teacher who has received ratings,
    [getAverageRatingsByTeacherId] answers with the number of the ratings,
    with the number of the skills they are about (the listings that exist,
    and one more when a rating is about a listing that does not), and with
    the five newest ratings, or all of them when they are fewer, newest
    first. *)
Theorem teacher_stats_count_skills_and_recent (w : World) (s tid : string) (u : User) :
  castObjectId s = Some tid → users w !! tid = Some u → u_role u = "teacher" →
  ratingsOfTeacher w tid ≠ [] →
  let res := (getAverageRatingsByTeacherId (Some s) w).1 in
  get "totalRatings" (body res) = Some (JNat (length (ratingsOfTeacher w tid)))
  ∧ get "uniqueSkillsCount" (body res)
    = Some (JNat (length (remove_dups (skillOf w <$> ratingsOfTeacher w tid))))
  ∧ ∃ found,
      docKey <$> found ≡ₚ ratingKey <$> ratingsOfTeacher w tid
      ∧ StronglySorted newerEq found
      ∧ recentKey <$> items (get "recentRatings" (body res)) = recentOf <$> take 5 found.
Proof.
  intros Hc Hu Hr Hne.
  destruct (teacher_stats_found w s tid u Hc Hu Hr Hne) as (_ & _ & Ht & _ & Hk & Hrec).
  cbn zeta in *. set (q := sortNewestFirst _) in *.
  split_and!.
  - by rewrite Ht, selected_length, ofTeacher_filter.
  - rewrite Hk. do 2 f_equal. rewrite <- ofTeacher_filter.
    by apply remove_dups_length_Permutation, selected_skills.
  - exists (selected (ofTeacher (Some tid)) q w). split_and!; [| |done].
    + by rewrite selected_keys, ofTeacher_filter.
    + by apply selected_sorted.
Qed.

Lemma teacher_stats_count_skills_and_recent_witness :
  get "uniqueSkillsCount" (body (getAverageRatingsByTeacherId (Some bob)
                                   (sampleWorld "completed" fiveRatings)).1)
  = Some (JNat (length (remove_dups (skillOf (sampleWorld "completed" fiveRatings)
                          <$> ratingsOfTeacher (sampleWorld "completed" fiveRatings) bob)))).
Proof.
  refine (proj1 (proj2 (teacher_stats_count_skills_and_recent
                   (sampleWorld "completed" fiveRatings) bob bob (person "Bob" "teacher")
                   eq_refl eq_refl eq_refl _))).
  vm_compute. discriminate.
Defined.

Lemma count_classes (xs : list Q) :
  (count (λ x, x == 1)%Q xs + count (λ x, x == 2)%Q xs + count (λ x, x == 3)%Q xs
   + count (λ x, x == 4)%Q xs + count (λ x, x == 5)%Q xs)%nat
  = count oneToFive xs.
Proof.
  unfold count. induction xs as [|x xs IH]; [done|].
  rewrite !filter_cons.
  destruct (decide (x == 1)%Q), (decide (x == 2)%Q), (decide (x == 3)%Q),
    (decide (x == 4)%Q), (decide (x == 5)%Q), (decide (oneToFive x));
    cbn [length];
    first [lia | exfalso; unfold oneToFive in *; first [lra | tauto]].
Qed.

Lemma count_length (P : Q → Prop) `{∀ q, Decision (P q)} (xs : list Q) :
  (count P xs ≤ length xs)%nat ∧ (count P xs = length xs ↔ Forall P xs).
Proof.
  unfold count. induction xs as [|x xs [IH1 IH2]]; [by split|].
  rewrite filter_cons. destruct (decide (P x)) as [HP|HP]; cbn [length].
  - split; [lia|]. rewrite Forall_cons, <- IH2. split; [intros [= ?]|intros [_ ?]]; auto.
  - split; [lia|]. split; [lia|]. by intros [? _]%Forall_cons.
Qed.

(** X17: the distribution that [getAverageRatingsByTeacherId] shows counts
    the scores that are one of 1, 2, 3, 4 and 5, each once: its five numbers
    add up to at most the number of ratings, and to that number exactly when
    every score of the teacher is one of the five. *)
Theorem distribution_counts_scores_one_to_five (w : World) (s tid : string) (u : User) :
  castObjectId s = Some tid → users w !! tid = Some u → u_role u = "teacher" →
  ratingsOfTeacher w tid ≠ [] →
  let scores := scoresOf (ratingsOfTeacher w tid) in
  let res := (getAverageRatingsByTeacherId (Some s) w).1 in
  ∃ n1 n2 n3 n4 n5 : nat,
    get "ratingDistribution" (body res)
    = Some (JObj [("1", JNat n1); ("2", JNat n2); ("3", JNat n3); ("4", JNat n4);
                  ("5", JNat n5)])
    ∧ get "totalRatings" (body res) = Some (JNat (length scores))
    ∧ (n1 + n2 + n3 + n4 + n5 ≤ length scores)%nat
    ∧ ((n1 + n2 + n3 + n4 + n5)%nat = length scores ↔ Forall oneToFive scores).
Proof.
  intros Hc Hu Hr Hne scores.
  destruct (teacher_stats_found w s tid u Hc Hu Hr Hne) as (_ & _ & Ht & Hd & _).
  cbn zeta in *. set (q := sortNewestFirst _) in *.
  pose proof (selected_scores (ofTeacher (Some tid)) q w) as Hp.
  rewrite ofTeacher_filter in Hp. fold scores in Hp.
  set (rs := selected (ofTeacher (Some tid)) q w) in *.
  rewrite !(countWhere_count _ (λ x, x == _)%Q rs scores (λ x, Qeq_bool_iff x _) Hp) in Hd.
  eexists _, _, _, _, _. split; [exact Hd|].
  rewrite count_classes. destruct (count_length oneToFive scores) as [Hle Heq].
  split_and!; try done.
  rewrite Ht. do 2 f_equal. by rewrite <- (length_fmap doc_rating), Hp.
Qed.

Lemma distribution_counts_scores_one_to_five_witness :
  ∃ n1 n2 n3 n4 n5 : nat,
    get "ratingDistribution" (body (getAverageRatingsByTeacherId (Some bob)
                                      (sampleWorld "completed" fiveRatings)).1)
    = Some (JObj [("1", JNat n1); ("2", JNat n2); ("3", JNat n3); ("4", JNat n4);
                  ("5", JNat n5)])
    ∧ (n1 + n2 + n3 + n4 + n5 ≤ 5)%nat.
Proof.
  destruct (distribution_counts_scores_one_to_five (sampleWorld "completed" fiveRatings)
              bob bob (person "Bob" "teacher") eq_refl eq_refl eq_refl)
    as (n1 & n2 & n3 & n4 & n5 & Hd & _ & Hle & _).
  - vm_compute. discriminate.
  - exists n1, n2, n3, n4, n5. split; [exact Hd|exact Hle].
Defined.

(** ** The averages shown *)

Lemma average_within (p : ObjectId * Rating → bool) (q : Query) (w : World) :
  scoresInRange w → (size (ratings w) < 2 ^ 32)%nat → selected p q w ≠ [] →
  ∃ a, Js.toFixed1 (average (selected p q w)) = Js.Finite a ∧ validScore a.
Proof.
  intros Hw Hsize Hne. apply average_of_valid.
  - apply Forall_forall. intros x ([k r] & -> & Hin)%list_elem_of_fmap.
    apply list_elem_of_In, filter_In in Hin as [Hin%list_elem_of_In _].
    apply elem_of_map_to_list in Hin. by apply (Hw k r).
  - unfold scoresOf. rewrite length_fmap, <- (selected_length p q w).
    destruct (selected p q w); [done|cbn; lia].
  - unfold scoresOf. rewrite length_fmap.
    eapply Nat.le_lt_trans; [apply List.filter_length_le|]. by rewrite length_map_to_list.
Qed.

Lemma awaitAll_selected (q : Query) (w : World) :
  match awaitAll q w with
  | (Normal rs, _) => ∃ p, rs = selected p q w
  | (Throw _, _) => True
  end.
Proof.
  unfold awaitAll, called, castCondition, read, cast, throw, mbind, M_bind, mret, M_ret.
  destruct (q_condition q); repeat case_match; simplify_eq; eauto.
Qed.

Lemma scoresInRange_same (w w' : World) : sameStore w w' → scoresInRange w → scoresInRange w'.
Proof. intros (_ & _ & _ & Hr) Hw k r. rewrite <- Hr. apply Hw. Qed.

(** X18: while every stored score is within [1, 5], in a store of fewer
    than [2^32] ratings (more do not fit an array), every average that
    [getAverageRating], [getRatingsByListing] and
    [getAverageRatingsByTeacherId] show is within [1, 5] as well: neither
    the rounding of the sum and of the quotient nor the rounding to one
    decimal place leaves the range. *)
Theorem shown_average_is_within_range (w : World) (id : option string) (a : Q) :
  scoresInRange w → (size (ratings w) < 2 ^ 32)%nat →
  get "averageRating" (body (getAverageRating id w).1) = Some (JNum a)
  ∨ get "averageRating" (body (getRatingsByListing id w).1) = Some (JNum a)
  ∨ get "averageRating" (body (getAverageRatingsByTeacherId id w).1) = Some (JNum a) →
  validScore a.
Proof.
  intros Hw Hsize [H|[H|H]].
  - unfold getAverageRating, tryCatch in H.
    destruct (Js.truthy id); cbn [negb] in H; [|discriminate H].
    rewrite bind_unfold in H.
    pose proof (awaitAll_selected (Rating_find (ByListing id)) w) as Hs.
    destruct (awaitAll _ w) as [[rs|e] w']; [|discriminate H].
    destruct Hs as [p ->].
    destruct (length _ <? 5)%nat eqn:E; [discriminate H|].
    destruct (average_within p (Rating_find (ByListing id)) w Hw Hsize) as (a' & Ha & Hv).
    { intros Hnil. rewrite Hnil in E. discriminate E. }
    change (Some (Js.number (Js.toFixed1 (average (selected p (Rating_find (ByListing id)) w))))
            = Some (JNum a)) in H.
    rewrite Ha in H. by injection H as <-.
  - unfold getRatingsByListing, tryCatch in H.
    destruct (Js.truthy id); cbn [negb] in H; [|discriminate H].
    rewrite bind_unfold in H. set (q := sortNewestFirst _) in H.
    pose proof (awaitAll_selected q w) as Hs.
    destruct (awaitAll _ w) as [[rs|e] w']; [|discriminate H].
    destruct Hs as [p ->].
    change (Some (if (5 <=? length (selected p q w))%nat
                  then Js.number (Js.toFixed1 (average (selected p q w))) else JNull)
            = Some (JNum a)) in H.
    destruct (5 <=? length _)%nat eqn:E; [|discriminate H].
    destruct (average_within p q w Hw Hsize) as (a' & Ha & Hv).
    { intros Hnil. rewrite Hnil in E. discriminate E. }
    rewrite Ha in H. by injection H as <-.
  - unfold getAverageRatingsByTeacherId, tryCatch in H.
    destruct (Js.truthy id); cbn [negb] in H; [|discriminate H].
    destruct (String.length (default "" id) =? 24)%nat; cbn [negb] in H; [|discriminate H].
    rewrite bind_unfold in H.
    pose proof (readOnly_User_findById id w) as Hsame.
    destruct (User_findById id w) as [[[teacher|]|e] w1]; [|discriminate H..].
    cbn [snd] in Hsame.
    destruct (u_role teacher.2 =? "teacher")%string; cbn [negb] in H; [|discriminate H].
    rewrite bind_unfold in H. set (q := sortNewestFirst _) in H.
    pose proof (awaitAll_selected q w1) as Hs.
    destruct (awaitAll _ w1) as [[rs|e] w']; [|discriminate H].
    destruct Hs as [p ->].
    destruct (length _ =? 0)%nat eqn:E; [discriminate H|].
    destruct (average_within p q w1) as (a' & Ha & Hv).
    { by apply (scoresInRange_same w). }
    { destruct Hsame as (_ & _ & _ & <-). done. }
    { intros Hnil. rewrite Hnil in E. discriminate E. }
    change (Some (Js.number (Js.toFixed1 (average (selected p q w1)))) = Some (JNum a)) in H.
    rewrite Ha in H. by injection H as <-.
Qed.

Lemma shown_average_is_within_range_witness :
  ∃ a, get "averageRating" (body (getAverageRating (Some piano)
                                    (sampleWorld "completed" fiveRatings)).1)
       = Some (JNum a)
       ∧ validScore a.
Proof.
  eexists. split; [vm_compute; reflexivity|].
  eapply (shown_average_is_within_range (sampleWorld "completed" fiveRatings) (Some piano)).
  - apply (bool_decide_unpack (map_Forall (λ _ r, validScore (r_rating r)) fiveRatings)).
    vm_compute. reflexivity.
  - apply small_length. vm_compute. lia.
  - left. vm_compute. reflexivity.
Defined.

(** ** Ratings that do not exist, ratings of a listing, writes that fail *)

(** X19: [deleteRating] with a well-formed identifier under which no rating
    is stored answers with a not-found error, whoever asks, after the one
    query that looks the rating up, and changes nothing. *)
Theorem deleteRating_unknown_rating (env : Env) (id oid userId : string) (w : World) :
  castObjectId id = Some oid → ratings w !! oid = None →
  let res := deleteRating env (Some id) userId w in
  errorKind res.1 = Some NotFoundError
  ∧ message res.1 = Some (JStr "Rating not found")
  ∧ sameStore w res.2
  ∧ trace res.2 = (trace w ++ [Call "Rating" "findById" [Some id]])%list.
Proof.
  intros Hc Hr. cbn zeta. rewrite (deleteRating_missing env id oid userId w Hc Hr).
  by split_and!.
Qed.

Lemma deleteRating_unknown_rating_witness :
  errorKind (deleteRating today (Some rating2) alice (sampleWorld "completed" oneRating)).1
  = Some NotFoundError.
Proof.
  exact (proj1 (deleteRating_unknown_rating today rating2 rating2 alice
                  (sampleWorld "completed" oneRating) eq_refl eq_refl)).
Defined.

(** X20: [getRatingsByListing] answers with the ratings of the listing, each
    once, newest first, and with their number; [getAverageRating] reports
    the same number.  Neither looks the listing up: a listing that does not
    exist is answered like a listing without ratings. *)
Theorem listing_ratings_newest_first (w : World) (s lid : string) :
  castObjectId s = Some lid →
  let listed := getRatingsByListing (Some s) w in
  let averaged := getAverageRating (Some s) w in
  status listed.1 = 200%nat
  ∧ (∃ found,
       get "ratings" (body listed.1) = Some (JArr (RatingDoc_toJSON <$> found))
       ∧ docKey <$> found ≡ₚ ratingKey <$> ratingsOfListing w lid
       ∧ StronglySorted newerEq found)
  ∧ get "totalRatings" (body listed.1) = Some (JNat (length (ratingsOfListing w lid)))
  ∧ get "totalRatings" (body averaged.1) = Some (JNat (length (ratingsOfListing w lid)))
  ∧ listed.2 = logged (Call "Rating" "find" [Some s]) w
  ∧ averaged.2 = logged (Call "Rating" "find" [Some s]) w.
Proof.
  intros Hc. cbn zeta.
  destruct (getRatingsByListing_found w s lid Hc) as (H200 & Hitems & Htotal).
  cbn zeta in Hitems, Htotal. set (q := sortNewestFirst _) in *.
  rewrite (getAverageRating_run w s lid Hc). cbn zeta.
  rewrite !selected_length, ofListing_filter in *.
  split_and!; try done.
  - exists (selected (ofListing (Some lid)) q w). split_and!; [done| |].
    + by rewrite selected_keys, ofListing_filter.
    + by apply selected_sorted.
  - by destruct (length (ratingsOfListing w lid) <? 5)%nat.
  - unfold getRatingsByListing, tryCatch.
    rewrite (castObjectId_truthy _ _ Hc). cbn [negb].
    by erewrite bind_run by (apply awaitAll_run, casts_ByListing, Hc).
Qed.

Lemma listing_ratings_newest_first_witness :
  get "totalRatings" (body (getAverageRating (Some piano)
                              (sampleWorld "completed" fiveRatings)).1)
  = Some (JNat (length (ratingsOfListing (sampleWorld "completed" fiveRatings) piano))).
Proof.
  exact (proj1 (proj2 (proj2 (proj2 (listing_ratings_newest_first
                  (sampleWorld "completed" fiveRatings) piano piano eq_refl))))).
Defined.

(** X21: a request that passes every gate of [createRating] but whose score
    the schema turns down, or for which the new identifier is taken, is
    answered with an internal error, not with a validation error, and no
    rating is written. *)
Theorem createRating_failed_write_is_an_internal_error
    (ratingValid : Q → bool) (env : Env) (req : CreateRatingBody) (q : Q) (w : World) :
  firstFailure gateOrder req w = None → body_rating req = Some q →
  ratingValid q = false ∨ is_Some (ratings w !! newObjectId env) →
  let res := createRating ratingValid env req w in
  errorKind res.1 = Some InternalError ∧ sameStore w res.2.
Proof.
  intros Hf Hq Hfail. cbn zeta.
  pose proof (createRating_outcome ratingValid env req w) as Ho. cbn zeta in Ho.
  rewrite Hf in Ho. destruct Ho as (l & t & s & q' & _ & Hq' & _ & Hu & Hl & Hs & Hw).
  rewrite Hq in Hq'. injection Hq' as <-.
  assert (Hno : ratingValid q && negb (bool_decide (is_Some (ratings w !! newObjectId env)))
                = false).
  { destruct Hfail as [->|Hi]; [done|]. rewrite (bool_decide_eq_true_2 _ Hi).
    apply andb_false_r. }
  rewrite Hno in Hw. destruct Hw as [-> Hr]. split; [done|]. by repeat split.
Qed.

Lemma createRating_failed_write_is_an_internal_error_witness :
  errorKind (createRating ratingSchema today (request alice bob piano (9 # 2))
               (sampleWorld "completed" ∅)).1 = Some InternalError.
Proof.
  refine (proj1 (createRating_failed_write_is_an_internal_error ratingSchema today
                   (request alice bob piano (9 # 2)) (9 # 2) (sampleWorld "completed" ∅)
                   _ eq_refl _)).
  - vm_compute. reflexivity.
  - left. reflexivity.
Defined.

(** ** What the handlers check of an identifier *)




(** ** Calling twice *)








